(** * Storage layer of the insights results aggregator

    A shallow embedding of [storage/storage.go] and [storage/rule_toggle.go]:
    the SQL tables are lists of rows, the [*sql.DB] handle is a record holding
    the committed tables, a script of driver outcomes and the trace of the
    calls that reached the driver, and every method of [DBStorage] is a
    function that threads the [DBStorage] value.  [time.Now()] is an argument
    [now] of the methods that read the clock.  Logging and the metrics
    counter are left out, closing a row set never fails, and the development
    is sequential: one call runs to completion before the next one starts. *)

From Stdlib Require Import ZArith Lia Bool Ascii.
From stdpp Require Import base option list strings pretty gmap sorting.

Local Open Scope Z_scope.

(** ** Package [types]

    Modelled from the spec: package [types] is not among the sources of the
    storage; its types, constants and errors are declared here as the
    storage uses them. *)

Module types.

(** [time.Time], as an instant on the time line. *)
Abbreviation Time := Z (only parsing).

(** [OrgID] is a [uint32]; [KafkaOffset] an [int64]; the others are string
    types. *)
Abbreviation OrgID := Z (only parsing).
Abbreviation ClusterName := string (only parsing).
Abbreviation ClusterReport := string (only parsing).
Abbreviation RuleID := string (only parsing).
Abbreviation ErrorKey := string (only parsing).
Abbreviation KafkaOffset := Z (only parsing).

(** [Timestamp] is a string type; the storage makes its values with
    [t.UTC().Format(time.RFC3339)], kept symbolic here in the instant [t]
    that is rendered, and with the empty literal. *)
Inductive Timestamp :=
| RFC3339 (t : Time)
| EmptyTimestamp.

(** Instants are counted from the zero [time.Time], which is therefore 0. *)
Definition zeroTime : Time := 0.

(** Modelled from the spec: [DBDriver], with the two driver types that the
    storage names and one for any other. *)
Inductive DBDriver :=
| DBDriverSQLite3
| DBDriverPostgres
| DBDriverOther.

(** Modelled from the spec: [ReportItem], one rule hit as it arrives from
    the consumer, with the three fields that [updateReport] reads
    ([json.RawMessage] is a byte string). *)
Record ReportItem := mkReportItem {
  item_Module : RuleID;
  item_ErrorKey : ErrorKey;
  item_TemplateData : string
}.

(** The template data of a rule hit on the read path ([interface{}] in the
    source), which [parseTemplateData] makes: a [json.RawMessage], or the
    bytes as they were stored. *)
Inductive TemplateData :=
| TemplateJSON (raw : string)
| TemplateBytes (data : string).

(** Modelled from the spec: [RuleOnReport], with the three fields that
    [parseRuleRows] sets. *)
Record RuleOnReport := mkRuleOnReport {
  rule_Module : RuleID;
  rule_ErrorKey : ErrorKey;
  rule_TemplateData : TemplateData
}.

End types.
Import types.

#[global] Instance DBDriver_eq_dec : EqDecision DBDriver.
Proof. solve_decision. Defined.

(** ** Values bound to the placeholders of a statement *)

Inductive SQLArg :=
| ArgInt (z : Z)
| ArgText (s : string)
| ArgTime (t : Time)
| ArgNullTime (t : option Time).

#[global] Instance SQLArg_eq_dec : EqDecision SQLArg.
Proof. solve_decision. Defined.

(** ** Errors

    The values of Go's [error] that the storage returns or passes on;
    [types.ErrOldReport] and [types.ItemNotFoundError] are declared in
    package [types]. *)

Inductive error :=
| ErrNoRows                                   (* sql.ErrNoRows *)
| ErrOldReport                                (* types.ErrOldReport *)
| ItemNotFoundError (itemID : list SQLArg)    (* types.ItemNotFoundError *)
| Errorf (msg : string)                       (* fmt.Errorf without verbs *)
| UnsupportedDB (d : DBDriver)                (* fmt.Errorf("writing report with DB %v is not supported", d) *)
| ScanError (column : string)                 (* conversion failure in rows.Scan *)
| SyntaxError (msg : string)                  (* json.SyntaxError *)
| DriverError (msg : string).                 (* any failure reported by the driver *)

(** Modelled from the spec: [types.ConvertDBError] is declared in package
    [types], outside the storage sources.  The not-found signal of the
    driver becomes the domain-specific not-found error carrying the item
    identifier; [nil] stays [nil]; every other error is passed on as it is. *)
Definition ConvertDBError (err : option error) (itemID : list SQLArg) : option error :=
  match err with
  | None => None
  | Some ErrNoRows => Some (ItemNotFoundError itemID)
  | Some e => Some e
  end.

(** ** Tables *)

Record ReportRow := mkReportRow {
  r_org_id : Z;
  r_cluster : string;
  r_report : string;
  r_reported_at : Time;
  r_last_checked_at : Time;
  r_kafka_offset : Z
}.

Record RuleHitRow := mkRuleHitRow {
  h_org_id : Z;
  h_cluster_id : string;
  h_rule_fqdn : string;
  h_error_key : string;
  h_template_data : string
}.

Record ToggleRow := mkToggleRow {
  g_cluster_id : string;
  g_rule_id : string;
  g_error_key : string;
  g_disabled : Z;
  g_disabled_at : option Time;
  g_enabled_at : option Time;
  g_updated_at : Time
}.

Record DB := mkDB {
  report : list ReportRow;
  rule_hit : list RuleHitRow;
  cluster_rule_toggle : list ToggleRow
}.

(** ** The connection *)

(** What reaches the driver. *)
Inductive Call :=
| CQuery (query : string) (args : list SQLArg)
| CExec (query : string) (args : list SQLArg)
| CBegin
| CCommit
| CRollback.

(** [committed] is what every reader sees; [script] gives the outcome of the
    next driver calls, one entry per call ([None]: the call does what the
    statement says, [Some e]: the driver reports [e] and nothing happens);
    past the end of the script every call works.  [trace] records the calls
    in the order they were made. *)
Record Conn := mkConn {
  committed : DB;
  script : list (option error);
  trace : list Call
}.

(** One round trip to the driver. *)
Definition roundtrip (c : Call) (cn : Conn) : option error * Conn :=
  match script cn with
  | [] => (None, mkConn (committed cn) [] (trace cn ++ [c]))
  | o :: rest => (o, mkConn (committed cn) rest (trace cn ++ [c]))
  end.

(** [connection.Query]: the rows of [sel] over the committed tables. *)
Definition Query {R} (q : string) (args : list SQLArg) (sel : DB -> list R)
    (cn : Conn) : list R * option error * Conn :=
  match roundtrip (CQuery q args) cn with
  | (Some e, cn') => ([], Some e, cn')
  | (None, cn') => (sel (committed cn'), None, cn')
  end.

(** [connection.Exec] outside a transaction: applied and committed at once. *)
Definition Exec (q : string) (args : list SQLArg) (upd : DB -> DB)
    (cn : Conn) : option error * Conn :=
  match roundtrip (CExec q args) cn with
  | (Some e, cn') => (Some e, cn')
  | (None, cn') => (None, mkConn (upd (committed cn')) (script cn') (trace cn'))
  end.

(** A transaction works on its own copy of the tables. *)
Record Tx := mkTx { pending : DB }.

Definition Begin (cn : Conn) : (error + Tx) * Conn :=
  match roundtrip CBegin cn with
  | (Some e, cn') => (inl e, cn')
  | (None, cn') => (inr (mkTx (committed cn')), cn')
  end.

Definition TxQuery {R} (q : string) (args : list SQLArg) (sel : DB -> list R)
    (tx : Tx) (cn : Conn) : list R * option error * Conn :=
  match roundtrip (CQuery q args) cn with
  | (Some e, cn') => ([], Some e, cn')
  | (None, cn') => (sel (pending tx), None, cn')
  end.

Definition TxExec (q : string) (args : list SQLArg) (upd : DB -> DB)
    (tx : Tx) (cn : Conn) : option error * Tx * Conn :=
  match roundtrip (CExec q args) cn with
  | (Some e, cn') => (Some e, tx, cn')
  | (None, cn') => (None, mkTx (upd (pending tx)), cn')
  end.

(** [tx.Commit]: the copy becomes the committed state, unless the driver
    fails, in which case the copy is lost. *)
Definition Commit (tx : Tx) (cn : Conn) : option error * Conn :=
  match roundtrip CCommit cn with
  | (Some e, cn') => (Some e, cn')
  | (None, cn') => (None, mkConn (pending tx) (script cn') (trace cn'))
  end.

Definition Rollback (tx : Tx) (cn : Conn) : option error * Conn :=
  roundtrip CRollback cn.

(** [QueryRow(...).Scan(...)]: the first row, [sql.ErrNoRows] when there is
    none; the conversion of the row is [scan]. *)
Definition QueryRow {R A} (q : string) (args : list SQLArg) (sel : DB -> list R)
    (scan : R -> error + A) (cn : Conn) : (error + A) * Conn :=
  match Query q args sel cn with
  | (_, Some e, cn') => (inl e, cn')
  | ([], None, cn') => (inl ErrNoRows, cn')
  | (r :: _, None, cn') => (scan r, cn')
  end.

(** ** The storage value *)

Record DBStorage := mkDBStorage {
  connection : Conn;
  dbDriverType : DBDriver;
  clustersLastChecked : gmap string Time
}.

Definition withConn (storage : DBStorage) (cn : Conn) : DBStorage :=
  mkDBStorage cn (dbDriverType storage) (clustersLastChecked storage).

(** [NewFromConnection] *)
Definition NewFromConnection (cn : Conn) (dbDriverType : DBDriver) : DBStorage :=
  mkDBStorage cn dbDriverType ∅.

(** ** What the statements of the storage do to the tables

    Each function below is the meaning of one SQL text of the sources; rows
    come back in table order unless the statement orders them. *)

Module sql.

(** Insertion of [x] into a list ordered by [le], for [ORDER BY]. *)
Fixpoint insert_by {A} (le : A -> A -> bool) (x : A) (l : list A) : list A :=
  match l with
  | [] => [x]
  | y :: l' => if le x y then x :: l else y :: insert_by le x l'
  end.

Definition order_by {A} (le : A -> A -> bool) (l : list A) : list A :=
  foldr (insert_by le) [] l.

(** [SELECT cluster, last_checked_at FROM report] *)
Definition clusters_last_checked (db : DB) : list (string * Time) :=
  map (fun r => (r_cluster r, r_last_checked_at r)) (report db).

(** [SELECT DISTINCT org_id FROM report ORDER BY org_id] *)
Definition distinct_orgs (db : DB) : list Z :=
  order_by Z.leb (remove_dups (map r_org_id (report db))).

(** [SELECT cluster FROM report WHERE org_id = $1 AND reported_at >= $2 ORDER BY cluster] *)
Definition clusters_of_org (orgID : Z) (timeLimit : Time) (db : DB) : list string :=
  order_by String.leb
    (map r_cluster
       (filter (fun r => r_org_id r = orgID /\ timeLimit <= r_reported_at r) (report db))).

(** [SELECT last_checked_at FROM report WHERE org_id = $1 AND cluster = $2] *)
Definition last_checked_of (orgID : Z) (cluster : string) (db : DB) : list Time :=
  map r_last_checked_at
    (filter (fun r => r_org_id r = orgID /\ r_cluster r = cluster) (report db)).

(** [SELECT last_checked_at FROM report WHERE cluster = $1] *)
Definition last_checked_of_cluster (cluster : string) (db : DB) : list Time :=
  map r_last_checked_at (filter (fun r => r_cluster r = cluster) (report db)).

(** [SELECT last_checked_at FROM report
     WHERE org_id = $1 AND cluster = $2 AND last_checked_at > $3] *)
Definition more_recent (orgID : Z) (cluster : string) (t : Time) (db : DB) : list Time :=
  map r_last_checked_at
    (filter (fun r => r_org_id r = orgID /\ r_cluster r = cluster /\ t < r_last_checked_at r)
            (report db)).

(** [SELECT template_data, rule_fqdn, error_key FROM rule_hit
     WHERE org_id = $1 AND cluster_id = $2] *)
Definition hits_of (orgID : Z) (cluster : string) (db : DB) : list (string * string * string) :=
  map (fun h => (h_template_data h, h_rule_fqdn h, h_error_key h))
    (filter (fun h => h_org_id h = orgID /\ h_cluster_id h = cluster) (rule_hit db)).

(** [SELECT template_data, rule_fqdn, error_key FROM rule_hit WHERE cluster_id = $1] *)
Definition hits_of_cluster (cluster : string) (db : DB) : list (string * string * string) :=
  map (fun h => (h_template_data h, h_rule_fqdn h, h_error_key h))
    (filter (fun h => h_cluster_id h = cluster) (rule_hit db)).

(** [SELECT cluster, report FROM report WHERE cluster in (...)], with the
    values bound to the placeholders of the list. *)
Definition reports_in (args : list SQLArg) (db : DB) : list (string * string) :=
  map (fun r => (r_cluster r, r_report r))
    (filter (fun r => ArgText (r_cluster r) ∈ args) (report db)).

(** [SELECT DISTINCT org_id FROM report WHERE cluster in (...)] *)
Definition orgs_in (args : list SQLArg) (db : DB) : list Z :=
  remove_dups (map r_org_id (filter (fun r => ArgText (r_cluster r) ∈ args) (report db))).

(** [DELETE FROM rule_hit WHERE org_id = $1 AND cluster_id = $2] *)
Definition delete_hits (orgID : Z) (cluster : string) (db : DB) : DB :=
  mkDB (report db)
       (filter (fun h => ~ (h_org_id h = orgID /\ h_cluster_id h = cluster)) (rule_hit db))
       (cluster_rule_toggle db).

(** The primary key of [rule_hit]. *)
Definition hit_key (h : RuleHitRow) : Z * string * string * string :=
  (h_org_id h, h_cluster_id h, h_rule_fqdn h, h_error_key h).

(** [INSERT OR REPLACE INTO rule_hit ...]: rows with the key of the new row
    go, the new row is added. *)
Definition replace_hit (new : RuleHitRow) (tbl : list RuleHitRow) : list RuleHitRow :=
  filter (fun h => hit_key h <> hit_key new) tbl ++ [new].

(** [INSERT INTO rule_hit ... ON CONFLICT (org_id, cluster_id, rule_fqdn, error_key)
     DO UPDATE SET template_data = $4]: the fourth bound value is the error key. *)
Definition conflict_update_hit (new : RuleHitRow) (tbl : list RuleHitRow) : list RuleHitRow :=
  if bool_decide (Exists (fun h => hit_key h = hit_key new) tbl)
  then map (fun h => if bool_decide (hit_key h = hit_key new)
                     then mkRuleHitRow (h_org_id h) (h_cluster_id h) (h_rule_fqdn h)
                                       (h_error_key h) (h_error_key new)
                     else h) tbl
  else tbl ++ [new].

(** [INSERT OR REPLACE INTO report ...]: [cluster] is unique, and
    [(org_id, cluster)] the primary key, so the rows of the new row's cluster
    go. *)
Definition replace_report (new : ReportRow) (tbl : list ReportRow) : list ReportRow :=
  filter (fun r => r_cluster r <> r_cluster new) tbl ++ [new].

(** [INSERT INTO report ... ON CONFLICT (cluster) DO UPDATE SET org_id = $1,
     report = $3, reported_at = $4, last_checked_at = $5, kafka_offset = $6] *)
Definition conflict_update_report (new : ReportRow) (tbl : list ReportRow) : list ReportRow :=
  if bool_decide (Exists (fun r => r_cluster r = r_cluster new) tbl)
  then map (fun r => if bool_decide (r_cluster r = r_cluster new)
                     then mkReportRow (r_org_id new) (r_cluster r) (r_report new)
                                      (r_reported_at new) (r_last_checked_at new)
                                      (r_kafka_offset new)
                     else r) tbl
  else tbl ++ [new].

(** The key of the [ON CONFLICT] clause of [cluster_rule_toggle]. *)
Definition toggle_key (g : ToggleRow) : string * string * string :=
  (g_cluster_id g, g_rule_id g, g_error_key g).

(** [INSERT INTO cluster_rule_toggle ... ON CONFLICT (cluster_id, rule_id, error_key)
     DO UPDATE SET disabled = $4, disabled_at = $5, enabled_at = $6, updated_at = $7] *)
Definition upsert_toggle (new : ToggleRow) (db : DB) : DB :=
  mkDB (report db) (rule_hit db)
    (if bool_decide (Exists (fun g => toggle_key g = toggle_key new) (cluster_rule_toggle db))
     then map (fun g => if bool_decide (toggle_key g = toggle_key new)
                        then mkToggleRow (g_cluster_id g) (g_rule_id g) (g_error_key g)
                               (g_disabled new) (g_disabled_at new) (g_enabled_at new)
                               (g_updated_at new)
                        else g) (cluster_rule_toggle db)
     else cluster_rule_toggle db ++ [new]).

(** The first row with the greatest [updated_at]. *)
Fixpoint latest (rows : list ToggleRow) : option ToggleRow :=
  match rows with
  | [] => None
  | g :: rows' =>
      match latest rows' with
      | Some g' => if g_updated_at g <? g_updated_at g' then Some g' else Some g
      | None => Some g
      end
  end.

(** [SELECT ... FROM cluster_rule_toggle WHERE cluster_id = $1 AND rule_id = $2
     ORDER BY updated_at DESC LIMIT 1] *)
Definition latest_toggle (cluster : string) (rule : string) (db : DB) : list ToggleRow :=
  option_list
    (latest (filter (fun g => g_cluster_id g = cluster /\ g_rule_id g = rule)
                    (cluster_rule_toggle db))).

(** The number of placeholders [$] in a statement text. *)
Fixpoint placeholders (q : string) : nat :=
  match q with
  | EmptyString => 0%nat
  | String c q' => ((if Ascii.eqb c "$"%char then 1 else 0) + placeholders q')%nat
  end.

End sql.

(** ** A decoder for one JSON value

    The grammar that [encoding/json] accepts when the target is a
    [json.RawMessage]: one value of RFC 8259 between optional white space,
    nested at most [maxNestingDepth] deep; the result is the text of the
    value without the white space around it. *)

Module GoJSON.

Local Open Scope char_scope.

Definition isSpace (c : ascii) : bool :=
  Ascii.eqb c " " || Ascii.eqb c "009" || Ascii.eqb c "010" || Ascii.eqb c "013".

Definition isDigit (c : ascii) : bool :=
  (48 <=? nat_of_ascii c)%nat && (nat_of_ascii c <=? 57)%nat.

Definition isHex (c : ascii) : bool :=
  isDigit c
  || ((97 <=? nat_of_ascii c)%nat && (nat_of_ascii c <=? 102)%nat)
  || ((65 <=? nat_of_ascii c)%nat && (nat_of_ascii c <=? 70)%nat).

Definition isExp (c : ascii) : bool := Ascii.eqb c "e" || Ascii.eqb c "E".

Definition maxNestingDepth : Z := 10000.

Fixpoint skipSpace (s : string) : string :=
  match s with
  | String c s' => if isSpace c then skipSpace s' else s
  | EmptyString => s
  end.

Fixpoint skipDigits (s : string) : string :=
  match s with
  | String c s' => if isDigit c then skipDigits s' else s
  | EmptyString => s
  end.

(** The text after the closing quote of a string literal whose opening quote
    has been read. *)
Fixpoint scanString (s : string) : option string :=
  match s with
  | EmptyString => None
  | String c s' =>
      if Ascii.eqb c "034" then Some s'
      else if Ascii.eqb c "\" then
        match s' with
        | String e s'' =>
            if Ascii.eqb e "b" || Ascii.eqb e "f" || Ascii.eqb e "n" || Ascii.eqb e "r"
               || Ascii.eqb e "t" || Ascii.eqb e "\" || Ascii.eqb e "/" || Ascii.eqb e "034"
            then scanString s''
            else if Ascii.eqb e "u" then
              match s'' with
              | String h1 (String h2 (String h3 (String h4 rest))) =>
                  if isHex h1 && isHex h2 && isHex h3 && isHex h4
                  then scanString rest else None
              | _ => None
              end
            else None
        | EmptyString => None
        end
      else if (nat_of_ascii c <? 32)%nat then None
      else scanString s'
  end.

(** After [e] or [E]: an optional sign and at least one digit. *)
Definition scanExponent (s : string) : option string :=
  let s1 := match s with
            | String c s' => if Ascii.eqb c "+" || Ascii.eqb c "-" then s' else s
            | EmptyString => s
            end in
  match s1 with
  | String d s2 => if isDigit d then Some (skipDigits s2) else None
  | EmptyString => None
  end.

(** After the integer part of a number. *)
Definition scanFraction (s : string) : option string :=
  match s with
  | String c s1 =>
      if Ascii.eqb c "." then
        match s1 with
        | String d s2 =>
            if isDigit d then
              match skipDigits s2 with
              | String e r => if isExp e then scanExponent r else Some (String e r)
              | EmptyString => Some EmptyString
              end
            else None
        | EmptyString => None
        end
      else if isExp c then scanExponent s1
      else Some s
  | EmptyString => Some s
  end.

Definition scanNumber (s : string) : option string :=
  let s0 := match s with
            | String c s' => if Ascii.eqb c "-" then s' else s
            | EmptyString => s
            end in
  match s0 with
  | String d s1 =>
      if Ascii.eqb d "0" then scanFraction s1
      else if isDigit d then scanFraction (skipDigits s1)
      else None
  | EmptyString => None
  end.

Definition scanLiteral (lit s : string) : option string :=
  if String.prefix lit s
  then Some (String.substring (String.length lit) (String.length s - String.length lit) s)
  else None.

(** The text after one value that starts at the head of [s]; [elements] and
    [members] read what follows the opening bracket or a comma. *)
Fixpoint scanValue (fuel : nat) (depth : Z) (s : string) : option string :=
  match fuel with
  | O => None
  | S fuel' =>
      match s with
      | EmptyString => None
      | String c s' =>
          if Ascii.eqb c "[" then
            if (depth + 1 <=? maxNestingDepth)%Z then
              match skipSpace s' with
              | String c' r =>
                  if Ascii.eqb c' "]" then Some r
                  else scanElements fuel' (depth + 1) (String c' r)
              | EmptyString => None
              end
            else None
          else if Ascii.eqb c "{" then
            if (depth + 1 <=? maxNestingDepth)%Z then
              match skipSpace s' with
              | String c' r =>
                  if Ascii.eqb c' "}" then Some r
                  else scanMembers fuel' (depth + 1) (String c' r)
              | EmptyString => None
              end
            else None
          else if Ascii.eqb c "034" then scanString s'
          else if Ascii.eqb c "t" then scanLiteral "true" s
          else if Ascii.eqb c "f" then scanLiteral "false" s
          else if Ascii.eqb c "n" then scanLiteral "null" s
          else scanNumber s
      end
  end

with scanElements (fuel : nat) (depth : Z) (s : string) : option string :=
  match fuel with
  | O => None
  | S fuel' =>
      match scanValue fuel' depth s with
      | Some r =>
          match skipSpace r with
          | String c r' =>
              if Ascii.eqb c "," then scanElements fuel' depth (skipSpace r')
              else if Ascii.eqb c "]" then Some r'
              else None
          | EmptyString => None
          end
      | None => None
      end
  end

with scanMembers (fuel : nat) (depth : Z) (s : string) : option string :=
  match fuel with
  | O => None
  | S fuel' =>
      match s with
      | String q s' =>
          if Ascii.eqb q "034" then
            match scanString s' with
            | Some r =>
                match skipSpace r with
                | String c r' =>
                    if Ascii.eqb c ":" then
                      match scanValue fuel' depth (skipSpace r') with
                      | Some r'' =>
                          match skipSpace r'' with
                          | String c' r''' =>
                              if Ascii.eqb c' "," then scanMembers fuel' depth (skipSpace r''')
                              else if Ascii.eqb c' "}" then Some r'''
                              else None
                          | EmptyString => None
                          end
                      | None => None
                      end
                    else None
                | EmptyString => None
                end
            | None => None
            end
          else None
      | EmptyString => None
      end
  end.

(** [json.Unmarshal(data, &raw)] with [raw] a [json.RawMessage]. *)
Definition Unmarshal (data : string) : error + string :=
  let s := skipSpace data in
  match scanValue (2 * String.length s + 2) 0 s with
  | Some r =>
      match skipSpace r with
      | EmptyString => inr (String.substring 0 (String.length s - String.length r) s)
      | String _ _ => inl (SyntaxError "invalid character after top-level value")
      end
  | None => inl (SyntaxError "invalid JSON text")
  end.

End GoJSON.

(** ** What the statements of the remaining operations do

    As in [sql], one function for each text.  The statements that delete
    from [report] name that table alone: the other tables of the model stay
    as they are. *)

(** [SELECT org_id FROM report WHERE cluster = $1 ORDER BY org_id] *)
Definition stmt_orgs_of_cluster (cluster : string) (db : DB) : list Z :=
  sql.order_by Z.leb (map r_org_id (filter (fun r => r_cluster r = cluster) (report db))).

(** [SELECT template_data FROM rule_hit
     WHERE org_id = $1 AND cluster_id = $2 AND rule_fqdn = $3 AND error_key = $4] *)
Definition stmt_template_of (orgID : Z) (cluster rule errorKey : string) (db : DB)
    : list string :=
  map h_template_data
    (filter (fun h => sql.hit_key h = (orgID, cluster, rule, errorKey)) (rule_hit db)).

(** [SELECT COALESCE(MAX(kafka_offset), 0) FROM report]: always one row. *)
Definition stmt_max_offset (db : DB) : list Z :=
  [match report db with
   | [] => 0
   | r :: rows => foldl Z.max (r_kafka_offset r) (map r_kafka_offset rows)
   end].

(** The statement that counts the rows of [report]: always one row. *)
Definition stmt_count (db : DB) : list Z := [Z.of_nat (length (report db))].

(** [SELECT cluster FROM report WHERE cluster = $1] *)
Definition stmt_cluster (cluster : string) (db : DB) : list string :=
  map r_cluster (filter (fun r => r_cluster r = cluster) (report db)).

(** [DELETE FROM report WHERE org_id = $1] *)
Definition stmt_delete_org (orgID : Z) (db : DB) : DB :=
  mkDB (filter (fun r => r_org_id r <> orgID) (report db)) (rule_hit db)
       (cluster_rule_toggle db).

(** [DELETE FROM report WHERE cluster = $1] *)
Definition stmt_delete_cluster (cluster : string) (db : DB) : DB :=
  mkDB (filter (fun r => r_cluster r <> cluster) (report db)) (rule_hit db)
       (cluster_rule_toggle db).

(** [DELETE FROM cluster_rule_toggle WHERE cluster_id = $1 AND rule_id = $2] *)
Definition stmt_delete_toggle (cluster rule : string) (db : DB) : DB :=
  mkDB (report db) (rule_hit db)
       (filter (fun g => ~ (g_cluster_id g = cluster /\ g_rule_id g = rule))
               (cluster_rule_toggle db)).

(** ** storage.go and rule_toggle.go *)

(** [RuleToggle] of rule_toggle.go is an [int]. *)
Abbreviation RuleToggle := Z (only parsing).

Section Storage.

(** [json.Unmarshal(data, &raw)] with [raw] a [json.RawMessage]: an error
    when [data] is not one well-formed JSON value, the bytes of that value
    otherwise.  The decoder belongs to the standard library of the
    language. *)
Variable json_Unmarshal : string -> error + string.

(** The answer of the database to a statement whose text is assembled from
    data at run time. *)
Variable run_text : string -> list SQLArg -> DB -> list (string * Z).

(** *** Statement texts *)

Definition clustersForOrgQuery : string := "
		SELECT cluster
		FROM report
		WHERE org_id = $1
		AND reported_at >= $2
		ORDER BY cluster;
	".

Definition toggleRuleQuery : string := "
		INSERT INTO cluster_rule_toggle(
			cluster_id, rule_id, error_key, disabled, disabled_at, enabled_at, updated_at
		)
		VALUES ($1, $2, $3, $4, $5, $6, $7)
		ON CONFLICT (cluster_id, rule_id, error_key) DO UPDATE SET
			disabled = $4,
			disabled_at = $5,
			enabled_at = $6,
			updated_at = $7
	".

Definition getToggleQuery : string := "
	SELECT
		cluster_id,
		rule_id,
		disabled,
		disabled_at,
		enabled_at,
		updated_at
	FROM
		cluster_rule_toggle
	WHERE
		cluster_id = $1 AND
		rule_id = $2
	ORDER BY
		updated_at DESC
	LIMIT 1
	".

(** The [query] of [GetTogglesForRules], before and after its [%v]. *)
Definition togglesForRulesQuery_before : string := "
	SELECT
		rule_id,
		disabled
	FROM
		cluster_rule_toggle
	WHERE
		cluster_id = $1 AND
		rule_id in (".

Definition togglesForRulesQuery_after : string := ")
	".

(** *** Init *)

Definition Init (storage : DBStorage) : option error * DBStorage :=
  let '(rows, err, cn) :=
    Query "SELECT cluster, last_checked_at FROM report;" []
          sql.clusters_last_checked (connection storage) in
  match err with
  | Some e => (Some e, withConn storage cn)
  | None =>
      (None,
       mkDBStorage cn (dbDriverType storage)
         (foldl (fun m row => <[row.1 := row.2]> m) (clustersLastChecked storage) rows))
  end.

(** *** Listing *)

(** [rows.Scan(&orgID)] with [orgID] a [uint32]. *)
Definition scanOrgID (v : Z) : error + OrgID :=
  if bool_decide (0 <= v < 2 ^ 32) then inr v else inl (ScanError "org_id").

(** The loop of [ListOfOrgs]: a row that does not scan is logged and the
    loop goes on. *)
Fixpoint ListOfOrgs_rows (rows : list Z) (orgs : list OrgID) : list OrgID :=
  match rows with
  | [] => orgs
  | v :: rows' =>
      match scanOrgID v with
      | inr orgID => ListOfOrgs_rows rows' (orgs ++ [orgID])
      | inl _ => ListOfOrgs_rows rows' orgs
      end
  end.

Definition ListOfOrgs (storage : DBStorage) : list OrgID * option error * DBStorage :=
  let orgs := [] in
  let '(rows, err, cn) :=
    Query "SELECT DISTINCT org_id FROM report ORDER BY org_id;" []
          sql.distinct_orgs (connection storage) in
  match ConvertDBError err [] with
  | Some e => (orgs, Some e, withConn storage cn)
  | None => (ListOfOrgs_rows rows orgs, None, withConn storage cn)
  end.

(** [rows.Scan(&clusterName)] with [clusterName] a [string]: a text column
    always converts. *)
Definition scanString (v : string) : error + string := inr v.

Fixpoint ListOfClustersForOrg_rows (rows : list string) (clusters : list ClusterName)
    : list ClusterName :=
  match rows with
  | [] => clusters
  | v :: rows' =>
      match scanString v with
      | inr clusterName => ListOfClustersForOrg_rows rows' (clusters ++ [clusterName])
      | inl _ => ListOfClustersForOrg_rows rows' clusters
      end
  end.

Definition ListOfClustersForOrg (storage : DBStorage) (orgID : OrgID) (timeLimit : Time)
    : list ClusterName * option error * DBStorage :=
  let clusters := [] in
  let '(rows, err, cn) :=
    Query clustersForOrgQuery [ArgInt orgID; ArgTime timeLimit]
          (sql.clusters_of_org orgID timeLimit) (connection storage) in
  match ConvertDBError err [ArgInt orgID] with
  | Some e => (clusters, Some e, withConn storage cn)
  | None => (ListOfClustersForOrg_rows rows clusters, None, withConn storage cn)
  end.

(** *** Template data and rule rows *)

Definition parseTemplateData (templateData : string) : TemplateData :=
  match json_Unmarshal templateData with
  | inl _ => TemplateBytes templateData
  | inr templateDataJSON => TemplateJSON templateDataJSON
  end.

(** Every column of a rule row is a text, so no row fails to scan. *)
Fixpoint parseRuleRows_from (rows : list (string * string * string))
    (report : list RuleOnReport) : list RuleOnReport * option error :=
  match rows with
  | [] => (report, None)
  | (templateDataBytes, ruleFQDN, errorKey) :: rows' =>
      let templateData := parseTemplateData templateDataBytes in
      let rule := mkRuleOnReport ruleFQDN errorKey templateData in
      parseRuleRows_from rows' (report ++ [rule])
  end.

Definition parseRuleRows (rows : list (string * string * string))
    : list RuleOnReport * option error :=
  parseRuleRows_from rows [].

(** *** Batch reads *)

Definition constructInClausule (howMany : Z) : string :=
  foldl (fun inClausule i => inClausule +:+ ",$" +:+ pretty i) "$1" (seqZ 2 (howMany - 1)).

Definition argsWithClusterNames (clusterNames : list ClusterName) : list SQLArg :=
  map ArgText clusterNames.

(** [connection.Query] for a text with a list of placeholders: the database
    refuses a statement whose placeholders are not matched one to one by
    the bound values. *)
Definition QueryBound {R} (q : string) (args : list SQLArg) (sel : DB -> list R)
    (cn : Conn) : list R * option error * Conn :=
  match roundtrip (CQuery q args) cn with
  | (Some e, cn') => ([], Some e, cn')
  | (None, cn') =>
      if bool_decide (sql.placeholders q = length args)
      then (sel (committed cn'), None, cn')
      else ([], Some (DriverError "placeholders and bound values differ in number"), cn')
  end.

Fixpoint ReadOrgIDsForClusters_rows (rows : list Z) (ids : list OrgID)
    : list OrgID * option error :=
  match rows with
  | [] => (ids, None)
  | v :: rows' =>
      match scanOrgID v with
      | inl err => (ids, Some err)
      | inr orgID => ReadOrgIDsForClusters_rows rows' (ids ++ [orgID])
      end
  end.

Definition ReadOrgIDsForClusters (storage : DBStorage) (clusterNames : list ClusterName)
    : list OrgID * option error * DBStorage :=
  let ids := [] in
  let args := argsWithClusterNames clusterNames in
  let inClausule := constructInClausule (Z.of_nat (length clusterNames)) in
  let query := "SELECT DISTINCT org_id FROM report WHERE cluster in (" +:+ inClausule +:+ ");" in
  let '(rows, err, cn) := QueryBound query args (sql.orgs_in args) (connection storage) in
  match err with
  | Some e => (ids, Some e, withConn storage cn)
  | None =>
      let '(ids, err) := ReadOrgIDsForClusters_rows rows ids in
      (ids, err, withConn storage cn)
  end.

(** The two columns of a report row are texts, so no row fails to scan. *)
Definition ReadReportsForClusters_rows (rows : list (string * string))
    (reports : gmap string ClusterReport) : gmap string ClusterReport * option error :=
  (foldl (fun reports row => <[row.1 := row.2]> reports) reports rows, None).

Definition ReadReportsForClusters (storage : DBStorage) (clusterNames : list ClusterName)
    : gmap string ClusterReport * option error * DBStorage :=
  let reports := ∅ in
  let args := argsWithClusterNames clusterNames in
  let inClausule := constructInClausule (Z.of_nat (length clusterNames)) in
  let query := "SELECT cluster, report FROM report WHERE cluster in (" +:+ inClausule +:+ ");" in
  let '(rows, err, cn) := QueryBound query args (sql.reports_in args) (connection storage) in
  match err with
  | Some e => (reports, Some e, withConn storage cn)
  | None =>
      let '(reports, err) := ReadReportsForClusters_rows rows reports in
      (reports, err, withConn storage cn)
  end.

(** *** Single reads *)

Definition ReadReportForCluster (storage : DBStorage) (orgID : OrgID) (clusterName : ClusterName)
    : list RuleOnReport * Timestamp * option error * DBStorage :=
  let report := [] in
  let '(res, cn) :=
    QueryRow "SELECT last_checked_at FROM report WHERE org_id = $1 AND cluster = $2;"
             [ArgInt orgID; ArgText clusterName]
             (sql.last_checked_of orgID clusterName) inr (connection storage) in
  let lastChecked := match res with inr t => t | inl _ => zeroTime end in
  let err := match res with inr _ => None | inl e => Some e end in
  match ConvertDBError err [ArgInt orgID; ArgText clusterName] with
  | Some e => (report, RFC3339 lastChecked, Some e, withConn storage cn)
  | None =>
      let '(rows, err, cn) :=
        Query "SELECT template_data, rule_fqdn, error_key FROM rule_hit WHERE org_id = $1 AND cluster_id = $2;"
              [ArgInt orgID; ArgText clusterName]
              (sql.hits_of orgID clusterName) cn in
      match ConvertDBError err [ArgInt orgID; ArgText clusterName] with
      | Some e => (report, RFC3339 lastChecked, Some e, withConn storage cn)
      | None =>
          let '(report, err) := parseRuleRows rows in
          (report, RFC3339 lastChecked, err, withConn storage cn)
      end
  end.

Definition ReadReportForClusterByClusterName (storage : DBStorage) (clusterName : ClusterName)
    : list RuleOnReport * Timestamp * option error * DBStorage :=
  let report := [] in
  let '(res, cn) :=
    QueryRow "SELECT last_checked_at FROM report WHERE cluster = $1;"
             [ArgText clusterName]
             (sql.last_checked_of_cluster clusterName) inr (connection storage) in
  match res with
  | inl ErrNoRows =>
      (report, EmptyTimestamp, Some (ItemNotFoundError [ArgText clusterName]), withConn storage cn)
  | inl e => (report, EmptyTimestamp, Some e, withConn storage cn)
  | inr lastChecked =>
      let '(rows, err, cn) :=
        Query "SELECT template_data, rule_fqdn, error_key FROM rule_hit WHERE cluster_id = $1;"
              [ArgText clusterName]
              (sql.hits_of_cluster clusterName) cn in
      match err with
      | Some e => (report, RFC3339 lastChecked, Some e, withConn storage cn)
      | None =>
          let '(report, err) := parseRuleRows rows in
          (report, RFC3339 lastChecked, err, withConn storage cn)
      end
  end.

(** *** Writing a report *)

Definition reportUpsertQuery_sqlite : string := "
			INSERT OR REPLACE INTO report(org_id, cluster, report, reported_at, last_checked_at, kafka_offset)
			VALUES ($1, $2, $3, $4, $5, $6)
		".

Definition reportUpsertQuery_postgres : string := "
		INSERT INTO report(org_id, cluster, report, reported_at, last_checked_at, kafka_offset)
		VALUES ($1, $2, $3, $4, $5, $6)
		ON CONFLICT (cluster)
		DO UPDATE SET org_id = $1, report = $3, reported_at = $4, last_checked_at = $5, kafka_offset = $6
	".

Definition ruleHitUpsertQuery_sqlite : string := "
			INSERT OR REPLACE INTO rule_hit(org_id, cluster_id, rule_fqdn, error_key, template_data)
			VALUES ($1, $2, $3, $4, $5)
		".

Definition ruleHitUpsertQuery_postgres : string := "
		INSERT INTO rule_hit(org_id, cluster_id, rule_fqdn, error_key, template_data)
		VALUES ($1, $2, $3, $4, $5)
		ON CONFLICT (org_id, cluster_id, rule_fqdn, error_key)
		DO UPDATE SET template_data = $4
	".

Definition getReportUpsertQuery (storage : DBStorage) : string :=
  if decide (dbDriverType storage = DBDriverSQLite3)
  then reportUpsertQuery_sqlite
  else reportUpsertQuery_postgres.

Definition getRuleHitUpsertQuery (storage : DBStorage) : string :=
  if decide (dbDriverType storage = DBDriverSQLite3)
  then ruleHitUpsertQuery_sqlite
  else ruleHitUpsertQuery_postgres.

(** What the text of [getReportUpsertQuery] does with the row bound to it,
    for the driver type of the storage. *)
Definition reportUpsert (d : DBDriver) (new : ReportRow) (db : DB) : DB :=
  mkDB (if decide (d = DBDriverSQLite3)
        then sql.replace_report new (report db)
        else sql.conflict_update_report new (report db))
       (rule_hit db) (cluster_rule_toggle db).

(** What the text of [getRuleHitUpsertQuery] does with the row bound to it,
    for the driver type of the storage. *)
Definition ruleHitUpsert (d : DBDriver) (new : RuleHitRow) (db : DB) : DB :=
  mkDB (report db)
       (if decide (d = DBDriverSQLite3)
        then sql.replace_hit new (rule_hit db)
        else sql.conflict_update_hit new (rule_hit db))
       (cluster_rule_toggle db).

(** The loop of [updateReport] over [rules]. *)
Fixpoint updateReport_rules (storage : DBStorage) (ruleUpsertQuery : string)
    (orgID : OrgID) (clusterName : ClusterName) (rules : list ReportItem)
    (tx : Tx) (cn : Conn) : option error * Tx * Conn :=
  match rules with
  | [] => (None, tx, cn)
  | rule :: rules' =>
      match TxExec ruleUpsertQuery
              [ArgInt orgID; ArgText clusterName; ArgText (item_Module rule);
               ArgText (item_ErrorKey rule); ArgText (item_TemplateData rule)]
              (ruleHitUpsert (dbDriverType storage)
                 (mkRuleHitRow orgID clusterName (item_Module rule) (item_ErrorKey rule)
                               (item_TemplateData rule)))
              tx cn with
      | (Some err, tx, cn) => (Some err, tx, cn)
      | (None, tx, cn) =>
          updateReport_rules storage ruleUpsertQuery orgID clusterName rules' tx cn
      end
  end.

(** [now] is the value [time.Now()] returns inside the call. *)
Definition updateReport (storage : DBStorage) (tx : Tx) (orgID : OrgID)
    (clusterName : ClusterName) (report : ClusterReport) (rules : list ReportItem)
    (lastCheckedTime : Time) (kafkaOffset : KafkaOffset) (now : Time) (cn : Conn)
    : option error * Tx * Conn :=
  let reportUpsertQuery := getReportUpsertQuery storage in
  let ruleUpsertQuery := getRuleHitUpsertQuery storage in
  let deleteQuery := "DELETE FROM rule_hit WHERE org_id = $1 AND cluster_id = $2;" in
  match TxExec deleteQuery [ArgInt orgID; ArgText clusterName]
               (sql.delete_hits orgID clusterName) tx cn with
  | (Some err, tx, cn) => (Some err, tx, cn)
  | (None, tx, cn) =>
      let reportedAtTime := now in
      match updateReport_rules storage ruleUpsertQuery orgID clusterName rules tx cn with
      | (Some err, tx, cn) => (Some err, tx, cn)
      | (None, tx, cn) =>
          match TxExec reportUpsertQuery
                  [ArgInt orgID; ArgText clusterName; ArgText report; ArgTime reportedAtTime;
                   ArgTime lastCheckedTime; ArgInt kafkaOffset]
                  (reportUpsert (dbDriverType storage)
                     (mkReportRow orgID clusterName report reportedAtTime lastCheckedTime
                                  kafkaOffset))
                  tx cn with
          | (Some err, tx, cn) => (Some err, tx, cn)
          | (None, tx, cn) => (None, tx, cn)
          end
      end
  end.

(** [finishTransaction]: commit when [err] is [nil], roll back otherwise; an
    error of the commit or of the rollback is logged and goes nowhere. *)
Definition finishTransaction (tx : Tx) (err : option error) (cn : Conn) : Conn :=
  match err with
  | Some _ => let '(rollbackError, cn) := Rollback tx cn in cn
  | None => let '(commitError, cn) := Commit tx cn in cn
  end.

(** [lastCheckedTime.After(oldLastChecked)] *)
Definition After (t u : Time) : bool := u <? t.

(** The function literal that [WriteReportForCluster] runs inside the
    transaction. *)
Definition WriteReportForCluster_tx (storage : DBStorage) (tx : Tx) (orgID : OrgID)
    (clusterName : ClusterName) (report : ClusterReport) (rules : list ReportItem)
    (lastCheckedTime : Time) (kafkaOffset : KafkaOffset) (now : Time)
    : option error * Tx * DBStorage :=
  let '(rows, err, cn) :=
    TxQuery "SELECT last_checked_at FROM report WHERE org_id = $1 AND cluster = $2 AND last_checked_at > $3;"
            [ArgInt orgID; ArgText clusterName; ArgTime lastCheckedTime]
            (sql.more_recent orgID clusterName lastCheckedTime) tx (connection storage) in
  match ConvertDBError err [ArgInt orgID; ArgText clusterName] with
  | Some e => (Some e, tx, withConn storage cn)
  | None =>
      match rows with
      | _ :: _ => (None, tx, withConn storage cn)
      | [] =>
          match updateReport storage tx orgID clusterName report rules lastCheckedTime
                             kafkaOffset now cn with
          | (Some e, tx, cn) => (Some e, tx, withConn storage cn)
          | (None, tx, cn) =>
              (None, tx,
               mkDBStorage cn (dbDriverType storage)
                 (<[clusterName := lastCheckedTime]> (clustersLastChecked storage)))
          end
      end
  end.

Definition WriteReportForCluster (storage : DBStorage) (orgID : OrgID)
    (clusterName : ClusterName) (report : ClusterReport) (rules : list ReportItem)
    (lastCheckedTime : Time) (kafkaOffset : KafkaOffset) (now : Time)
    : option error * DBStorage :=
  if match clustersLastChecked storage !! clusterName with
     | Some oldLastChecked => negb (After lastCheckedTime oldLastChecked)
     | None => false
     end
  then (Some ErrOldReport, storage)
  else if bool_decide (dbDriverType storage <> DBDriverSQLite3
                       /\ dbDriverType storage <> DBDriverPostgres)
  then (Some (UnsupportedDB (dbDriverType storage)), storage)
  else
    match Begin (connection storage) with
    | (inl err, cn) => (Some err, withConn storage cn)
    | (inr tx, cn) =>
        let '(err, tx, storage) :=
          WriteReportForCluster_tx (withConn storage cn) tx orgID clusterName report rules
                                   lastCheckedTime kafkaOffset now in
        (err, withConn storage (finishTransaction tx err (connection storage)))
    end.

(** *** Rule toggles *)

Definition RuleToggleDisable : RuleToggle := 1.
Definition RuleToggleEnable : RuleToggle := 0.

(** [sql.NullTime] is [option Time]. *)
Record ClusterRuleToggle := mkClusterRuleToggle {
  ClusterID : ClusterName;
  RuleID_ : RuleID;
  Disabled : RuleToggle;
  DisabledAt : option Time;
  EnabledAt : option Time;
  UpdatedAt : option Time
}.

Definition ToggleRuleForCluster (storage : DBStorage) (clusterID : ClusterName)
    (ruleID : RuleID) (errorKey : ErrorKey) (ruleToggle : RuleToggle) (now : Time)
    : option error * DBStorage :=
  let updatedAt := Some now in
  match
    (if decide (ruleToggle = RuleToggleDisable) then inr (None, updatedAt)
     else if decide (ruleToggle = RuleToggleEnable) then inr (updatedAt, None)
     else inl (Errorf "Unexpected rule toggle value"))
  with
  | inl err => (Some err, storage)
  | inr (enabledAt, disabledAt) =>
      let '(err, cn) :=
        Exec toggleRuleQuery
             [ArgText clusterID; ArgText ruleID; ArgText errorKey; ArgInt ruleToggle;
              ArgNullTime disabledAt; ArgNullTime enabledAt; ArgTime now]
             (sql.upsert_toggle
                (mkToggleRow clusterID ruleID errorKey ruleToggle disabledAt enabledAt now))
             (connection storage) in
      match err with
      | Some e => (Some e, withConn storage cn)
      | None => (None, withConn storage cn)
      end
  end.

(** The six columns of the row always convert to the six fields. *)
Definition scanToggle (g : ToggleRow) : error + ClusterRuleToggle :=
  inr (mkClusterRuleToggle (g_cluster_id g) (g_rule_id g) (g_disabled g)
         (g_disabled_at g) (g_enabled_at g) (Some (g_updated_at g))).

(** The zero value of [ClusterRuleToggle]. *)
Definition zeroClusterRuleToggle : ClusterRuleToggle :=
  mkClusterRuleToggle "" "" 0 None None None.

(** The first component is the pointer the function returns, [None] for
    [nil]. *)
Definition GetFromClusterRuleToggle (storage : DBStorage) (clusterID : ClusterName)
    (ruleID : RuleID) : option ClusterRuleToggle * option error * DBStorage :=
  let '(res, cn) :=
    QueryRow getToggleQuery [ArgText clusterID; ArgText ruleID]
             (sql.latest_toggle clusterID ruleID) scanToggle (connection storage) in
  match res with
  | inl ErrNoRows => (None, Some (ItemNotFoundError [ArgText ruleID]), withConn storage cn)
  | inl e => (Some zeroClusterRuleToggle, Some e, withConn storage cn)
  | inr disabledRule => (Some disabledRule, None, withConn storage cn)
  end.

(** [rows.Scan(&ruleID, &disabled)] with [disabled] a [bool]. *)
Definition scanToggleFlag (row : string * Z) : error + (RuleID * bool) :=
  if decide (row.2 = 0) then inr (row.1, false)
  else if decide (row.2 = 1) then inr (row.1, true)
  else inl (ScanError "disabled").

Fixpoint GetTogglesForRules_rows (rows : list (string * Z)) (toggles : gmap string bool)
    : option (gmap string bool) * option error :=
  match rows with
  | [] => (Some toggles, None)
  | row :: rows' =>
      match scanToggleFlag row with
      | inl err => (None, Some err)
      | inr (ruleID, disabled) => GetTogglesForRules_rows rows' (<[ruleID := disabled]> toggles)
      end
  end.

(** The text that [GetTogglesForRules] sends for the rules of a report. *)
Definition GetTogglesForRules_query (rulesReport : list RuleOnReport) : string :=
  let ruleIDs := map rule_Module rulesReport in
  let whereInStatement := "'" +:+ String.concat "','" ruleIDs +:+ "'" in
  togglesForRulesQuery_before +:+ whereInStatement +:+ togglesForRulesQuery_after.

(** The first component is the map the function returns, [None] for [nil]. *)
Definition GetTogglesForRules (storage : DBStorage) (clusterID : ClusterName)
    (rulesReport : list RuleOnReport)
    : option (gmap string bool) * option error * DBStorage :=
  let toggles := ∅ in
  let query := GetTogglesForRules_query rulesReport in
  let '(rows, err, cn) :=
    Query query [ArgText clusterID] (run_text query [ArgText clusterID])
          (connection storage) in
  match err with
  | Some e => (Some toggles, Some e, withConn storage cn)
  | None =>
      let '(toggles, err) := GetTogglesForRules_rows rows toggles in
      (toggles, err, withConn storage cn)
  end.

(** *** The remaining operations of storage.go and rule_toggle.go *)

Definition singleRuleQuery : string := "
		SELECT template_data FROM rule_hit
		WHERE org_id = $1 AND cluster_id = $2 AND rule_fqdn = $3 AND error_key = $4;
	".

Definition deleteToggleQuery : string := "
	DELETE FROM
		cluster_rule_toggle
	WHERE
		cluster_id = $1 AND
		rule_id = $2
	".

(** [row.Scan(&orgID)] with [orgID] a [uint64]. *)
Definition scanUint64 (v : Z) : error + Z :=
  if bool_decide (0 <= v < 2 ^ 64) then inr v else inl (ScanError "org_id").

(** [types.OrgID(orgID)] narrows the [uint64] to the [uint32]. *)
Definition GetOrgIDByClusterID (storage : DBStorage) (cluster : ClusterName)
    : OrgID * option error * DBStorage :=
  let '(res, cn) :=
    QueryRow "SELECT org_id FROM report WHERE cluster = $1 ORDER BY org_id;"
             [ArgText cluster] (stmt_orgs_of_cluster cluster) scanUint64
             (connection storage) in
  match res with
  | inl err => (0, Some err, withConn storage cn)
  | inr orgID => (orgID mod 2 ^ 32, None, withConn storage cn)
  end.

(** [templateDataBytes] stays [nil], the empty byte string, when the scan
    does not happen. *)
Definition ReadSingleRuleTemplateData (storage : DBStorage) (orgID : OrgID)
    (clusterName : ClusterName) (ruleID : RuleID) (errorKey : ErrorKey)
    : TemplateData * option error * DBStorage :=
  let '(res, cn) :=
    QueryRow singleRuleQuery
             [ArgInt orgID; ArgText clusterName; ArgText ruleID; ArgText errorKey]
             (stmt_template_of orgID clusterName ruleID errorKey) inr
             (connection storage) in
  let templateDataBytes := match res with inr b => b | inl _ => "" end in
  let err := match res with inr _ => None | inl e => Some e end in
  let err := ConvertDBError err [ArgInt orgID; ArgText clusterName; ArgText ruleID;
                                 ArgText errorKey] in
  (parseTemplateData templateDataBytes, err, withConn storage cn).

Definition GetLatestKafkaOffset (storage : DBStorage)
    : KafkaOffset * option error * DBStorage :=
  let '(res, cn) :=
    QueryRow "SELECT COALESCE(MAX(kafka_offset), 0) FROM report;" []
             stmt_max_offset inr (connection storage) in
  match res with
  | inl err => (0, Some err, withConn storage cn)
  | inr offset => (offset, None, withConn storage cn)
  end.

(** [count] starts at -1 and keeps it when the scan does not happen. *)
Definition ReportsCount (storage : DBStorage) : Z * option error * DBStorage :=
  let '(res, cn) :=
    QueryRow "SELECT count(*) FROM report;" [] stmt_count inr (connection storage) in
  let count := match res with inr n => n | inl _ => -1 end in
  let err := match res with inr _ => None | inl e => Some e end in
  (count, ConvertDBError err [], withConn storage cn).

Definition DeleteReportsForOrg (storage : DBStorage) (orgID : OrgID)
    : option error * DBStorage :=
  let '(err, cn) :=
    Exec "DELETE FROM report WHERE org_id = $1;" [ArgInt orgID]
         (stmt_delete_org orgID) (connection storage) in
  (err, withConn storage cn).

Definition DeleteReportsForCluster (storage : DBStorage) (clusterName : ClusterName)
    : option error * DBStorage :=
  let '(err, cn) :=
    Exec "DELETE FROM report WHERE cluster = $1;" [ArgText clusterName]
         (stmt_delete_cluster clusterName) (connection storage) in
  (err, withConn storage cn).

Definition DoesClusterExist (storage : DBStorage) (clusterID : ClusterName)
    : bool * option error * DBStorage :=
  let '(res, cn) :=
    QueryRow "SELECT cluster FROM report WHERE cluster = $1" [ArgText clusterID]
             (stmt_cluster clusterID) inr (connection storage) in
  match res with
  | inl ErrNoRows => (false, None, withConn storage cn)
  | inl err => (false, Some err, withConn storage cn)
  | inr _ => (true, None, withConn storage cn)
  end.

Definition DeleteFromRuleClusterToggle (storage : DBStorage) (clusterID : ClusterName)
    (ruleID : RuleID) : option error * DBStorage :=
  let '(err, cn) :=
    Exec deleteToggleQuery [ArgText clusterID; ArgText ruleID]
         (stmt_delete_toggle clusterID ruleID) (connection storage) in
  (err, withConn storage cn).

End Storage.

(** ** Vocabulary of the statements below *)

(** No call to the driver fails from here on. *)
Definition healthy (cn : Conn) : Prop := Forall (fun o => o = None) (script cn).

(** The connection after a call that the driver served without changing the
    committed tables. *)
Definition served (c : Call) (cn : Conn) : Conn :=
  mkConn (committed cn) (tail (script cn)) (trace cn ++ [c]).

(** The row that [updateReport] binds for a rule. *)
Definition hitRow (orgID : OrgID) (clusterName : ClusterName) (rule : ReportItem) : RuleHitRow :=
  mkRuleHitRow orgID clusterName (item_Module rule) (item_ErrorKey rule) (item_TemplateData rule).

(** The tables a transaction of [updateReport] leaves when every statement
    is served. *)
Definition writtenDB (d : DBDriver) (orgID : OrgID) (clusterName : ClusterName)
    (report : ClusterReport) (rules : list ReportItem) (lastCheckedTime : Time)
    (kafkaOffset : KafkaOffset) (now : Time) (db : DB) : DB :=
  reportUpsert d (mkReportRow orgID clusterName report now lastCheckedTime kafkaOffset)
    (foldl (fun db rule => ruleHitUpsert d (hitRow orgID clusterName rule) db)
           (sql.delete_hits orgID clusterName db) rules).

(** The staleness cache lets a write at [t] through. *)
Definition cachePasses (storage : DBStorage) (clusterName : ClusterName) (t : Time) : Prop :=
  match clustersLastChecked storage !! clusterName with
  | Some oldLastChecked => oldLastChecked < t
  | None => True
  end.

(** The driver type is one that [WriteReportForCluster] accepts. *)
Definition supported (storage : DBStorage) : Prop :=
  dbDriverType storage = DBDriverSQLite3 \/ dbDriverType storage = DBDriverPostgres.

(** The identity of a rule hit: module and error key. *)
Definition itemKey (rule : ReportItem) : RuleID * ErrorKey :=
  (item_Module rule, item_ErrorKey rule).

Definition ruleKey (rule : RuleOnReport) : RuleID * ErrorKey :=
  (rule_Module rule, rule_ErrorKey rule).

(** The rule-hit table after the upsert of one row. *)
Definition hitUpsert (d : DBDriver) (new : RuleHitRow) (tbl : list RuleHitRow)
    : list RuleHitRow :=
  rule_hit (ruleHitUpsert d new (mkDB [] tbl [])).

(** The rule of a report that [parseRuleRows] makes of a row of [rule_hit]. *)
Definition ruleOfRow (json_Unmarshal : string -> error + string)
    (row : string * string * string) : RuleOnReport :=
  mkRuleOnReport row.1.2 row.2 (parseTemplateData json_Unmarshal row.1.1).


(** The cache is in step with the report table: no two stored reports
    share a cluster, and the cache holds the checked-at time of every stored
    report. *)
Definition synced (storage : DBStorage) : Prop :=
  NoDup (map r_cluster (report (committed (connection storage))))
  /\ forall r, r ∈ report (committed (connection storage)) ->
       clustersLastChecked storage !! r_cluster r = Some (r_last_checked_at r).

(** ** Sample states *)

(** The tables are empty, nothing is scripted, nothing was called. *)
Definition emptyDB : DB := mkDB [] [] [].
Definition freshConn : Conn := mkConn emptyDB [] [].

(** A storage whose toggle table holds two rows of one cluster and rule,
    under two error keys. *)
Definition toggleStorage : DBStorage :=
  NewFromConnection
    (mkConn (mkDB [] []
               [mkToggleRow "c1" "rule.a" "KEY_1" 1 (Some 5) None 5;
                mkToggleRow "c1" "rule.a" "KEY_2" 0 None (Some 9) 9;
                mkToggleRow "c2" "rule.a" "KEY_1" 1 (Some 12) None 12])
            [] [])
    DBDriverPostgres.

(** A report table in which one row has an [org_id] that no [uint32] holds. *)
Definition orgsStorage : DBStorage :=
  NewFromConnection
    (mkConn (mkDB [mkReportRow 1 "a" "ra" 0 0 0; mkReportRow (-1) "b" "rb" 0 0 0;
                   mkReportRow 3 "c" "rc" 0 0 0] [] [])
            [] [])
    DBDriverPostgres.

(** An empty database whose driver serves four calls and then fails once:
    for a report without rules the fifth call is the commit. *)
Definition commitFailsStorage : DBStorage :=
  NewFromConnection
    (mkConn emptyDB [None; None; None; None; Some (DriverError "commit failed")] [])
    DBDriverPostgres.

(** A database that holds a report of cluster [c] checked at 100, behind a
    storage whose cache has no entry: [Init] has not run since the report
    was stored through another storage value. *)
Definition coldStorage : DBStorage :=
  NewFromConnection
    (mkConn (mkDB [mkReportRow 1 "c" "stored" 90 100 3]
                  [mkRuleHitRow 1 "c" "rule.old" "KEY" "{}"] [])
            [] [])
    DBDriverPostgres.

(** Two reports of two rule hits each; the hit of [rule.b] is in both, with
    other template data, and the template data of [rule.c] is not JSON. *)
Definition rulesA : list ReportItem :=
  [mkReportItem "rule.a" "KEY_1" "{}"; mkReportItem "rule.b" "KEY_1" "[1]"].

Definition rulesB : list ReportItem :=
  [mkReportItem "rule.b" "KEY_1" "[2]"; mkReportItem "rule.c" "KEY_2" "oops"].

(** An empty database behind a new storage, and the storage after a write
    at 10 and after a second write at 20. *)
Definition storage0 : DBStorage := NewFromConnection freshConn DBDriverSQLite3.

Definition storage1 : DBStorage :=
  (WriteReportForCluster storage0 1 "c" "first" rulesA 10 4 11).2.

Definition storage2 : DBStorage :=
  (WriteReportForCluster storage1 1 "c" "second" rulesB 20 5 21).2.

(** Two storage values on one database.  [replicaB] ran [Init] while the
    database was empty; [replicaA] then wrote a report of cluster [c]
    checked at 10; [replicaB'] is [replicaB] with the connection as
    [replicaA] left it. *)
Definition replicaB : DBStorage := (Init (NewFromConnection freshConn DBDriverPostgres)).2.

Definition replicaA : DBStorage :=
  (WriteReportForCluster (NewFromConnection (connection replicaB) DBDriverPostgres)
     1 "c" "first" rulesA 10 4 11).2.

Definition replicaB' : DBStorage := withConn replicaB (connection replicaA).

(** The storage of a process that starts on the database that [storage1]
    left and has not run [Init]. *)
Definition restarted : DBStorage := NewFromConnection (connection storage1) DBDriverSQLite3.

(** ** The storages that the package makes of an empty database

    [written storage]: the storage is what a run of the operations of the
    package leaves when it starts on empty tables, whatever the driver does
    on the way.  The organization of a write is a [types.OrgID], a
    [uint32].  A read leaves the tables as they are and takes its outcome
    from the driver, so that [written_driver] stands for the reads and for
    what the driver does next; [written_restart] is a new process on the
    same database. *)
Inductive written : DBStorage -> Prop :=
| written_NewFromConnection (outcomes : list (option error)) (d : DBDriver) :
    written (NewFromConnection (mkConn emptyDB outcomes []) d)
| written_restart (storage : DBStorage) (d : DBDriver) :
    written storage -> written (NewFromConnection (connection storage) d)
| written_driver (storage : DBStorage) (cn : Conn) :
    written storage -> committed cn = committed (connection storage) ->
    written (withConn storage cn)
| written_Init (storage : DBStorage) :
    written storage -> written (Init storage).2
| written_WriteReportForCluster (storage : DBStorage) (orgID : OrgID)
    (clusterName : ClusterName) (blob : ClusterReport) (rules : list ReportItem)
    (t : Time) (offset : KafkaOffset) (now : Time) :
    written storage -> 0 <= orgID < 2 ^ 32 ->
    written (WriteReportForCluster storage orgID clusterName blob rules t offset now).2
| written_DeleteReportsForOrg (storage : DBStorage) (orgID : OrgID) :
    written storage -> written (DeleteReportsForOrg storage orgID).2
| written_DeleteReportsForCluster (storage : DBStorage) (clusterName : ClusterName) :
    written storage -> written (DeleteReportsForCluster storage clusterName).2
| written_ToggleRuleForCluster (storage : DBStorage) (clusterID : ClusterName)
    (ruleID : RuleID) (errorKey : ErrorKey) (ruleToggle : Z) (now : Time) :
    written storage ->
    written (ToggleRuleForCluster storage clusterID ruleID errorKey ruleToggle now).2
| written_DeleteFromRuleClusterToggle (storage : DBStorage) (clusterID : ClusterName)
    (ruleID : RuleID) :
    written storage -> written (DeleteFromRuleClusterToggle storage clusterID ruleID).2.

(** A database that two writes for two organizations made of an empty one,
    and the same database behind a driver that is down. *)
Definition twoOrgsStorage : DBStorage :=
  (WriteReportForCluster storage1 7 "d" "other" rulesB 30 6 31).2.

Definition downStorage : DBStorage :=
  withConn twoOrgsStorage
    (mkConn (committed (connection twoOrgsStorage)) [Some (DriverError "connection refused")]
            (trace (connection twoOrgsStorage))).

(** * Properties *)

(** ** The driver *)

Lemma healthy_cases cn :
  healthy cn -> script cn = [] \/ exists rest, script cn = None :: rest.
Proof.
  unfold healthy. destruct (script cn) as [|o rest]; [by left|].
  intros H. right. exists rest. by rewrite (Forall_inv H).
Qed.

Lemma roundtrip_healthy c cn :
  healthy cn -> roundtrip c cn = (None, served c cn).
Proof.
  intros H. unfold roundtrip, served.
  destruct (healthy_cases cn H) as [-> | [rest ->]]; reflexivity.
Qed.

Lemma served_healthy c cn : healthy cn -> healthy (served c cn).
Proof.
  unfold healthy, served. simpl. destruct (script cn); simpl; [done|].
  intros H. by apply Forall_inv_tail in H.
Qed.

Lemma roundtrip_committed c cn : committed (roundtrip c cn).2 = committed cn.
Proof. unfold roundtrip. by destruct (script cn). Qed.

Lemma roundtrip_trace c cn : trace (roundtrip c cn).2 = trace cn ++ [c].
Proof. unfold roundtrip. by destruct (script cn). Qed.

(** ** Template data *)

(** C7: [parseTemplateData] gives a value for every input and never fails:
    when the bytes decode as one JSON value the result is that value, and
    when the decoder reports an error the result is the input bytes
    themselves, unchanged. *)
Theorem parseTemplateData_total (json_Unmarshal : string -> error + string)
    (templateData : string) :
  exists v, parseTemplateData json_Unmarshal templateData = v /\
    ((exists raw, json_Unmarshal templateData = inr raw /\ v = TemplateJSON raw) \/
     (exists err, json_Unmarshal templateData = inl err /\ v = TemplateBytes templateData)).
Proof.
  unfold parseTemplateData.
  destruct (json_Unmarshal templateData) as [err|raw] eqn:E.
  - exists (TemplateBytes templateData). split; [done|]. right. by exists err.
  - exists (TemplateJSON raw). split; [done|]. left. by exists raw.
Qed.

Example parseTemplateData_object :
  parseTemplateData GoJSON.Unmarshal " {} " = TemplateJSON "{}".
Proof. reflexivity. Qed.

Example parseTemplateData_array :
  parseTemplateData GoJSON.Unmarshal "[1, 2.5e-3, true, null]"
  = TemplateJSON "[1, 2.5e-3, true, null]".
Proof. reflexivity. Qed.

Example parseTemplateData_malformed :
  parseTemplateData GoJSON.Unmarshal "{a: 1}" = TemplateBytes "{a: 1}".
Proof. reflexivity. Qed.

Example parseTemplateData_nil :
  parseTemplateData GoJSON.Unmarshal "" = TemplateBytes "".
Proof. reflexivity. Qed.

(** ** Rule toggles *)

Lemma upsert_toggle_key new db g :
  g ∈ cluster_rule_toggle (sql.upsert_toggle new db) ->
  sql.toggle_key g = sql.toggle_key new -> g = new.
Proof.
  unfold sql.upsert_toggle. simpl. case_bool_decide as Hex.
  - intros Hin Hk. apply list_elem_of_fmap in Hin as (g0 & -> & Hin0).
    case_bool_decide as Hk0.
    + destruct new, g0. unfold sql.toggle_key in Hk0. simpl in *. congruence.
    + done.
  - intros Hin Hk. apply elem_of_app in Hin as [Hin | Hin].
    + exfalso. apply Hex. apply Exists_exists. by exists g.
    + by apply list_elem_of_singleton in Hin.
Qed.

Lemma upsert_toggle_stored new db :
  exists g, g ∈ cluster_rule_toggle (sql.upsert_toggle new db)
            /\ sql.toggle_key g = sql.toggle_key new.
Proof.
  unfold sql.upsert_toggle. simpl. case_bool_decide as Hex.
  - apply Exists_exists in Hex as (g0 & Hin & Hk).
    eexists. split.
    + apply list_elem_of_fmap. exists g0. split; [reflexivity|done].
    + by rewrite bool_decide_eq_true_2.
  - exists new. split; [|done]. apply elem_of_app. right. by apply list_elem_of_singleton.
Qed.

(** C10: a toggle value other than the two defined ones is answered with
    the error of the function, no statement is sent and the storage is as
    before.  For each of the two defined values one statement is sent, and
    it binds the current time to exactly one of [disabled_at] and
    [enabled_at], the one that matches the flag, and [NULL] to the other.
    When the driver serves the statement the call returns no error and the
    row stored under the key holds the flag and these two values, with the
    current time as the update time; when the driver fails the call returns
    the error of the driver and the tables are as before. *)
Theorem ToggleRuleForCluster_flag (storage : DBStorage) (clusterID : ClusterName)
    (ruleID : RuleID) (errorKey : ErrorKey) (ruleToggle : RuleToggle) (now : Time) :
  let '(err, storage') :=
    ToggleRuleForCluster storage clusterID ruleID errorKey ruleToggle now in
  let table' := cluster_rule_toggle (committed (connection storage')) in
  let sent (disabledAt enabledAt : option Time) :=
    trace (connection storage')
    = trace (connection storage)
      ++ [CExec toggleRuleQuery
            [ArgText clusterID; ArgText ruleID; ArgText errorKey; ArgInt ruleToggle;
             ArgNullTime disabledAt; ArgNullTime enabledAt; ArgTime now]]
    /\ match script (connection storage) with
       | Some e :: _ =>
           err = Some e
           /\ committed (connection storage') = committed (connection storage)
       | _ =>
           err = None
           /\ mkToggleRow clusterID ruleID errorKey ruleToggle disabledAt enabledAt now
              ∈ table'
           /\ forall g, g ∈ table' -> sql.toggle_key g = (clusterID, ruleID, errorKey) ->
                g = mkToggleRow clusterID ruleID errorKey ruleToggle disabledAt enabledAt now
       end in
  (ruleToggle <> RuleToggleDisable /\ ruleToggle <> RuleToggleEnable ->
     err = Some (Errorf "Unexpected rule toggle value") /\ storage' = storage)
  /\ (ruleToggle = RuleToggleDisable -> sent (Some now) None)
  /\ (ruleToggle = RuleToggleEnable -> sent None (Some now)).
Proof.
  assert (Hserved : forall new : ToggleRow,
            let table' := cluster_rule_toggle
                            (sql.upsert_toggle new (committed (connection storage))) in
            new ∈ table'
            /\ forall g, g ∈ table' -> sql.toggle_key g = sql.toggle_key new -> g = new).
  { intros new. split.
    - destruct (upsert_toggle_stored new (committed (connection storage)))
        as (g & Hin & Hk).
      pose proof (upsert_toggle_key _ _ _ Hin Hk) as Heq. by subst g.
    - intros g Hin Hk. exact (upsert_toggle_key _ _ _ Hin Hk). }
  unfold ToggleRuleForCluster, RuleToggleDisable, RuleToggleEnable.
  destruct (decide (ruleToggle = 1)) as [->|Hd].
  - unfold Exec, roundtrip.
    destruct (script (connection storage)) as [|[e|] rest]; simpl;
      (split; [lia|]); (split; [|lia]); intros _; (split; [done|]);
      try done; (split; [done|]);
      apply (Hserved (mkToggleRow clusterID ruleID errorKey 1 (Some now) None now)).
  - destruct (decide (ruleToggle = 0)) as [->|He].
    + unfold Exec, roundtrip.
      destruct (script (connection storage)) as [|[e|] rest]; simpl;
        (split; [lia|]); (split; [lia|]); intros _; (split; [done|]);
        try done; (split; [done|]);
        apply (Hserved (mkToggleRow clusterID ruleID errorKey 0 None (Some now) now)).
    + simpl. split; [done|]. split; intros ?; done.
Qed.

Lemma ToggleRuleForCluster_flag_witness :
  let '(err, storage') :=
    ToggleRuleForCluster toggleStorage "c1" "rule.a" "KEY_1" RuleToggleEnable 20 in
  err = None
  /\ mkToggleRow "c1" "rule.a" "KEY_1" RuleToggleEnable None (Some 20) 20
     ∈ cluster_rule_toggle (committed (connection storage'))
  /\ forall g, g ∈ cluster_rule_toggle (committed (connection storage')) ->
       sql.toggle_key g = ("c1", "rule.a", "KEY_1") ->
       g = mkToggleRow "c1" "rule.a" "KEY_1" RuleToggleEnable None (Some 20) 20.
Proof.
  pose proof (ToggleRuleForCluster_flag toggleStorage "c1" "rule.a" "KEY_1"
                RuleToggleEnable 20) as H.
  destruct (ToggleRuleForCluster toggleStorage "c1" "rule.a" "KEY_1" RuleToggleEnable 20)
    as [err storage'].
  destruct H as (_ & _ & H). destruct (H eq_refl) as [_ Hstored]. exact Hstored.
Defined.

Example ToggleRuleForCluster_flag_values :
  let '(err, storage') :=
    ToggleRuleForCluster toggleStorage "c1" "rule.a" "KEY_1" RuleToggleEnable 20 in
  err = None
  /\ cluster_rule_toggle (committed (connection storage'))
     = [mkToggleRow "c1" "rule.a" "KEY_1" 0 None (Some 20) 20;
        mkToggleRow "c1" "rule.a" "KEY_2" 0 None (Some 9) 9;
        mkToggleRow "c2" "rule.a" "KEY_1" 1 (Some 12) None 12].
Proof. vm_compute. split; reflexivity. Qed.

Lemma latest_none rows : sql.latest rows = None -> rows = [].
Proof.
  destruct rows as [|g rows]; [done|]. simpl.
  destruct (sql.latest rows) as [g'|]; [by destruct (_ <? _)|done].
Qed.

Lemma latest_spec rows g :
  sql.latest rows = Some g ->
  g ∈ rows /\ forall g', g' ∈ rows -> g_updated_at g' <= g_updated_at g.
Proof.
  revert g. induction rows as [|g0 rows IH]; intros g; simpl; [done|].
  destruct (sql.latest rows) as [g1|] eqn:E.
  - destruct (IH g1 eq_refl) as [Hin Hmax].
    destruct (Z.ltb_spec (g_updated_at g0) (g_updated_at g1)) as [Hlt|Hge];
      intros [= <-]; split.
    + by right.
    + intros g' [->|Hin']%elem_of_cons; [lia|by apply Hmax].
    + by left.
    + intros g' [->|Hin']%elem_of_cons; [lia|].
      specialize (Hmax g' Hin'). lia.
  - intros [= <-]. rewrite (latest_none _ E).
    split; [by left|]. intros g' [->|Hin']%elem_of_cons; [lia|].
    by apply elem_of_nil in Hin'.
Qed.

(** C8: when the driver serves the query, [GetFromClusterRuleToggle]
    returns, among the stored rows of the cluster and the rule, one whose
    [updated_at] is the greatest, and it returns the not-found error of the
    rule when there is no such row. *)
Theorem GetFromClusterRuleToggle_latest (storage : DBStorage) (clusterID : ClusterName)
    (ruleID : RuleID) :
  healthy (connection storage) ->
  let rows := filter (fun g => g_cluster_id g = clusterID /\ g_rule_id g = ruleID)
                     (cluster_rule_toggle (committed (connection storage))) in
  let '(toggle, err, _) := GetFromClusterRuleToggle storage clusterID ruleID in
  match rows with
  | [] => toggle = None /\ err = Some (ItemNotFoundError [ArgText ruleID])
  | _ :: _ =>
      err = None /\
      exists g, g ∈ rows
        /\ (forall g', g' ∈ rows -> g_updated_at g' <= g_updated_at g)
        /\ toggle = Some (mkClusterRuleToggle (g_cluster_id g) (g_rule_id g) (g_disabled g)
                            (g_disabled_at g) (g_enabled_at g) (Some (g_updated_at g)))
  end.
Proof.
  intros Hh. unfold GetFromClusterRuleToggle, QueryRow, Query.
  rewrite (roundtrip_healthy _ _ Hh). simpl.
  unfold sql.latest_toggle.
  destruct (sql.latest _) as [g|] eqn:E; simpl.
  - destruct (latest_spec _ _ E) as [Hin Hmax].
    destruct (filter _ _) as [|g0 rows] eqn:Hrows; [by apply elem_of_nil in Hin|].
    split; [done|]. by exists g.
  - by rewrite (latest_none _ E).
Qed.

Lemma GetFromClusterRuleToggle_latest_witness :
  healthy (connection toggleStorage) /\
  let rows := filter (fun g => g_cluster_id g = "c1" /\ g_rule_id g = "rule.a")
                     (cluster_rule_toggle (committed (connection toggleStorage))) in
  let '(toggle, err, _) := GetFromClusterRuleToggle toggleStorage "c1" "rule.a" in
  match rows with
  | [] => toggle = None /\ err = Some (ItemNotFoundError [ArgText "rule.a"])
  | _ :: _ =>
      err = None /\
      exists g, g ∈ rows
        /\ (forall g', g' ∈ rows -> g_updated_at g' <= g_updated_at g)
        /\ toggle = Some (mkClusterRuleToggle (g_cluster_id g) (g_rule_id g) (g_disabled g)
                            (g_disabled_at g) (g_enabled_at g) (Some (g_updated_at g)))
  end.
Proof.
  split; [apply Forall_nil_2|].
  apply (GetFromClusterRuleToggle_latest toggleStorage "c1" "rule.a"). apply Forall_nil_2.
Defined.

Example GetFromClusterRuleToggle_picks_latest :
  (GetFromClusterRuleToggle toggleStorage "c1" "rule.a").1
  = (Some (mkClusterRuleToggle "c1" "rule.a" 0 None (Some 9) (Some 9)), None).
Proof. reflexivity. Qed.

Example GetFromClusterRuleToggle_absent :
  (GetFromClusterRuleToggle toggleStorage "c3" "rule.a").1
  = (None, Some (ItemNotFoundError [ArgText "rule.a"])).
Proof. reflexivity. Qed.

(** ** Batch lookups *)

Lemma string_app_length (s1 s2 : string) :
  String.length (s1 +:+ s2) = (String.length s1 + String.length s2)%nat.
Proof.
  induction s1 as [|c s1 IH]; [done|].
  change (S (String.length (s1 +:+ s2)) = S (String.length s1 + String.length s2)).
  by rewrite IH.
Qed.

Lemma string_app_inv_tail (s1 s2 s : string) : s1 +:+ s = s2 +:+ s -> s1 = s2.
Proof.
  revert s2. induction s1 as [|c s1 IH]; intros [|c2 s2] H.
  - done.
  - apply (f_equal String.length) in H. rewrite !string_app_length in H. simpl in H. lia.
  - apply (f_equal String.length) in H. rewrite !string_app_length in H. simpl in H. lia.
  - change (String c (s1 +:+ s) = String c2 (s2 +:+ s)) in H.
    injection H as -> H. f_equal. by apply IH.
Qed.

(** C6: [GetTogglesForRules] binds the cluster alone; the rule identifiers
    are written into the text of the query, so that the texts sent for two
    one-rule reports are the same only when the two rule identifiers are. *)
Theorem GetTogglesForRules_text (run_text : string -> list SQLArg -> DB -> list (string * Z))
    (storage : DBStorage) (clusterID : ClusterName) (rulesReport : list RuleOnReport)
    (ruleA ruleB : RuleOnReport) :
  trace (connection (GetTogglesForRules run_text storage clusterID rulesReport).2)
  = trace (connection storage)
    ++ [CQuery (GetTogglesForRules_query rulesReport) [ArgText clusterID]]
  /\ (GetTogglesForRules_query [ruleA] = GetTogglesForRules_query [ruleB]
      <-> rule_Module ruleA = rule_Module ruleB).
Proof.
  split.
  - unfold GetTogglesForRules, Query.
    pose proof (roundtrip_trace (CQuery (GetTogglesForRules_query rulesReport) [ArgText clusterID])
                                (connection storage)) as Ht.
    destruct (roundtrip _ _) as [[e|] cn]; simpl in *; [done|].
    by destruct (GetTogglesForRules_rows _ _).
  - unfold GetTogglesForRules_query. simpl. split.
    + intros H. apply String.app_inj in H. apply string_app_inv_tail in H.
      apply String.app_inj in H. by apply string_app_inv_tail in H.
    + by intros ->.
Qed.

Example GetTogglesForRules_query_injected :
  GetTogglesForRules_query [mkRuleOnReport "x') OR ('1'='1" "KEY" (TemplateBytes "")]
  = togglesForRulesQuery_before +:+ "'x') OR ('1'='1'" +:+ togglesForRulesQuery_after.
Proof. reflexivity. Qed.

Example constructInClausule_three : constructInClausule 3 = "$1,$2,$3".
Proof. reflexivity. Qed.

Example constructInClausule_one : constructInClausule 1 = "$1".
Proof. reflexivity. Qed.

Lemma placeholders_app (s1 s2 : string) :
  sql.placeholders (s1 +:+ s2) = (sql.placeholders s1 + sql.placeholders s2)%nat.
Proof.
  induction s1 as [|c s1 IH]; [done|].
  change (((if Ascii.eqb c "$" then 1 else 0) + sql.placeholders (s1 +:+ s2))%nat
          = ((if Ascii.eqb c "$" then 1 else 0) + sql.placeholders s1
             + sql.placeholders s2)%nat).
  rewrite IH. lia.
Qed.

Lemma placeholders_pretty_N_go (x : N) (s : string) :
  sql.placeholders (pretty_N_go x s) = sql.placeholders s.
Proof.
  revert s. induction (N.lt_wf_0 x) as [x _ IH]; intros s.
  assert (x = 0 \/ 0 < x)%N as [->|Hpos] by lia; [done|].
  rewrite pretty_N_go_step by done. rewrite IH by (by apply N.div_lt).
  simpl. unfold pretty_N_char. by repeat case_match.
Qed.

Lemma placeholders_pretty_Z (i : Z) : sql.placeholders (pretty i) = 0%nat.
Proof.
  destruct i as [|p|p]; [done| |].
  - unfold pretty, pretty_Z, pretty, pretty_positive, pretty, pretty_N.
    case_decide; [done|]. by rewrite placeholders_pretty_N_go.
  - unfold pretty, pretty_Z. rewrite placeholders_app.
    unfold pretty, pretty_positive, pretty, pretty_N.
    case_decide; [done|]. by rewrite placeholders_pretty_N_go.
Qed.

(** One placeholder for each of the [howMany] values, when there is at
    least one value. *)
Lemma constructInClausule_placeholders (howMany : Z) :
  1 <= howMany ->
  sql.placeholders (constructInClausule howMany) = Z.to_nat howMany.
Proof.
  intros Hpos. unfold constructInClausule.
  assert (Hfold : forall (l : list Z) (acc : string),
             sql.placeholders
               (foldl (fun inClausule i => inClausule +:+ ",$" +:+ pretty i) acc l)
             = (sql.placeholders acc + length l)%nat).
  { induction l as [|i l IH]; intros acc; simpl; [lia|].
    rewrite IH, !placeholders_app, placeholders_pretty_Z. simpl. lia. }
  rewrite Hfold, length_seqZ. simpl. lia.
Qed.

(** For a list of cluster names that is not empty, the batch read returns
    the report of every stored cluster of the list. *)
Lemma ReadReportsForClusters_nonempty (storage : DBStorage) (clusterNames : list ClusterName) :
  clusterNames <> [] ->
  healthy (connection storage) ->
  (ReadReportsForClusters storage clusterNames).1
  = (foldl (fun reports row => <[row.1 := row.2]> reports) ∅
       (sql.reports_in (argsWithClusterNames clusterNames) (committed (connection storage))),
     None).
Proof.
  intros Hne Hh. unfold ReadReportsForClusters, QueryBound.
  rewrite (roundtrip_healthy _ _ Hh).
  rewrite bool_decide_eq_true_2; [done|].
  rewrite !placeholders_app, constructInClausule_placeholders.
  - unfold argsWithClusterNames. rewrite length_map. simpl. lia.
  - destruct clusterNames; [done|]. simpl. lia.
Qed.

(** C5: for an empty list of cluster names [ReadReportsForClusters] does
    not return at once: it sends to the driver a query whose text holds the
    placeholder [$1] and binds no value to it; the mapping it returns is
    empty, and when the driver answers it is with the refusal of the
    statement. *)
Theorem ReadReportsForClusters_empty_list (storage : DBStorage) :
  let query := "SELECT cluster, report FROM report WHERE cluster in ($1);" in
  let '(reports, err, storage') := ReadReportsForClusters storage [] in
  constructInClausule 0 = "$1"
  /\ sql.placeholders query = 1%nat
  /\ trace (connection storage') = trace (connection storage) ++ [CQuery query []]
  /\ reports = ∅
  /\ (healthy (connection storage) ->
      err = Some (DriverError "placeholders and bound values differ in number")).
Proof.
  unfold ReadReportsForClusters, QueryBound. simpl.
  change (constructInClausule 0) with "$1"%string.
  change ("SELECT cluster, report FROM report WHERE cluster in (" +:+ "$1" +:+ ");")
    with "SELECT cluster, report FROM report WHERE cluster in ($1);"%string.
  pose proof (roundtrip_trace
    (CQuery "SELECT cluster, report FROM report WHERE cluster in ($1);" [])
    (connection storage)) as Ht.
  destruct (roundtrip _ _) as [[e|] cn] eqn:Hr; simpl in *.
  - repeat split; try done.
    intros Hh. rewrite (roundtrip_healthy _ _ Hh) in Hr. done.
  - repeat split; done.
Qed.

Example ReadReportsForClusters_two :
  (ReadReportsForClusters
     (NewFromConnection
        (mkConn (mkDB [mkReportRow 1 "a" "ra" 0 0 0; mkReportRow 1 "b" "rb" 0 0 0;
                       mkReportRow 2 "c" "rc" 0 0 0] [] []) [] [])
        DBDriverPostgres)
     ["a"; "c"]).1
  = ({["a" := "ra"; "c" := "rc"]}, None).
Proof. vm_compute. reflexivity. Qed.

(** ** Listing *)

Lemma ListOfOrgs_rows_filter (rows : list Z) (orgs : list OrgID) :
  ListOfOrgs_rows rows orgs = orgs ++ filter (fun v => 0 <= v < 2 ^ 32) rows.
Proof.
  revert orgs. induction rows as [|v rows IH]; intros orgs; simpl.
  - by rewrite app_nil_r.
  - unfold scanOrgID. rewrite filter_cons. case_bool_decide.
    + rewrite decide_True by done. rewrite IH. by rewrite <- app_assoc.
    + rewrite decide_False by done. apply IH.
Qed.

Lemma ListOfOrgs_healthy (storage : DBStorage) :
  healthy (connection storage) ->
  (ListOfOrgs storage).1
  = (filter (fun v => 0 <= v < 2 ^ 32) (sql.distinct_orgs (committed (connection storage))),
     None).
Proof.
  intros Hh. unfold ListOfOrgs, Query. rewrite (roundtrip_healthy _ _ Hh). simpl.
  by rewrite ListOfOrgs_rows_filter.
Qed.


Example ListOfClustersForOrg_sorted :
  (ListOfClustersForOrg orgsStorage 1 0).1 = (["a"], None).
Proof. reflexivity. Qed.

(** ** The write path when the driver serves every call *)

Lemma updateReport_rules_healthy storage q orgID clusterName rules tx cn :
  healthy cn ->
  exists cn',
    updateReport_rules storage q orgID clusterName rules tx cn
    = (None,
       mkTx (foldl (fun db rule =>
                      ruleHitUpsert (dbDriverType storage) (hitRow orgID clusterName rule) db)
                   (pending tx) rules),
       cn')
    /\ healthy cn' /\ committed cn' = committed cn.
Proof.
  revert tx cn. induction rules as [|rule rules IH]; intros tx cn Hh; simpl.
  - exists cn. by destruct tx.
  - unfold TxExec. rewrite (roundtrip_healthy _ _ Hh).
    destruct (IH (mkTx (ruleHitUpsert (dbDriverType storage)
                          (mkRuleHitRow orgID clusterName (item_Module rule)
                             (item_ErrorKey rule) (item_TemplateData rule)) (pending tx)))
                 (served (CExec q [ArgInt orgID; ArgText clusterName; ArgText (item_Module rule);
                                   ArgText (item_ErrorKey rule);
                                   ArgText (item_TemplateData rule)]) cn)
                 (served_healthy _ _ Hh)) as (cn' & -> & Hh' & Hc).
    exists cn'. done.
Qed.

Lemma updateReport_healthy storage tx orgID clusterName report rules t offset now cn :
  healthy cn ->
  exists cn',
    updateReport storage tx orgID clusterName report rules t offset now cn
    = (None,
       mkTx (writtenDB (dbDriverType storage) orgID clusterName report rules t offset now
                       (pending tx)),
       cn')
    /\ healthy cn' /\ committed cn' = committed cn.
Proof.
  intros Hh. unfold updateReport, TxExec at 1.
  rewrite (roundtrip_healthy _ _ Hh).
  destruct (updateReport_rules_healthy storage (getRuleHitUpsertQuery storage) orgID clusterName
              rules (mkTx (sql.delete_hits orgID clusterName (pending tx)))
              (served (CExec "DELETE FROM rule_hit WHERE org_id = $1 AND cluster_id = $2;"
                             [ArgInt orgID; ArgText clusterName]) cn)
              (served_healthy _ _ Hh)) as (cn1 & -> & Hh1 & Hc1).
  unfold TxExec. rewrite (roundtrip_healthy _ _ Hh1). simpl.
  eexists. split; [reflexivity|]. split; [by apply served_healthy|].
  simpl. by rewrite Hc1.
Qed.

(** A write that the cache lets through, on a supported driver that serves
    every call, with no more recent report stored: the tables become those
    of [writtenDB] and the cache records the checked-at time. *)
Lemma WriteReportForCluster_applied storage orgID clusterName report rules t offset now :
  cachePasses storage clusterName t ->
  supported storage ->
  healthy (connection storage) ->
  sql.more_recent orgID clusterName t (committed (connection storage)) = [] ->
  exists cn',
    WriteReportForCluster storage orgID clusterName report rules t offset now
    = (None, mkDBStorage cn' (dbDriverType storage)
               (<[clusterName := t]> (clustersLastChecked storage)))
    /\ healthy cn'
    /\ committed cn'
       = writtenDB (dbDriverType storage) orgID clusterName report rules t offset now
                   (committed (connection storage)).
Proof.
  intros Hcache Hsup Hh Hrecent. unfold WriteReportForCluster.
  unfold cachePasses in Hcache.
  destruct (clustersLastChecked storage !! clusterName) as [old|] eqn:Hold.
  - unfold After. destruct (Z.ltb_spec old t) as [_|?]; [simpl|lia].
    rewrite bool_decide_eq_false_2 by (destruct Hsup as [-> | ->]; intros [? ?]; done).
    unfold Begin. rewrite (roundtrip_healthy _ _ Hh).
    unfold WriteReportForCluster_tx, TxQuery. simpl.
    rewrite (roundtrip_healthy _ _ (served_healthy CBegin _ Hh)). simpl.
    rewrite Hrecent.
    edestruct (updateReport_healthy (withConn storage (served CBegin (connection storage))))
      as (cn1 & -> & Hh1 & Hc1);
      [apply served_healthy, served_healthy, Hh|].
    simpl. unfold Commit. rewrite (roundtrip_healthy _ _ Hh1). simpl.
    eexists. split; [reflexivity|]. split; [by apply (served_healthy CCommit)|done].
  - rewrite bool_decide_eq_false_2 by (destruct Hsup as [-> | ->]; intros [? ?]; done).
    unfold Begin. rewrite (roundtrip_healthy _ _ Hh).
    unfold WriteReportForCluster_tx, TxQuery. simpl.
    rewrite (roundtrip_healthy _ _ (served_healthy CBegin _ Hh)). simpl.
    rewrite Hrecent.
    edestruct (updateReport_healthy (withConn storage (served CBegin (connection storage))))
      as (cn1 & -> & Hh1 & Hc1);
      [apply served_healthy, served_healthy, Hh|].
    simpl. unfold Commit. rewrite (roundtrip_healthy _ _ Hh1). simpl.
    eexists. split; [reflexivity|]. split; [by apply (served_healthy CCommit)|done].
Qed.

(** A call that returns no error got past the cache and the driver check. *)
Lemma WriteReportForCluster_success storage orgID clusterName report rules t offset now storage' :
  WriteReportForCluster storage orgID clusterName report rules t offset now = (None, storage') ->
  cachePasses storage clusterName t /\ supported storage.
Proof.
  unfold WriteReportForCluster, cachePasses, supported, After.
  destruct (clustersLastChecked storage !! clusterName) as [old|].
  - destruct (Z.ltb_spec old t) as [Hlt|?]; simpl; [|done].
    case_bool_decide as Hd; [done|]. intros _. split; [done|].
    destruct (dbDriverType storage); [by left|by right|]. exfalso. by apply Hd.
  - case_bool_decide as Hd; [done|]. intros _. split; [done|].
    destruct (dbDriverType storage); [by left|by right|]. exfalso. by apply Hd.
Qed.

(** ** The report table after an upsert *)

Lemma reportUpsert_rule_hit d new db : rule_hit (reportUpsert d new db) = rule_hit db.
Proof. done. Qed.

Lemma reportUpsert_same_cluster d new db r :
  r ∈ report (reportUpsert d new db) -> r_cluster r = r_cluster new -> r = new.
Proof.
  unfold reportUpsert. simpl. destruct (decide (d = DBDriverSQLite3)) as [_|_].
  - unfold sql.replace_report. intros [Hin|Hin]%elem_of_app Hc.
    + apply list_elem_of_filter in Hin as [Hne _]. done.
    + by apply list_elem_of_singleton in Hin.
  - unfold sql.conflict_update_report. case_bool_decide as Hex.
    + intros (r0 & -> & Hin0)%list_elem_of_fmap Hc. case_bool_decide as Hc0.
      * destruct new. simpl in *. by rewrite Hc0.
      * done.
    + intros [Hin|Hin]%elem_of_app Hc.
      * exfalso. apply Hex, Exists_exists. by exists r.
      * by apply list_elem_of_singleton in Hin.
Qed.

Lemma reportUpsert_stored d new db : new ∈ report (reportUpsert d new db).
Proof.
  unfold reportUpsert. simpl. destruct (decide (d = DBDriverSQLite3)) as [_|_].
  - apply elem_of_app. right. by apply list_elem_of_singleton.
  - unfold sql.conflict_update_report. case_bool_decide as Hex.
    + apply Exists_exists in Hex as (r0 & Hin & Hc).
      apply list_elem_of_fmap. exists r0. split; [|done].
      rewrite bool_decide_eq_true_2 by done. destruct new. simpl in *. by rewrite Hc.
    + apply elem_of_app. right. by apply list_elem_of_singleton.
Qed.

Lemma reportUpsert_other_cluster d new db r :
  r_cluster r <> r_cluster new ->
  r ∈ report (reportUpsert d new db) <-> r ∈ report db.
Proof.
  intros Hne. unfold reportUpsert. simpl. destruct (decide (d = DBDriverSQLite3)) as [_|_].
  - unfold sql.replace_report. rewrite elem_of_app, list_elem_of_filter, list_elem_of_singleton.
    split; [intros [[_ ?]| ->]; done|]. intros ?. by left.
  - unfold sql.conflict_update_report. case_bool_decide as Hex.
    + rewrite list_elem_of_fmap. split.
      * intros (r0 & -> & Hin0). case_bool_decide as Hc0; [|done].
        simpl in Hne. done.
      * intros Hin. exists r. by rewrite bool_decide_eq_false_2.
    + rewrite elem_of_app, list_elem_of_singleton. split; [intros [?| ->]; done|]. by left.
Qed.

(** The clusters of the report table stay pairwise different. *)
Lemma reportUpsert_unique d new db :
  NoDup (map r_cluster (report db)) ->
  NoDup (map r_cluster (report (reportUpsert d new db))).
Proof.
  unfold reportUpsert. simpl. intros Hnd. destruct (decide (d = DBDriverSQLite3)) as [_|_].
  - unfold sql.replace_report. rewrite map_app. apply NoDup_app. split; [|split].
    + induction (report db) as [|r tbl IH]; [constructor|].
      simpl in Hnd. apply NoDup_cons in Hnd as [Hnotin Hnd].
      rewrite filter_cons. case_decide; [|by apply IH].
      simpl. apply NoDup_cons. split; [|by apply IH].
      intros (r' & Hc & Hin)%(list_elem_of_fmap r_cluster).
      apply list_elem_of_filter in Hin as [_ Hin].
      apply Hnotin. apply (list_elem_of_fmap r_cluster). by exists r'.
    + intros c (r' & -> & Hin)%(list_elem_of_fmap r_cluster).
      apply list_elem_of_filter in Hin as [Hne _].
      simpl. intros Heq%list_elem_of_singleton. done.
    + simpl. apply NoDup_singleton.
  - unfold sql.conflict_update_report. case_bool_decide as Hex.
    + replace (map r_cluster (map _ (report db))) with (map r_cluster (report db)); [done|].
      rewrite map_map. apply map_ext. intros r. by case_bool_decide.
    + rewrite map_app. apply NoDup_app. split; [done|]. split; [|apply NoDup_singleton].
      intros c (r' & -> & Hin)%(list_elem_of_fmap r_cluster).
      simpl. intros Hc%list_elem_of_singleton.
      apply Hex, Exists_exists. by exists r'.
Qed.

Lemma filter_key_absent {A K} `{EqDecision K} (f : A -> K) (l : list A) (k : K) :
  k ∉ map f l -> filter (fun y => f y = k) l = [].
Proof.
  induction l as [|y l IH]; [done|]. simpl. rewrite not_elem_of_cons. intros [Hne Hnotin].
  rewrite filter_cons. rewrite decide_False by done. by apply IH.
Qed.

(** In a list without two elements of the same key, the elements with the
    key of [x] are [x] alone. *)
Lemma filter_unique_key {A K} `{EqDecision K} (f : A -> K) (l : list A) (x : A) :
  NoDup (map f l) -> x ∈ l -> filter (fun y => f y = f x) l = [x].
Proof.
  induction l as [|y l IH]; intros Hnd Hin; [by apply elem_of_nil in Hin|].
  simpl in Hnd. apply NoDup_cons in Hnd as [Hnotin Hnd].
  rewrite filter_cons. apply elem_of_cons in Hin as [->|Hin].
  - rewrite decide_True by done. f_equal. by apply filter_key_absent.
  - rewrite decide_False; [by apply IH|].
    intros Hf. apply Hnotin. rewrite Hf. apply (list_elem_of_fmap f). by exists x.
Qed.



(** ** The rule-hit table after the upserts of a write *)

Lemma NoDup_map_filter {A K} (f : A -> K) (P : A -> Prop) `{forall x, Decision (P x)}
    (l : list A) :
  NoDup (map f l) -> NoDup (map f (filter P l)).
Proof.
  induction l as [|x l IH]; [done|]. simpl. intros [Hnotin Hnd]%NoDup_cons.
  rewrite filter_cons. case_decide; [|by apply IH].
  simpl. apply NoDup_cons. split; [|by apply IH].
  intros (y & Hy & Hin)%(list_elem_of_fmap f).
  apply list_elem_of_filter in Hin as [_ Hin].
  apply Hnotin. apply (list_elem_of_fmap f). by exists y.
Qed.

Lemma ruleHitUpsert_rule_hit d new db :
  rule_hit (ruleHitUpsert d new db) = hitUpsert d new (rule_hit db).
Proof. done. Qed.

Lemma hitUpsert_keys d new tbl k :
  k ∈ map sql.hit_key (hitUpsert d new tbl) <-> k ∈ map sql.hit_key tbl \/ k = sql.hit_key new.
Proof.
  unfold hitUpsert, ruleHitUpsert. simpl. destruct (decide (d = DBDriverSQLite3)) as [_|_].
  - unfold sql.replace_hit. rewrite map_app. rewrite elem_of_app. simpl.
    rewrite list_elem_of_singleton. split.
    + intros [(h & -> & Hin)%(list_elem_of_fmap sql.hit_key)|?]; [|by right].
      apply list_elem_of_filter in Hin as [_ Hin]. left.
      apply (list_elem_of_fmap sql.hit_key). by exists h.
    + intros [(h & -> & Hin)%(list_elem_of_fmap sql.hit_key)|?]; [|by right].
      destruct (decide (sql.hit_key h = sql.hit_key new)) as [?|Hne]; [by right|].
      left. apply (list_elem_of_fmap sql.hit_key). exists h. split; [done|].
      by apply list_elem_of_filter.
  - unfold sql.conflict_update_hit. case_bool_decide as Hex.
    + replace (map sql.hit_key (map _ tbl)) with (map sql.hit_key tbl).
      * split; [by left|]. intros [?| ->]; [done|].
        apply Exists_exists in Hex as (h & Hin & <-).
        apply (list_elem_of_fmap sql.hit_key). by exists h.
      * rewrite map_map. apply map_ext. intros h. by case_bool_decide.
    + rewrite map_app, elem_of_app. simpl. by rewrite list_elem_of_singleton.
Qed.

Lemma hitUpsert_NoDup d new tbl :
  NoDup (map sql.hit_key tbl) -> NoDup (map sql.hit_key (hitUpsert d new tbl)).
Proof.
  intros Hnd. unfold hitUpsert, ruleHitUpsert. simpl.
  destruct (decide (d = DBDriverSQLite3)) as [_|_].
  - unfold sql.replace_hit. rewrite map_app. apply NoDup_app. split; [|split].
    + by apply NoDup_map_filter.
    + intros k (h & -> & Hin)%(list_elem_of_fmap sql.hit_key).
      apply list_elem_of_filter in Hin as [Hne _].
      simpl. intros Heq%list_elem_of_singleton. done.
    + apply NoDup_singleton.
  - unfold sql.conflict_update_hit. case_bool_decide as Hex.
    + replace (map sql.hit_key (map _ tbl)) with (map sql.hit_key tbl); [done|].
      rewrite map_map. apply map_ext. intros h. by case_bool_decide.
    + rewrite map_app. apply NoDup_app. split; [done|]. split; [|apply NoDup_singleton].
      intros k (h & -> & Hin)%(list_elem_of_fmap sql.hit_key).
      simpl. intros Heq%list_elem_of_singleton.
      apply Hex, Exists_exists. by exists h.
Qed.

Lemma hitUpsert_fresh d new tbl :
  sql.hit_key new ∉ map sql.hit_key tbl -> hitUpsert d new tbl = tbl ++ [new].
Proof.
  intros Hfresh. unfold hitUpsert, ruleHitUpsert. simpl.
  destruct (decide (d = DBDriverSQLite3)) as [_|_].
  - unfold sql.replace_hit. f_equal.
    induction tbl as [|h tbl IH]; [done|].
    simpl in Hfresh. rewrite not_elem_of_cons in Hfresh. destruct Hfresh as [Hne Hfresh].
    rewrite filter_cons. rewrite decide_True by done. f_equal. by apply IH.
  - unfold sql.conflict_update_hit. rewrite bool_decide_eq_false_2; [done|].
    intros (h & Hin & Hk)%Exists_exists. apply Hfresh. rewrite <- Hk.
    apply (list_elem_of_fmap sql.hit_key). by exists h.
Qed.

Lemma filter_map_same {A} (P : A -> Prop) `{forall x, Decision (P x)} (g : A -> A)
    (l : list A) :
  (forall x, P (g x) <-> P x) ->
  filter P (map g l) = map g (filter P l).
Proof.
  intros Hg. induction l as [|x l IH]; [done|]. simpl. rewrite !filter_cons.
  destruct (decide (P x)) as [Hx|Hx].
  - rewrite decide_True by by apply Hg. simpl. by rewrite IH.
  - rewrite decide_False by (by rewrite Hg). done.
Qed.

(** The rows of one organization and cluster, after an upsert for them. *)
Lemma hitUpsert_filter d orgID clusterName new tbl :
  h_org_id new = orgID -> h_cluster_id new = clusterName ->
  filter (fun h => h_org_id h = orgID /\ h_cluster_id h = clusterName) (hitUpsert d new tbl)
  = hitUpsert d new
      (filter (fun h => h_org_id h = orgID /\ h_cluster_id h = clusterName) tbl).
Proof.
  intros Ho Hc. unfold hitUpsert, ruleHitUpsert. simpl.
  destruct (decide (d = DBDriverSQLite3)) as [_|_].
  - unfold sql.replace_hit. rewrite filter_app. f_equal.
    + rewrite !list_filter_filter. apply list_filter_iff. intros h. tauto.
    + rewrite filter_cons. by rewrite decide_True.
  - unfold sql.conflict_update_hit.
    rewrite (bool_decide_ext
               (Exists (fun h => sql.hit_key h = sql.hit_key new)
                  (filter (fun h => h_org_id h = orgID /\ h_cluster_id h = clusterName) tbl))
               (Exists (fun h => sql.hit_key h = sql.hit_key new) tbl)).
    2:{ rewrite !Exists_exists. split.
        - intros (h & [_ Hin]%list_elem_of_filter & Hk). by exists h.
        - intros (h & Hin & Hk). exists h. split; [|done].
          apply list_elem_of_filter. split; [|done].
          unfold sql.hit_key in Hk. by injection Hk as -> -> _ _. }
    case_bool_decide as Hex.
    + apply filter_map_same; [intros h; by case_bool_decide..].
    + rewrite filter_app. f_equal. rewrite filter_cons. by rewrite decide_True.
Qed.

(** The rule-hit table that the upserts of [rules] build from [tbl]. *)
Lemma writtenDB_rule_hit d orgID clusterName blob rules t offset now db :
  rule_hit (writtenDB d orgID clusterName blob rules t offset now db)
  = foldl (fun tbl rule => hitUpsert d (hitRow orgID clusterName rule) tbl)
          (rule_hit (sql.delete_hits orgID clusterName db)) rules.
Proof.
  unfold writtenDB. rewrite reportUpsert_rule_hit.
  generalize (sql.delete_hits orgID clusterName db) as db0.
  induction rules as [|rule rules IH]; intros db0; [done|]. simpl. by rewrite IH.
Qed.

Lemma foldl_hitUpsert_filter d orgID clusterName rules tbl :
  filter (fun h => h_org_id h = orgID /\ h_cluster_id h = clusterName)
         (foldl (fun tbl rule => hitUpsert d (hitRow orgID clusterName rule) tbl) tbl rules)
  = foldl (fun tbl rule => hitUpsert d (hitRow orgID clusterName rule) tbl)
          (filter (fun h => h_org_id h = orgID /\ h_cluster_id h = clusterName) tbl) rules.
Proof.
  revert tbl. induction rules as [|rule rules IH]; intros tbl; [done|]. simpl.
  rewrite IH. by rewrite hitUpsert_filter.
Qed.

Lemma delete_hits_filter orgID clusterName db :
  filter (fun h => h_org_id h = orgID /\ h_cluster_id h = clusterName)
         (rule_hit (sql.delete_hits orgID clusterName db)) = [].
Proof.
  unfold sql.delete_hits. simpl. rewrite list_filter_filter.
  induction (rule_hit db) as [|h tbl IH]; [done|].
  rewrite filter_cons. rewrite decide_False by tauto. done.
Qed.

(** The rows of the organization and the cluster, once a write is through:
    what the upserts of its rules make of an empty table. *)
Lemma hits_of_written d orgID clusterName blob rules t offset now db :
  sql.hits_of orgID clusterName (writtenDB d orgID clusterName blob rules t offset now db)
  = map (fun h => (h_template_data h, h_rule_fqdn h, h_error_key h))
        (foldl (fun tbl rule => hitUpsert d (hitRow orgID clusterName rule) tbl) [] rules).
Proof.
  unfold sql.hits_of. rewrite writtenDB_rule_hit, foldl_hitUpsert_filter.
  by rewrite delete_hits_filter.
Qed.

Lemma foldl_hitUpsert_keys d orgID clusterName rules k :
  k ∈ map sql.hit_key
        (foldl (fun tbl rule => hitUpsert d (hitRow orgID clusterName rule) tbl) [] rules)
  <-> k ∈ map (fun rule => sql.hit_key (hitRow orgID clusterName rule)) rules.
Proof.
  induction rules as [|rule rules IH] using rev_ind; [done|].
  rewrite foldl_snoc, hitUpsert_keys, IH, map_app, elem_of_app. simpl.
  by rewrite list_elem_of_singleton.
Qed.

Lemma foldl_hitUpsert_NoDup d orgID clusterName rules :
  NoDup (map sql.hit_key
           (foldl (fun tbl rule => hitUpsert d (hitRow orgID clusterName rule) tbl) [] rules)).
Proof.
  induction rules as [|rule rules IH] using rev_ind; [constructor|].
  rewrite foldl_snoc. by apply hitUpsert_NoDup.
Qed.

Lemma foldl_hitUpsert_distinct d orgID clusterName rules :
  NoDup (map itemKey rules) ->
  foldl (fun tbl rule => hitUpsert d (hitRow orgID clusterName rule) tbl) [] rules
  = map (hitRow orgID clusterName) rules.
Proof.
  induction rules as [|rule rules IH] using rev_ind; [done|].
  rewrite map_app. intros (Hnd & Hfresh & _)%NoDup_app.
  rewrite foldl_snoc, IH by done. rewrite map_app. simpl.
  apply hitUpsert_fresh.
  intros (h & Hk & (rule' & -> & Hin)%(list_elem_of_fmap (hitRow orgID clusterName)))
           %(list_elem_of_fmap sql.hit_key).
  apply (Hfresh (itemKey rule')).
  - apply (list_elem_of_fmap itemKey). by exists rule'.
  - simpl. apply list_elem_of_singleton. unfold sql.hit_key, hitRow in Hk. simpl in Hk.
    unfold itemKey. by injection Hk as -> ->.
Qed.

(** ** Reading back *)

Lemma parseRuleRows_from_map U rows acc :
  parseRuleRows_from U rows acc = (acc ++ map (ruleOfRow U) rows, None).
Proof.
  revert acc. induction rows as [|[[td fqdn] key] rows IH]; intros acc; simpl.
  - by rewrite app_nil_r.
  - rewrite IH. by rewrite <- app_assoc.
Qed.

Lemma ReadReportForCluster_healthy U storage orgID clusterName :
  healthy (connection storage) ->
  (ReadReportForCluster U storage orgID clusterName).1
  = match sql.last_checked_of orgID clusterName (committed (connection storage)) with
    | [] => ([], RFC3339 zeroTime,
             Some (ItemNotFoundError [ArgInt orgID; ArgText clusterName]))
    | t :: _ =>
        (map (ruleOfRow U) (sql.hits_of orgID clusterName (committed (connection storage))),
         RFC3339 t, None)
    end.
Proof.
  intros Hh. unfold ReadReportForCluster, QueryRow, Query.
  rewrite (roundtrip_healthy _ _ Hh). simpl.
  destruct (sql.last_checked_of _ _ _) as [|t ts]; [done|]. simpl.
  rewrite (roundtrip_healthy _ _ (served_healthy _ _ Hh)). simpl.
  unfold parseRuleRows. by rewrite parseRuleRows_from_map.
Qed.

(** ** Two writes and a read *)

Lemma pair_eta_fst {A B} (p : A * B) (a : A) : p.1 = a -> p = (a, p.2).
Proof. destruct p. simpl. by intros ->. Qed.




Example WriteReportForCluster_twice_then_read_values :
  (ReadReportForCluster GoJSON.Unmarshal storage2 1 "c").1
  = ([mkRuleOnReport "rule.b" "KEY_1" (TemplateJSON "[2]");
      mkRuleOnReport "rule.c" "KEY_2" (TemplateBytes "oops")],
     RFC3339 20, None).
Proof. vm_compute. reflexivity. Qed.

(** A second write that names [rule.b] with [KEY_1] twice, on the driver
    whose statement updates on conflict: the hit read back carries the error
    key where its template data would be. *)
Example WriteReportForCluster_twice_repeated_rule :
  (ReadReportForCluster GoJSON.Unmarshal
     (WriteReportForCluster replicaA 1 "c" "second"
        (rulesB ++ [mkReportItem "rule.b" "KEY_1" "[7]"]) 20 5 21).2 1 "c").1
  = ([mkRuleOnReport "rule.b" "KEY_1" (TemplateBytes "KEY_1");
      mkRuleOnReport "rule.c" "KEY_2" (TemplateBytes "oops")],
     RFC3339 20, None).
Proof. vm_compute. reflexivity. Qed.


(** ** Stale writes *)


Lemma ConvertDBError_Some e itemID : exists e', ConvertDBError (Some e) itemID = Some e'.
Proof. destruct e; by eexists. Qed.




Example WriteReportForCluster_stale_fast_path :
  WriteReportForCluster storage1 1 "c" "late" rulesB 5 3 12 = (Some ErrOldReport, storage1).
Proof. reflexivity. Qed.

Example WriteReportForCluster_stale_in_transaction :
  let '(err, storage') := WriteReportForCluster restarted 1 "c" "late" rulesB 5 3 12 in
  err = None
  /\ committed (connection storage') = committed (connection storage1)
  /\ clustersLastChecked storage' !! "c" = None.
Proof. vm_compute. repeat split; reflexivity. Qed.


(** ** A second write with the same checked-at time *)

Lemma writtenDB_report d orgID clusterName blob rules t offset now db :
  report (writtenDB d orgID clusterName blob rules t offset now db)
  = report (reportUpsert d (mkReportRow orgID clusterName blob now t offset) db).
Proof.
  unfold writtenDB.
  assert (Hrep : forall db0,
             report (foldl (fun db rule => ruleHitUpsert d (hitRow orgID clusterName rule) db)
                           db0 rules) = report db0).
  { induction rules as [|rule rules IH]; intros db0; [done|]. simpl. by rewrite IH. }
  unfold reportUpsert. simpl. by rewrite Hrep.
Qed.

Lemma more_recent_unique orgID clusterName t db r :
  NoDup (map r_cluster (report db)) ->
  r ∈ report db -> r_cluster r = clusterName -> r_last_checked_at r <= t ->
  sql.more_recent orgID clusterName t db = [].
Proof.
  intros Hnd Hin Hc Hle. unfold sql.more_recent.
  destruct (filter _ _) as [|r' rows] eqn:E; [done|].
  assert (Hr' : r' ∈ filter (fun r => r_org_id r = orgID /\ r_cluster r = clusterName
                                     /\ t < r_last_checked_at r) (report db))
    by (rewrite E; by left).
  apply list_elem_of_filter in Hr' as [(_ & Hc' & Hlt) Hin'].
  assert (Hsame : r' ∈ filter (fun y => r_cluster y = r_cluster r) (report db))
    by (apply list_elem_of_filter; split; [congruence|done]).
  rewrite (filter_unique_key r_cluster (report db) r Hnd Hin) in Hsame.
  apply list_elem_of_singleton in Hsame. subst r'. lia.
Qed.

(** C3 (as amended): with the report of the cluster stored at [t], a second
    write checked at [t] is answered with the stale-report error, and
    changes nothing, when the cache holds [t] for the cluster.  When the
    cache has no entry for the cluster the write is not stale for the
    transaction: on a supported driver that serves every call it returns no
    error and is applied again, after which the report table still holds
    one row for the cluster, the row of this write, the clusters of the
    table are still pairwise different, no two rule hits of the cluster
    share a key, and the cache holds [t]. *)
Theorem WriteReportForCluster_equal_time (storage : DBStorage) (orgID : OrgID)
    (clusterName : ClusterName) (blob : ClusterReport) (rules : list ReportItem)
    (t : Time) (offset : KafkaOffset) (now : Time) (r : ReportRow) :
  r ∈ report (committed (connection storage)) ->
  r_org_id r = orgID -> r_cluster r = clusterName -> r_last_checked_at r = t ->
  NoDup (map r_cluster (report (committed (connection storage)))) ->
  let '(err, storage') :=
    WriteReportForCluster storage orgID clusterName blob rules t offset now in
  (clustersLastChecked storage !! clusterName = Some t ->
     err = Some ErrOldReport /\ storage' = storage)
  /\ (clustersLastChecked storage !! clusterName = None -> supported storage ->
      healthy (connection storage) ->
      err = None
      /\ filter (fun r' => r_cluster r' = clusterName)
                (report (committed (connection storage')))
         = [mkReportRow orgID clusterName blob now t offset]
      /\ NoDup (map r_cluster (report (committed (connection storage'))))
      /\ NoDup (map sql.hit_key
                  (filter (fun h => h_org_id h = orgID /\ h_cluster_id h = clusterName)
                          (rule_hit (committed (connection storage')))))
      /\ clustersLastChecked storage' !! clusterName = Some t).
Proof.
  intros Hin Ho Hc Ht Hnd.
  destruct (WriteReportForCluster storage orgID clusterName blob rules t offset now)
    as [err storage'] eqn:Hw.
  split.
  - intros Hold. unfold WriteReportForCluster in Hw. rewrite Hold in Hw.
    unfold After in Hw. rewrite Z.ltb_irrefl in Hw. simpl in Hw. by injection Hw as <- <-.
  - intros Hnone Hsup Hh.
    destruct (WriteReportForCluster_applied storage orgID clusterName blob rules t offset now)
      as (cn' & Hw' & Hh' & Hdb).
    + unfold cachePasses. by rewrite Hnone.
    + done.
    + done.
    + apply (more_recent_unique orgID clusterName t _ r); [done..|lia].
    + rewrite Hw in Hw'. injection Hw' as -> ->. cbn [connection clustersLastChecked].
      rewrite Hdb. split; [done|]. split; [|split; [|split]].
      * rewrite writtenDB_report.
        apply (filter_unique_key r_cluster _ (mkReportRow orgID clusterName blob now t offset)).
        -- by apply reportUpsert_unique.
        -- apply reportUpsert_stored.
      * rewrite writtenDB_report. by apply reportUpsert_unique.
      * rewrite writtenDB_rule_hit, foldl_hitUpsert_filter, delete_hits_filter.
        apply foldl_hitUpsert_NoDup.
      * apply lookup_insert_eq.
Qed.

Lemma WriteReportForCluster_equal_time_witness :
  let '(err, storage') := WriteReportForCluster restarted 1 "c" "first" rulesA 10 4 12 in
  (clustersLastChecked restarted !! "c" = Some 10 ->
     err = Some ErrOldReport /\ storage' = restarted)
  /\ (clustersLastChecked restarted !! "c" = None -> supported restarted ->
      healthy (connection restarted) ->
      err = None
      /\ filter (fun r' => r_cluster r' = "c") (report (committed (connection storage')))
         = [mkReportRow 1 "c" "first" 12 10 4]
      /\ NoDup (map r_cluster (report (committed (connection storage'))))
      /\ NoDup (map sql.hit_key
                  (filter (fun h => h_org_id h = 1 /\ h_cluster_id h = "c")
                          (rule_hit (committed (connection storage')))))
      /\ clustersLastChecked storage' !! "c" = Some 10).
Proof.
  apply (WriteReportForCluster_equal_time restarted 1 "c" "first" rulesA 10 4 12
           (mkReportRow 1 "c" "first" 11 10 4)).
  - vm_compute. left.
  - reflexivity.
  - reflexivity.
  - reflexivity.
  - vm_compute. apply NoDup_singleton.
Defined.

Example WriteReportForCluster_equal_time_cached :
  WriteReportForCluster storage1 1 "c" "first" rulesA 10 4 12 = (Some ErrOldReport, storage1).
Proof. reflexivity. Qed.

(** The report of [storage1], checked at 10, is written once more, with the
    same rule hits and the same checked-at time, through a storage value
    whose cache has no entry for the cluster: the call returns no error,
    the statements of [updateReport] reach the driver, and the stored row
    carries the time of the second call. *)
Lemma WriteReportForCluster_equal_time_reapplied :
  let '(err, storage') := WriteReportForCluster restarted 1 "c" "first" rulesA 10 4 12 in
  clustersLastChecked restarted !! "c" = None
  /\ report (committed (connection restarted)) = [mkReportRow 1 "c" "first" 11 10 4]
  /\ err = None
  /\ report (committed (connection storage')) = [mkReportRow 1 "c" "first" 12 10 4]
  /\ drop (length (trace (connection restarted))) (trace (connection storage'))
     = [CBegin;
        CQuery "SELECT last_checked_at FROM report WHERE org_id = $1 AND cluster = $2 AND last_checked_at > $3;"
               [ArgInt 1; ArgText "c"; ArgTime 10];
        CExec "DELETE FROM rule_hit WHERE org_id = $1 AND cluster_id = $2;"
              [ArgInt 1; ArgText "c"];
        CExec ruleHitUpsertQuery_sqlite
              [ArgInt 1; ArgText "c"; ArgText "rule.a"; ArgText "KEY_1"; ArgText "{}"];
        CExec ruleHitUpsertQuery_sqlite
              [ArgInt 1; ArgText "c"; ArgText "rule.b"; ArgText "KEY_1"; ArgText "[1]"];
        CExec reportUpsertQuery_sqlite
              [ArgInt 1; ArgText "c"; ArgText "first"; ArgTime 12; ArgTime 10; ArgInt 4];
        CCommit].
Proof. vm_compute. repeat split; reflexivity. Qed.

(** ** The staleness cache and the commit *)

Lemma WriteReportForCluster_error_keeps_cache storage orgID clusterName blob rules t offset
    now e :
  (WriteReportForCluster storage orgID clusterName blob rules t offset now).1 = Some e ->
  clustersLastChecked (WriteReportForCluster storage orgID clusterName blob rules t offset now).2
  = clustersLastChecked storage.
Proof.
  unfold WriteReportForCluster.
  match goal with
  | |- context [if ?b then (Some ErrOldReport, storage) else _] => destruct b
  end; [done|].
  case_bool_decide; [done|].
  unfold Begin. destruct (roundtrip CBegin (connection storage)) as [[e0|] cn1]; [done|].
  unfold WriteReportForCluster_tx, TxQuery. cbn [connection withConn].
  match goal with |- context [roundtrip ?c cn1] =>
    destruct (roundtrip c cn1) as [[e1|] cn2] end.
  - by destruct (ConvertDBError_Some e1 [ArgInt orgID; ArgText clusterName]) as [e' ->].
  - cbn [ConvertDBError].
    destruct (sql.more_recent orgID clusterName t (pending (mkTx (committed cn1))))
      as [|t' rows]; [|done].
    destruct (updateReport _ _ _ _ _ _ _ _ _ _) as [[[e2|] tx'] cn3]; done.
Qed.

(** C4: the cache is left as it was when [WriteReportForCluster] returns an
    error, which covers the stale-report error and every rollback; but when
    every statement of the transaction is served and the commit itself
    fails, the call reports success, nothing is stored, and the staleness
    cache holds the checked-at time of the write all the same, so that the
    same report sent again is refused as old. *)
Theorem WriteReportForCluster_cache_after_failed_commit (storage : DBStorage)
    (orgID : OrgID) (clusterName : ClusterName) (blob : ClusterReport)
    (rules : list ReportItem) (t : Time) (offset : KafkaOffset) (now : Time) :
  (forall e,
     (WriteReportForCluster storage orgID clusterName blob rules t offset now).1 = Some e ->
     clustersLastChecked
       (WriteReportForCluster storage orgID clusterName blob rules t offset now).2
     = clustersLastChecked storage)
  /\ (let '(err, storage') :=
        WriteReportForCluster commitFailsStorage 1 "c" "report" [] 10 7 5 in
      err = None
      /\ last (trace (connection storage')) = Some CCommit
      /\ committed (connection storage') = emptyDB
      /\ clustersLastChecked commitFailsStorage !! "c" = None
      /\ clustersLastChecked storage' !! "c" = Some 10
      /\ (WriteReportForCluster storage' 1 "c" "report" [] 10 7 6).1 = Some ErrOldReport).
Proof.
  split.
  - intros e. apply WriteReportForCluster_error_keeps_cache.
  - vm_compute. repeat split; reflexivity.
Qed.

(** * Further properties of the storage *)

(** ** What a write can do, whatever the driver does *)

Lemma updateReport_rules_any storage q orgID clusterName rules tx cn :
  let '(err, tx', cn') := updateReport_rules storage q orgID clusterName rules tx cn in
  committed cn' = committed cn
  /\ (err = None ->
      pending tx'
      = foldl (fun db rule =>
                 ruleHitUpsert (dbDriverType storage) (hitRow orgID clusterName rule) db)
              (pending tx) rules).
Proof.
  revert tx cn. induction rules as [|rule rules IH]; intros tx cn; [done|].
  simpl. unfold TxExec.
  match goal with |- context [roundtrip ?c cn] =>
    pose proof (roundtrip_committed c cn) as Hc;
    destruct (roundtrip c cn) as [[e|] cn1] end; simpl in Hc.
  - split; [done|]. intros ?; done.
  - match goal with |- context [updateReport_rules _ _ _ _ _ ?tx1 cn1] =>
      pose proof (IH tx1 cn1) as IH1;
      destruct (updateReport_rules storage q orgID clusterName rules tx1 cn1)
        as [[err tx2] cn2] end.
    destruct IH1 as [IHc IHp]. split; [congruence|]. exact IHp.
Qed.

Lemma updateReport_any storage tx orgID clusterName blob rules t offset now cn :
  let '(err, tx', cn') :=
    updateReport storage tx orgID clusterName blob rules t offset now cn in
  committed cn' = committed cn
  /\ (err = None ->
      pending tx'
      = writtenDB (dbDriverType storage) orgID clusterName blob rules t offset now
                  (pending tx)).
Proof.
  unfold updateReport, TxExec at 1.
  match goal with |- context [roundtrip ?c cn] =>
    pose proof (roundtrip_committed c cn) as Hc;
    destruct (roundtrip c cn) as [[e|] cn1] end; simpl in Hc.
  - split; [done|]. intros ?; done.
  - match goal with |- context [updateReport_rules ?st ?q ?o ?c ?rs ?tx1 cn1] =>
      pose proof (updateReport_rules_any st q o c rs tx1 cn1) as Hr;
      destruct (updateReport_rules st q o c rs tx1 cn1) as [[[e|] tx2] cn2] end;
      destruct Hr as [Hrc Hrp]; simpl in Hrp.
    + split; [congruence|]. intros ?; done.
    + unfold TxExec.
      match goal with |- context [roundtrip ?c cn2] =>
        pose proof (roundtrip_committed c cn2) as Hc2;
        destruct (roundtrip c cn2) as [[e|] cn3] end; simpl in Hc2; simpl.
      * split; [congruence|]. intros ?; done.
      * split; [congruence|]. intros _. unfold writtenDB. by rewrite Hrp.
Qed.

(** The three things a call to [WriteReportForCluster] can leave behind. *)
Lemma WriteReportForCluster_outcome storage orgID clusterName blob rules t offset now :
  let '(err, storage') :=
    WriteReportForCluster storage orgID clusterName blob rules t offset now in
  dbDriverType storage' = dbDriverType storage
  /\ (clustersLastChecked storage' = clustersLastChecked storage
      \/ (err = None /\ cachePasses storage clusterName t
          /\ clustersLastChecked storage'
             = <[clusterName := t]> (clustersLastChecked storage)))
  /\ (committed (connection storage') = committed (connection storage)
      \/ (err = None
          /\ clustersLastChecked storage'
             = <[clusterName := t]> (clustersLastChecked storage)
          /\ committed (connection storage')
             = writtenDB (dbDriverType storage) orgID clusterName blob rules t offset now
                         (committed (connection storage)))).
Proof.
  unfold WriteReportForCluster.
  assert (Hpass : match clustersLastChecked storage !! clusterName with
                  | Some old => negb (After t old) | None => false end = false ->
                  cachePasses storage clusterName t).
  { unfold cachePasses, After.
    destruct (clustersLastChecked storage !! clusterName) as [old|]; [|done].
    destruct (Z.ltb_spec old t); [done|]. simpl. done. }
  destruct (match clustersLastChecked storage !! clusterName with
            | Some old => negb (After t old) | None => false end) eqn:Hstale.
  { repeat split; by left. }
  specialize (Hpass eq_refl).
  case_bool_decide; [repeat split; by left|].
  unfold Begin.
  pose proof (roundtrip_committed CBegin (connection storage)) as Hb.
  destruct (roundtrip CBegin (connection storage)) as [[e|] cn1]; simpl in Hb.
  { repeat split; by left. }
  unfold WriteReportForCluster_tx, TxQuery. cbn [connection withConn pending].
  match goal with |- context [roundtrip ?c cn1] =>
    pose proof (roundtrip_committed c cn1) as Hq;
    destruct (roundtrip c cn1) as [[e|] cn2] end; simpl in Hq.
  - destruct (ConvertDBError_Some e [ArgInt orgID; ArgText clusterName]) as [e' ->].
    cbn. unfold Rollback.
    pose proof (roundtrip_committed CRollback cn2) as Hr.
    destruct (roundtrip CRollback cn2) as [o cn3]. simpl in *.
    split; [done|]. split; left; [done|congruence].
  - cbn [ConvertDBError].
    destruct (sql.more_recent orgID clusterName t (committed cn1)) as [|t' rows].
    + match goal with |- context [updateReport ?st ?tx ?o ?c ?b ?rs ?tt ?off ?n cn2] =>
        pose proof (updateReport_any st tx o c b rs tt off n cn2) as Hu;
        destruct (updateReport st tx o c b rs tt off n cn2) as [[[e|] tx2] cn3] end;
        destruct Hu as [Huc Hup]; simpl in Huc, Hup.
      * cbn. unfold Rollback.
        pose proof (roundtrip_committed CRollback cn3) as Hr.
        destruct (roundtrip CRollback cn3) as [o cn4]. simpl in *.
        split; [done|]. split; left; [done|congruence].
      * cbn. unfold Commit.
        pose proof (roundtrip_committed CCommit cn3) as Hcm.
        destruct (roundtrip CCommit cn3) as [[e|] cn4]; simpl in *.
        -- split; [done|]. split; [right; done|left; congruence].
        -- split; [done|]. split; [right; done|right].
           split; [done|]. split; [done|]. rewrite Hup by done. by rewrite Hb.
    + cbn. unfold Commit.
      pose proof (roundtrip_committed CCommit cn2) as Hcm.
      destruct (roundtrip CCommit cn2) as [[e|] cn3]; simpl in *.
      * split; [done|]. split; left; [done|congruence].
      * split; [done|]. split; left; [done|congruence].
Qed.

Lemma hitUpsert_other d new tbl h :
  sql.hit_key h <> sql.hit_key new -> h ∈ hitUpsert d new tbl <-> h ∈ tbl.
Proof.
  intros Hne. unfold hitUpsert, ruleHitUpsert. simpl.
  destruct (decide (d = DBDriverSQLite3)) as [_|_].
  - unfold sql.replace_hit. rewrite elem_of_app, list_elem_of_filter, list_elem_of_singleton.
    split; [intros [[_ ?]| ->]; done|]. intros ?. by left.
  - unfold sql.conflict_update_hit. case_bool_decide as Hex.
    + split.
      * intros (h0 & Heq & Hin0)%(list_elem_of_fmap _).
        case_bool_decide as Hk0.
        -- exfalso. apply Hne. rewrite Heq. by rewrite <- Hk0.
        -- by subst.
      * intros Hin. apply (list_elem_of_fmap _). exists h. split; [|done].
        by rewrite bool_decide_eq_false_2.
    + rewrite elem_of_app, list_elem_of_singleton. split; [intros [?| ->]; done|]. by left.
Qed.

Lemma writtenDB_other_hits d orgID clusterName blob rules t offset now db h :
  ~ (h_org_id h = orgID /\ h_cluster_id h = clusterName) ->
  h ∈ rule_hit (writtenDB d orgID clusterName blob rules t offset now db)
  <-> h ∈ rule_hit db.
Proof.
  intros Hother. rewrite writtenDB_rule_hit.
  assert (Hfold : forall tbl,
             h ∈ foldl (fun tbl rule => hitUpsert d (hitRow orgID clusterName rule) tbl)
                       tbl rules <-> h ∈ tbl).
  { induction rules as [|rule rules IH]; intros tbl; [done|]. simpl.
    rewrite IH. apply hitUpsert_other. intros Hk. apply Hother.
    unfold sql.hit_key, hitRow in Hk. simpl in Hk. by injection Hk as -> -> _ _. }
  rewrite Hfold. unfold sql.delete_hits. simpl. rewrite list_elem_of_filter. tauto.
Qed.

Lemma writtenDB_other_reports d orgID clusterName blob rules t offset now db r :
  r_cluster r <> clusterName ->
  r ∈ report (writtenDB d orgID clusterName blob rules t offset now db) <-> r ∈ report db.
Proof.
  intros Hne. rewrite writtenDB_report. by apply reportUpsert_other_cluster.
Qed.

Lemma writtenDB_toggles d orgID clusterName blob rules t offset now db :
  cluster_rule_toggle (writtenDB d orgID clusterName blob rules t offset now db)
  = cluster_rule_toggle db.
Proof.
  unfold writtenDB, reportUpsert. simpl.
  assert (Hfold : forall db0,
             cluster_rule_toggle
               (foldl (fun db rule => ruleHitUpsert d (hitRow orgID clusterName rule) db)
                      db0 rules) = cluster_rule_toggle db0).
  { induction rules as [|rule rules IH]; intros db0; [done|]. simpl. by rewrite IH. }
  by rewrite Hfold.
Qed.

(** X1: a call to [WriteReportForCluster] is all or nothing, whatever the
    driver does: the committed tables are those from before the call, or the
    call returned no error and the tables hold the report row of the call
    and, for its organization and cluster, the rule hits that the upserts of
    its rules make of an empty table; a call that returns an error has
    changed nothing. *)
Theorem WriteReportForCluster_all_or_nothing (storage : DBStorage) (orgID : OrgID)
    (clusterName : ClusterName) (blob : ClusterReport) (rules : list ReportItem)
    (t : Time) (offset : KafkaOffset) (now : Time) :
  let '(err, storage') :=
    WriteReportForCluster storage orgID clusterName blob rules t offset now in
  (err <> None -> committed (connection storage') = committed (connection storage))
  /\ (committed (connection storage') = committed (connection storage)
      \/ (err = None
          /\ filter (fun r => r_cluster r = clusterName)
                    (report (committed (connection storage')))
             ⊆ [mkReportRow orgID clusterName blob now t offset]
          /\ mkReportRow orgID clusterName blob now t offset
             ∈ report (committed (connection storage'))
          /\ sql.hits_of orgID clusterName (committed (connection storage'))
             = map (fun h => (h_template_data h, h_rule_fqdn h, h_error_key h))
                   (foldl (fun tbl rule =>
                             hitUpsert (dbDriverType storage)
                                       (hitRow orgID clusterName rule) tbl) [] rules))).
Proof.
  pose proof (WriteReportForCluster_outcome storage orgID clusterName blob rules t offset now)
    as H.
  destruct (WriteReportForCluster storage orgID clusterName blob rules t offset now)
    as [err storage'].
  destruct H as (_ & _ & [Hsame | (-> & _ & Hdb)]).
  - split; [done|by left].
  - split; [done|]. right. split; [done|]. rewrite Hdb. split; [|split].
    + intros r [Hc Hin]%list_elem_of_filter. apply list_elem_of_singleton.
      rewrite writtenDB_report in Hin.
      by apply (reportUpsert_same_cluster _ _ _ _ Hin).
    + rewrite writtenDB_report. apply reportUpsert_stored.
    + apply hits_of_written.
Qed.

(** X2: a call to [WriteReportForCluster] for one organization and cluster
    touches nothing else, whatever its outcome: the reports of the other
    clusters, the rule hits of every other pair of organization and
    cluster, the rule toggles and the cache entries of the other clusters
    are as before. *)
Theorem WriteReportForCluster_frame (storage : DBStorage) (orgID : OrgID)
    (clusterName : ClusterName) (blob : ClusterReport) (rules : list ReportItem)
    (t : Time) (offset : KafkaOffset) (now : Time) :
  let '(err, storage') :=
    WriteReportForCluster storage orgID clusterName blob rules t offset now in
  (forall r, r_cluster r <> clusterName ->
     r ∈ report (committed (connection storage'))
     <-> r ∈ report (committed (connection storage)))
  /\ (forall h, ~ (h_org_id h = orgID /\ h_cluster_id h = clusterName) ->
        h ∈ rule_hit (committed (connection storage'))
        <-> h ∈ rule_hit (committed (connection storage)))
  /\ cluster_rule_toggle (committed (connection storage'))
     = cluster_rule_toggle (committed (connection storage))
  /\ (forall c, c <> clusterName ->
        clustersLastChecked storage' !! c = clustersLastChecked storage !! c).
Proof.
  pose proof (WriteReportForCluster_outcome storage orgID clusterName blob rules t offset now)
    as H.
  destruct (WriteReportForCluster storage orgID clusterName blob rules t offset now)
    as [err storage'].
  destruct H as (_ & Hcache & Hdb).
  assert (Hc : forall c, c <> clusterName ->
                 clustersLastChecked storage' !! c = clustersLastChecked storage !! c).
  { intros c Hne. destruct Hcache as [-> | (_ & _ & ->)]; [done|].
    by rewrite lookup_insert_ne. }
  destruct Hdb as [-> | (_ & _ & ->)]; [done|].
  split; [|split; [|split]]; [| | |done].
  - intros r Hne. by apply writtenDB_other_reports.
  - intros h Hother. by apply writtenDB_other_hits.
  - apply writtenDB_toggles.
Qed.

(** X3: no call to [WriteReportForCluster] moves a cache entry back in
    time: an entry that the cache holds before the call is still there
    after it, with the same or a later time. *)
Theorem WriteReportForCluster_cache_monotone (storage : DBStorage) (orgID : OrgID)
    (clusterName : ClusterName) (blob : ClusterReport) (rules : list ReportItem)
    (t : Time) (offset : KafkaOffset) (now : Time) (c : ClusterName) :
  let '(err, storage') :=
    WriteReportForCluster storage orgID clusterName blob rules t offset now in
  match clustersLastChecked storage !! c with
  | Some old => exists new, clustersLastChecked storage' !! c = Some new /\ old <= new
  | None => True
  end.
Proof.
  pose proof (WriteReportForCluster_outcome storage orgID clusterName blob rules t offset now)
    as H.
  destruct (WriteReportForCluster storage orgID clusterName blob rules t offset now)
    as [err storage'].
  destruct H as (_ & Hcache & _).
  destruct (clustersLastChecked storage !! c) as [old|] eqn:Hold; [|done].
  destruct Hcache as [-> | (_ & Hpass & ->)].
  - exists old. split; [done|lia].
  - destruct (decide (c = clusterName)) as [->|Hne].
    + exists t. rewrite lookup_insert_eq. split; [done|].
      unfold cachePasses in Hpass. rewrite Hold in Hpass. lia.
    + exists old. rewrite lookup_insert_ne by done. split; [done|lia].
Qed.

(** ** The cache in step with the report table *)

Lemma foldl_insert_absent {V} (rows : list (string * V)) (m : gmap string V) (k : string) :
  k ∉ map fst rows ->
  foldl (fun m row => <[row.1 := row.2]> m) m rows !! k = m !! k.
Proof.
  revert m. induction rows as [|[k0 v0] rows IH]; intros m Hk; [done|].
  simpl in *. rewrite not_elem_of_cons in Hk. destruct Hk as [Hne Hk].
  rewrite IH by done. by rewrite lookup_insert_ne.
Qed.

Lemma foldl_insert_present {V} (rows : list (string * V)) (m : gmap string V) (k : string)
    (v : V) :
  NoDup (map fst rows) -> (k, v) ∈ rows ->
  foldl (fun m row => <[row.1 := row.2]> m) m rows !! k = Some v.
Proof.
  revert m. induction rows as [|[k0 v0] rows IH]; intros m Hnd Hin;
    [by apply elem_of_nil in Hin|].
  simpl in *. apply NoDup_cons in Hnd as [Hfresh Hnd].
  apply elem_of_cons in Hin as [[= -> ->]|Hin].
  - rewrite foldl_insert_absent by done. apply lookup_insert_eq.
  - by apply IH.
Qed.

(** X4: when the driver serves the query and no two stored reports share a
    cluster, [Init] returns no error, leaves the tables alone and puts the
    cache in step with the report table: the cache holds the checked-at
    time of every stored report, and the entries of clusters without a
    stored report are as before. *)
Theorem Init_warms_cache (storage : DBStorage) :
  healthy (connection storage) ->
  NoDup (map r_cluster (report (committed (connection storage)))) ->
  let '(err, storage') := Init storage in
  err = None
  /\ committed (connection storage') = committed (connection storage)
  /\ healthy (connection storage')
  /\ synced storage'
  /\ (forall c, c ∉ map r_cluster (report (committed (connection storage))) ->
        clustersLastChecked storage' !! c = clustersLastChecked storage !! c).
Proof.
  intros Hh Hnd. unfold Init, Query. rewrite (roundtrip_healthy _ _ Hh). simpl.
  assert (Hfst : map fst (sql.clusters_last_checked (committed (connection storage)))
                 = map r_cluster (report (committed (connection storage)))).
  { unfold sql.clusters_last_checked. rewrite map_map. by apply map_ext. }
  split; [done|]. split; [done|]. split; [by apply (served_healthy _ _ Hh)|].
  split; [split; [done|]|].
  - simpl. intros r Hr. apply foldl_insert_present; [by rewrite Hfst|].
    unfold sql.clusters_last_checked.
    apply (list_elem_of_fmap (fun r => (r_cluster r, r_last_checked_at r))). by exists r.
  - intros c Hc. simpl. apply foldl_insert_absent. by rewrite Hfst.
Qed.

Lemma Init_warms_cache_witness :
  let '(err, storage') := Init coldStorage in
  err = None
  /\ committed (connection storage') = committed (connection coldStorage)
  /\ healthy (connection storage')
  /\ synced storage'
  /\ (forall c, c ∉ map r_cluster (report (committed (connection coldStorage))) ->
        clustersLastChecked storage' !! c = clustersLastChecked coldStorage !! c).
Proof.
  apply (Init_warms_cache coldStorage).
  - apply Forall_nil_2.
  - vm_compute. apply NoDup_singleton.
Defined.

Lemma synced_more_recent storage orgID clusterName t :
  synced storage -> cachePasses storage clusterName t ->
  sql.more_recent orgID clusterName t (committed (connection storage)) = [].
Proof.
  intros [_ Hsync] Hpass. unfold sql.more_recent.
  destruct (filter _ _) as [|r rows] eqn:E; [done|].
  assert (Hr : r ∈ filter (fun r => r_org_id r = orgID /\ r_cluster r = clusterName
                                    /\ t < r_last_checked_at r)
                   (report (committed (connection storage)))) by (rewrite E; by left).
  apply list_elem_of_filter in Hr as [(_ & Hc & Hlt) Hin].
  specialize (Hsync r Hin). unfold cachePasses in Hpass.
  rewrite <- Hc, Hsync in Hpass. lia.
Qed.

(** X5: through a cache that is in step with the report table, on a
    supported driver that serves every call, no write is dropped in
    silence: [WriteReportForCluster] either answers with the stale-report
    error and leaves the storage as it is, or returns no error with the
    report stored and the cache entry of the cluster at the checked-at
    time; either way the cache is in step with the report table
    afterwards. *)
Theorem WriteReportForCluster_synced (storage : DBStorage) (orgID : OrgID)
    (clusterName : ClusterName) (blob : ClusterReport) (rules : list ReportItem)
    (t : Time) (offset : KafkaOffset) (now : Time) :
  synced storage -> healthy (connection storage) -> supported storage ->
  let '(err, storage') :=
    WriteReportForCluster storage orgID clusterName blob rules t offset now in
  synced storage'
  /\ healthy (connection storage')
  /\ ((err = Some ErrOldReport /\ storage' = storage
       /\ exists old, clustersLastChecked storage !! clusterName = Some old /\ t <= old)
      \/ (err = None
          /\ mkReportRow orgID clusterName blob now t offset
             ∈ report (committed (connection storage'))
          /\ clustersLastChecked storage' !! clusterName = Some t)).
Proof.
  intros Hsync Hh Hsup.
  destruct (clustersLastChecked storage !! clusterName) as [old|] eqn:Hold.
  - destruct (Z.lt_ge_cases old t) as [Hlt|Hge].
    + destruct (WriteReportForCluster_applied storage orgID clusterName blob rules t offset now)
        as (cn' & -> & Hh' & Hdb).
      * unfold cachePasses. by rewrite Hold.
      * done.
      * done.
      * apply synced_more_recent; [done|]. unfold cachePasses. by rewrite Hold.
      * split; [|split; [done|right]].
        -- destruct Hsync as [Hnd Hs]. split; cbn [connection clustersLastChecked].
           ++ rewrite Hdb, writtenDB_report. by apply reportUpsert_unique.
           ++ intros r Hr. rewrite Hdb, writtenDB_report in Hr.
              destruct (decide (r_cluster r = clusterName)) as [Hc|Hc].
              ** rewrite (reportUpsert_same_cluster _ _ _ _ Hr) by done. simpl.
                 apply lookup_insert_eq.
              ** rewrite lookup_insert_ne by done. apply Hs.
                 by apply (reportUpsert_other_cluster (dbDriverType storage)
                             (mkReportRow orgID clusterName blob now t offset)).
        -- split; [done|]. cbn [connection clustersLastChecked]. split.
           ++ rewrite Hdb, writtenDB_report. apply reportUpsert_stored.
           ++ apply lookup_insert_eq.
    + unfold WriteReportForCluster. rewrite Hold. unfold After.
      destruct (Z.ltb_spec old t) as [?|_]; [lia|]. simpl.
      split; [done|]. split; [done|]. left. split; [done|]. split; [done|].
      exists old. split; [done|lia].
  - destruct (WriteReportForCluster_applied storage orgID clusterName blob rules t offset now)
      as (cn' & -> & Hh' & Hdb).
    + unfold cachePasses. by rewrite Hold.
    + done.
    + done.
    + apply synced_more_recent; [done|]. unfold cachePasses. by rewrite Hold.
    + split; [|split; [done|right]].
      * destruct Hsync as [Hnd Hs]. split; cbn [connection clustersLastChecked].
        -- rewrite Hdb, writtenDB_report. by apply reportUpsert_unique.
        -- intros r Hr. rewrite Hdb, writtenDB_report in Hr.
           destruct (decide (r_cluster r = clusterName)) as [Hc|Hc].
           ++ rewrite (reportUpsert_same_cluster _ _ _ _ Hr) by done. simpl.
              apply lookup_insert_eq.
           ++ rewrite lookup_insert_ne by done. apply Hs.
              by apply (reportUpsert_other_cluster (dbDriverType storage)
                          (mkReportRow orgID clusterName blob now t offset)).
      * split; [done|]. cbn [connection clustersLastChecked]. split.
        -- rewrite Hdb, writtenDB_report. apply reportUpsert_stored.
        -- apply lookup_insert_eq.
Qed.

Lemma synced_storage1 : synced storage1.
Proof.
  split.
  - vm_compute. apply NoDup_singleton.
  - intros r Hr. vm_compute in Hr. apply list_elem_of_singleton in Hr. by subst r.
Qed.

Lemma WriteReportForCluster_synced_witness :
  let '(err, storage') := WriteReportForCluster storage1 1 "c" "second" rulesB 20 5 21 in
  synced storage'
  /\ healthy (connection storage')
  /\ ((err = Some ErrOldReport /\ storage' = storage1
       /\ exists old, clustersLastChecked storage1 !! "c" = Some old /\ 20 <= old)
      \/ (err = None
          /\ mkReportRow 1 "c" "second" 21 20 5 ∈ report (committed (connection storage'))
          /\ clustersLastChecked storage' !! "c" = Some 20)).
Proof.
  apply (WriteReportForCluster_synced storage1 1 "c" "second" rulesB 20 5 21).
  - apply synced_storage1.
  - apply Forall_nil_2.
  - by left.
Defined.

(** ** Listings in order *)

Lemma insert_by_perm {A} (le : A -> A -> bool) (x : A) (l : list A) :
  sql.insert_by le x l ≡ₚ x :: l.
Proof.
  induction l as [|y l IH]; simpl; [done|].
  destruct (le x y); [done|]. rewrite IH. apply Permutation_swap.
Qed.

Lemma order_by_perm {A} (le : A -> A -> bool) (l : list A) : sql.order_by le l ≡ₚ l.
Proof.
  induction l as [|x l IH]; [done|].
  change (sql.order_by le (x :: l)) with (sql.insert_by le x (sql.order_by le l)).
  by rewrite insert_by_perm, IH.
Qed.

Lemma insert_by_sorted {A} (le : A -> A -> bool) (R : A -> A -> Prop) (x : A) (l : list A) :
  (forall a b, le a b = true -> R a b) ->
  (forall a b, le a b = false -> R b a) ->
  Sorted R l -> Sorted R (sql.insert_by le x l).
Proof.
  intros Hle Hgt. induction l as [|y l IH]; intros Hs; simpl.
  - by repeat constructor.
  - destruct (le x y) eqn:E.
    + constructor; [done|]. constructor. by apply Hle.
    + apply Sorted_inv in Hs as [Hs Hhd]. constructor; [by apply IH|].
      destruct l as [|z l]; simpl.
      * constructor. by apply Hgt.
      * destruct (le x z); constructor; [by apply Hgt|].
        by apply HdRel_inv in Hhd.
Qed.

Lemma order_by_sorted {A} (le : A -> A -> bool) (R : A -> A -> Prop) (l : list A) :
  (forall a b, le a b = true -> R a b) ->
  (forall a b, le a b = false -> R b a) ->
  Sorted R (sql.order_by le l).
Proof.
  intros Hle Hgt. induction l as [|x l IH]; [constructor|].
  change (sql.order_by le (x :: l)) with (sql.insert_by le x (sql.order_by le l)).
  by apply insert_by_sorted.
Qed.

Lemma StronglySorted_filter {A} (R : A -> A -> Prop) (P : A -> Prop)
    `{forall x, Decision (P x)} (l : list A) :
  StronglySorted R l -> StronglySorted R (filter P l).
Proof.
  induction 1 as [|x l Hs IH Hall]; [constructor|].
  rewrite filter_cons. case_decide; [|done].
  constructor; [done|]. apply Forall_forall. intros y [_ Hy]%list_elem_of_filter.
  by apply (proj1 (Forall_forall _ _) Hall).
Qed.

Lemma elem_of_distinct_orgs (db : DB) (o : Z) :
  o ∈ sql.distinct_orgs db <-> exists r, r ∈ report db /\ r_org_id r = o.
Proof.
  unfold sql.distinct_orgs. rewrite order_by_perm, elem_of_remove_dups. split.
  - intros (r & -> & Hin)%(list_elem_of_fmap r_org_id). by exists r.
  - intros (r & Hin & <-). apply (list_elem_of_fmap r_org_id). by exists r.
Qed.

Lemma ListOfOrgs_members (storage : DBStorage) :
  healthy (connection storage) ->
  let '(orgs, err, _) := ListOfOrgs storage in
  err = None
  /\ forall o, o ∈ orgs <->
       0 <= o < 2 ^ 32 /\ exists r, r ∈ report (committed (connection storage))
                                   /\ r_org_id r = o.
Proof.
  intros Hh. pose proof (ListOfOrgs_healthy storage Hh) as Hl.
  destruct (ListOfOrgs storage) as [[orgs err] st']. simpl in Hl.
  injection Hl as -> ->. split; [done|].
  intros o. by rewrite list_elem_of_filter, elem_of_distinct_orgs.
Qed.

(** X6: when the driver serves the query, [ListOfOrgs] returns no error and
    the organizations it returns are in ascending order, without
    repetition, and are exactly the stored [org_id] values that a [uint32]
    holds. *)
Theorem ListOfOrgs_sorted_distinct (storage : DBStorage) :
  healthy (connection storage) ->
  let '(orgs, err, _) := ListOfOrgs storage in
  err = None
  /\ StronglySorted Z.le orgs
  /\ NoDup orgs
  /\ (forall o, o ∈ orgs <->
        0 <= o < 2 ^ 32 /\ exists r, r ∈ report (committed (connection storage))
                                    /\ r_org_id r = o).
Proof.
  intros Hh.
  pose proof (ListOfOrgs_healthy storage Hh) as Hl.
  destruct (ListOfOrgs storage) as [[orgs err] st']. simpl in Hl.
  injection Hl as -> ->. split; [done|]. split; [|split].
  - apply StronglySorted_filter. apply Sorted_StronglySorted; [apply _|].
    apply (order_by_sorted Z.leb Z.le); intros a b; lia.
  - apply NoDup_filter. unfold sql.distinct_orgs. rewrite order_by_perm.
    apply NoDup_remove_dups.
  - intros o. rewrite list_elem_of_filter. unfold sql.distinct_orgs.
    rewrite order_by_perm, elem_of_remove_dups.
    split.
    + intros [Hr (r & -> & Hin)%(list_elem_of_fmap r_org_id)]. split; [done|]. by exists r.
    + intros [Hr (r & Hin & <-)]. split; [done|].
      apply (list_elem_of_fmap r_org_id). by exists r.
Qed.

Lemma ListOfOrgs_sorted_distinct_witness :
  let '(orgs, err, _) := ListOfOrgs orgsStorage in
  err = None
  /\ StronglySorted Z.le orgs
  /\ NoDup orgs
  /\ (forall o, o ∈ orgs <->
        0 <= o < 2 ^ 32 /\ exists r, r ∈ report (committed (connection orgsStorage))
                                    /\ r_org_id r = o).
Proof. apply (ListOfOrgs_sorted_distinct orgsStorage). apply Forall_nil_2. Defined.

Lemma ListOfClustersForOrg_rows_app (rows clusters : list string) :
  ListOfClustersForOrg_rows rows clusters = clusters ++ rows.
Proof.
  revert clusters. induction rows as [|v rows IH]; intros clusters; simpl.
  - by rewrite app_nil_r.
  - rewrite IH. by rewrite <- app_assoc.
Qed.

(** X7: when the driver serves the query, [ListOfClustersForOrg] returns no
    error and the clusters it returns are in the order of [String.leb] and
    are exactly the clusters of the stored reports of the organization
    whose [reported_at] is not before the time limit. *)
Theorem ListOfClustersForOrg_in_order (storage : DBStorage) (orgID : OrgID)
    (timeLimit : Time) :
  healthy (connection storage) ->
  let '(clusters, err, _) := ListOfClustersForOrg storage orgID timeLimit in
  err = None
  /\ Sorted (fun a b => String.leb a b = true) clusters
  /\ (forall c, c ∈ clusters <->
        exists r, r ∈ report (committed (connection storage))
                  /\ r_org_id r = orgID /\ timeLimit <= r_reported_at r
                  /\ r_cluster r = c).
Proof.
  intros Hh. unfold ListOfClustersForOrg, Query.
  rewrite (roundtrip_healthy _ _ Hh). simpl.
  rewrite ListOfClustersForOrg_rows_app. simpl.
  split; [done|]. split.
  - apply order_by_sorted; [done|]. intros a b Hab.
    destruct (String.leb_total a b) as [H|H]; [congruence|done].
  - intros c. unfold sql.clusters_of_org. rewrite order_by_perm. split.
    + intros (r & -> & [[Ho Ht] Hin]%list_elem_of_filter)%(list_elem_of_fmap r_cluster).
      by exists r.
    + intros (r & Hin & Ho & Ht & <-). apply (list_elem_of_fmap r_cluster).
      exists r. split; [done|]. by apply list_elem_of_filter.
Qed.

Lemma ListOfClustersForOrg_in_order_witness :
  let '(clusters, err, _) := ListOfClustersForOrg orgsStorage 1 0 in
  err = None
  /\ Sorted (fun a b => String.leb a b = true) clusters
  /\ (forall c, c ∈ clusters <->
        exists r, r ∈ report (committed (connection orgsStorage))
                  /\ r_org_id r = 1 /\ 0 <= r_reported_at r
                  /\ r_cluster r = c).
Proof. apply (ListOfClustersForOrg_in_order orgsStorage 1 0). apply Forall_nil_2. Defined.

(** ** Batch reads of lists that are not empty *)

Lemma foldl_insert_some {V} (rows : list (string * V)) (m : gmap string V) (k : string)
    (v : V) :
  foldl (fun m row => <[row.1 := row.2]> m) m rows !! k = Some v ->
  (k, v) ∈ rows \/ m !! k = Some v.
Proof.
  revert m. induction rows as [|[k0 v0] rows IH]; intros m Hl; [by right|].
  simpl in Hl. apply IH in Hl as [Hin|Hl]; [left; by right|].
  destruct (decide (k0 = k)) as [->|Hne].
  - rewrite lookup_insert_eq in Hl. injection Hl as ->. left. by left.
  - rewrite lookup_insert_ne in Hl by done. by right.
Qed.

Lemma elem_of_argsWithClusterNames (c : string) (clusterNames : list ClusterName) :
  ArgText c ∈ argsWithClusterNames clusterNames <-> c ∈ clusterNames.
Proof.
  unfold argsWithClusterNames. split.
  - intros (c' & [= ->] & Hin)%(list_elem_of_fmap ArgText). done.
  - intros Hin. apply (list_elem_of_fmap ArgText). by exists c.
Qed.

(** X8: for a list of cluster names that is not empty, when the driver
    serves the query and no two stored reports share a cluster,
    [ReadReportsForClusters] returns no error and a mapping that holds the
    report of every stored cluster of the list and nothing else. *)
Theorem ReadReportsForClusters_lookup (storage : DBStorage)
    (clusterNames : list ClusterName) :
  clusterNames <> [] ->
  healthy (connection storage) ->
  NoDup (map r_cluster (report (committed (connection storage)))) ->
  let '(reports, err, _) := ReadReportsForClusters storage clusterNames in
  err = None
  /\ (forall r, r ∈ report (committed (connection storage)) ->
        r_cluster r ∈ clusterNames -> reports !! r_cluster r = Some (r_report r))
  /\ (forall c b, reports !! c = Some b ->
        c ∈ clusterNames
        /\ exists r, r ∈ report (committed (connection storage))
                     /\ r_cluster r = c /\ r_report r = b).
Proof.
  intros Hne Hh Hnd.
  pose proof (ReadReportsForClusters_nonempty storage clusterNames Hne Hh) as Hr.
  destruct (ReadReportsForClusters storage clusterNames) as [[reports err] st'].
  simpl in Hr. injection Hr as -> ->. split; [done|]. split.
  - intros r Hin Hc. apply foldl_insert_present.
    + unfold sql.reports_in. rewrite map_map. simpl.
      apply (NoDup_map_filter r_cluster). done.
    + unfold sql.reports_in.
      apply (list_elem_of_fmap (fun r => (r_cluster r, r_report r))). exists r.
      split; [done|]. apply list_elem_of_filter. split; [|done].
      by apply elem_of_argsWithClusterNames.
  - intros c b [Hin|Hl]%foldl_insert_some; [|by rewrite lookup_empty in Hl].
    unfold sql.reports_in in Hin.
    apply (list_elem_of_fmap (fun r => (r_cluster r, r_report r))) in Hin
      as (r & [= -> ->] & [Ha Hr]%list_elem_of_filter).
    split; [by apply elem_of_argsWithClusterNames|]. by exists r.
Qed.

Lemma ReadReportsForClusters_lookup_witness :
  let '(reports, err, _) := ReadReportsForClusters orgsStorage ["a"; "c"; "z"] in
  err = None
  /\ (forall r, r ∈ report (committed (connection orgsStorage)) ->
        r_cluster r ∈ ["a"; "c"; "z"] -> reports !! r_cluster r = Some (r_report r))
  /\ (forall c b, reports !! c = Some b ->
        c ∈ ["a"; "c"; "z"]
        /\ exists r, r ∈ report (committed (connection orgsStorage))
                     /\ r_cluster r = c /\ r_report r = b).
Proof.
  apply (ReadReportsForClusters_lookup orgsStorage ["a"; "c"; "z"]).
  - discriminate.
  - apply Forall_nil_2.
  - vm_compute. apply (bool_decide_unpack _). reflexivity.
Defined.

Lemma ReadOrgIDsForClusters_rows_all (rows : list Z) (ids : list OrgID) :
  Forall (fun v => 0 <= v < 2 ^ 32) rows ->
  ReadOrgIDsForClusters_rows rows ids = (ids ++ rows, None).
Proof.
  revert ids. induction rows as [|v rows IH]; intros ids Hall; simpl.
  - by rewrite app_nil_r.
  - apply Forall_cons in Hall as [Hv Hall]. unfold scanOrgID.
    rewrite bool_decide_eq_true_2 by done. rewrite IH by done. by rewrite <- app_assoc.
Qed.

(** X9: for a list of cluster names that is not empty, when the driver
    serves the query and the [org_id] of every stored report of these
    clusters is one that a [uint32] holds, [ReadOrgIDsForClusters] returns
    no error and, each once, exactly the organizations of the stored
    reports of the clusters of the list. *)
Theorem ReadOrgIDsForClusters_distinct (storage : DBStorage)
    (clusterNames : list ClusterName) :
  clusterNames <> [] ->
  healthy (connection storage) ->
  (forall r, r ∈ report (committed (connection storage)) -> r_cluster r ∈ clusterNames ->
     0 <= r_org_id r < 2 ^ 32) ->
  let '(ids, err, _) := ReadOrgIDsForClusters storage clusterNames in
  err = None
  /\ NoDup ids
  /\ (forall o, o ∈ ids <->
        exists r, r ∈ report (committed (connection storage))
                  /\ r_cluster r ∈ clusterNames /\ r_org_id r = o).
Proof.
  intros Hne Hh Hrange. unfold ReadOrgIDsForClusters, QueryBound.
  rewrite (roundtrip_healthy _ _ Hh).
  rewrite bool_decide_eq_true_2.
  2:{ rewrite !placeholders_app, constructInClausule_placeholders.
      - unfold argsWithClusterNames. rewrite length_map. simpl. lia.
      - destruct clusterNames; [done|]. simpl. lia. }
  assert (Hin : forall o, o ∈ sql.orgs_in (argsWithClusterNames clusterNames)
                                (committed (served
                                   (CQuery ("SELECT DISTINCT org_id FROM report WHERE cluster in ("
                                            +:+ constructInClausule (Z.of_nat (length clusterNames))
                                            +:+ ");")
                                           (argsWithClusterNames clusterNames))
                                   (connection storage)))
                  <-> exists r, r ∈ report (committed (connection storage))
                                /\ r_cluster r ∈ clusterNames /\ r_org_id r = o).
  { intros o. unfold sql.orgs_in. rewrite elem_of_remove_dups. simpl. split.
    - intros (r & -> & [Ha Hr]%list_elem_of_filter)%(list_elem_of_fmap r_org_id).
      exists r. split; [done|]. split; [|done]. by apply elem_of_argsWithClusterNames.
    - intros (r & Hr & Hc & <-). apply (list_elem_of_fmap r_org_id). exists r.
      split; [done|]. apply list_elem_of_filter. split; [|done].
      by apply elem_of_argsWithClusterNames. }
  rewrite ReadOrgIDsForClusters_rows_all.
  - simpl. split; [done|]. split; [apply NoDup_remove_dups|]. exact Hin.
  - apply Forall_forall. intros o (r & Hr & Hc & <-)%Hin. by apply Hrange.
Qed.

Lemma ReadOrgIDsForClusters_distinct_witness :
  let '(ids, err, _) := ReadOrgIDsForClusters orgsStorage ["a"; "c"] in
  err = None
  /\ NoDup ids
  /\ (forall o, o ∈ ids <->
        exists r, r ∈ report (committed (connection orgsStorage))
                  /\ r_cluster r ∈ ["a"; "c"] /\ r_org_id r = o).
Proof.
  apply (ReadOrgIDsForClusters_distinct orgsStorage ["a"; "c"]).
  - discriminate.
  - apply Forall_nil_2.
  - intros r Hr Hc. vm_compute in Hr.
    repeat (apply elem_of_cons in Hr as [->|Hr]); simpl in *.
    + lia.
    + repeat (apply elem_of_cons in Hc as [Hc|Hc]); try discriminate.
      by apply elem_of_nil in Hc.
    + lia.
    + by apply elem_of_nil in Hr.
Defined.

(** ** Reads after a write *)

(** A write that returned no error, on a driver that serves every call and
    with no more recent report stored, left the tables of [writtenDB]. *)
Lemma WriteReportForCluster_applied_inv storage storage' orgID clusterName blob rules t
    offset now :
  healthy (connection storage) ->
  sql.more_recent orgID clusterName t (committed (connection storage)) = [] ->
  WriteReportForCluster storage orgID clusterName blob rules t offset now
    = (None, storage') ->
  healthy (connection storage')
  /\ committed (connection storage')
     = writtenDB (dbDriverType storage) orgID clusterName blob rules t offset now
                 (committed (connection storage))
  /\ clustersLastChecked storage' = <[clusterName := t]> (clustersLastChecked storage)
  /\ dbDriverType storage' = dbDriverType storage.
Proof.
  intros Hh Hrecent Hw.
  destruct (WriteReportForCluster_success _ _ _ _ _ _ _ _ _ Hw) as [Hc Hs].
  destruct (WriteReportForCluster_applied storage orgID clusterName blob rules t offset now
              Hc Hs Hh Hrecent) as (cn' & Hw' & Hh' & Hdb).
  rewrite Hw in Hw'. injection Hw' as ->. done.
Qed.

Lemma ReadReportForClusterByClusterName_healthy U storage clusterName :
  healthy (connection storage) ->
  (ReadReportForClusterByClusterName U storage clusterName).1
  = match sql.last_checked_of_cluster clusterName (committed (connection storage)) with
    | [] => ([], EmptyTimestamp, Some (ItemNotFoundError [ArgText clusterName]))
    | t :: _ =>
        (map (ruleOfRow U)
             (sql.hits_of_cluster clusterName (committed (connection storage))),
         RFC3339 t, None)
    end.
Proof.
  intros Hh. unfold ReadReportForClusterByClusterName, QueryRow, Query.
  rewrite (roundtrip_healthy _ _ Hh). simpl.
  destruct (sql.last_checked_of_cluster _ _) as [|t ts]; [done|]. simpl.
  rewrite (roundtrip_healthy _ _ (served_healthy _ _ Hh)). simpl.
  unfold parseRuleRows. by rewrite parseRuleRows_from_map.
Qed.

(** X10: after a write that went through, the report is found under the
    cluster name alone, with the checked-at time of the write and with
    every rule hit of the write, and it is not found by
    [ReadReportForCluster] under any other organization: that read returns
    the not-found error of the organization and the cluster. *)
Theorem ReadReport_after_write (U : string -> error + string)
    (storage storage' : DBStorage) (orgID org' : OrgID) (clusterName : ClusterName)
    (blob : ClusterReport) (rules : list ReportItem) (t : Time) (offset : KafkaOffset)
    (now : Time) :
  healthy (connection storage) ->
  sql.more_recent orgID clusterName t (committed (connection storage)) = [] ->
  WriteReportForCluster storage orgID clusterName blob rules t offset now
    = (None, storage') ->
  org' <> orgID ->
  (ReadReportForCluster U storage' org' clusterName).1
  = ([], RFC3339 zeroTime, Some (ItemNotFoundError [ArgInt org'; ArgText clusterName]))
  /\ let '(hits, lastChecked, err, _) :=
       ReadReportForClusterByClusterName U storage' clusterName in
     err = None /\ lastChecked = RFC3339 t
     /\ forall rule, rule ∈ rules -> itemKey rule ∈ map ruleKey hits.
Proof.
  intros Hh Hrecent Hw Horg.
  destruct (WriteReportForCluster_applied_inv _ _ _ _ _ _ _ _ _ Hh Hrecent Hw)
    as (Hh' & Hdb & _ & _).
  set (new := mkReportRow orgID clusterName blob now t offset).
  assert (Hall : forall r, r ∈ report (committed (connection storage')) ->
                   r_cluster r = clusterName -> r = new).
  { intros r Hr Hc. rewrite Hdb, writtenDB_report in Hr.
    by apply (reportUpsert_same_cluster _ _ _ _ Hr). }
  assert (Hnew : new ∈ report (committed (connection storage'))).
  { rewrite Hdb, writtenDB_report. apply reportUpsert_stored. }
  split.
  - rewrite (ReadReportForCluster_healthy U storage' org' clusterName Hh').
    unfold sql.last_checked_of.
    destruct (filter _ _) as [|r rows] eqn:E; [done|].
    assert (Hr : r ∈ filter (fun r => r_org_id r = org' /\ r_cluster r = clusterName)
                     (report (committed (connection storage')))) by (rewrite E; by left).
    apply list_elem_of_filter in Hr as [[Ho Hc] Hr].
    rewrite (Hall r Hr Hc) in Ho. done.
  - pose proof (ReadReportForClusterByClusterName_healthy U storage' clusterName Hh') as Hread.
    destruct (ReadReportForClusterByClusterName U storage' clusterName)
      as [[[hits lastChecked] err] st3].
    cbn [fst] in Hread. unfold sql.last_checked_of_cluster in Hread.
    destruct (filter (fun r => r_cluster r = clusterName) _) as [|r rows] eqn:E.
    { exfalso. assert (Hn : new ∈ filter (fun r => r_cluster r = clusterName)
                                   (report (committed (connection storage'))))
        by (by apply list_elem_of_filter).
      rewrite E in Hn. by apply elem_of_nil in Hn. }
    assert (Hr : r ∈ filter (fun r => r_cluster r = clusterName)
                     (report (committed (connection storage')))) by (rewrite E; by left).
    apply list_elem_of_filter in Hr as [Hc Hr]. rewrite (Hall r Hr Hc) in Hread.
    simpl in Hread. injection Hread as -> -> ->.
    split; [done|]. split; [done|]. intros rule Hrule.
    assert (Hk : sql.hit_key (hitRow orgID clusterName rule)
                 ∈ map sql.hit_key
                     (foldl (fun tbl rule =>
                               hitUpsert (dbDriverType storage)
                                         (hitRow orgID clusterName rule) tbl) [] rules)).
    { apply foldl_hitUpsert_keys.
      apply (list_elem_of_fmap (fun rule => sql.hit_key (hitRow orgID clusterName rule))).
      by exists rule. }
    apply (list_elem_of_fmap sql.hit_key) in Hk as (h & Hkey & Hin).
    assert (Hf : filter (fun h => h_org_id h = orgID /\ h_cluster_id h = clusterName)
                   (rule_hit (committed (connection storage')))
                 = foldl (fun tbl rule =>
                            hitUpsert (dbDriverType storage)
                                      (hitRow orgID clusterName rule) tbl) [] rules).
    { rewrite Hdb, writtenDB_rule_hit, foldl_hitUpsert_filter. by rewrite delete_hits_filter. }
    rewrite <- Hf in Hin. apply list_elem_of_filter in Hin as [[Ho Hc'] Hin].
    unfold sql.hits_of_cluster. rewrite !map_map.
    apply (list_elem_of_fmap _). exists h. split.
    + unfold ruleKey, ruleOfRow, itemKey. simpl.
      unfold sql.hit_key, hitRow in Hkey. simpl in Hkey. by injection Hkey as _ _ -> ->.
    + apply list_elem_of_filter. done.
Qed.

Lemma ReadReport_after_write_witness :
  (ReadReportForCluster GoJSON.Unmarshal storage1 2 "c").1
  = ([], RFC3339 zeroTime, Some (ItemNotFoundError [ArgInt 2; ArgText "c"]))
  /\ let '(hits, lastChecked, err, _) :=
       ReadReportForClusterByClusterName GoJSON.Unmarshal storage1 "c" in
     err = None /\ lastChecked = RFC3339 10
     /\ forall rule, rule ∈ rulesA -> itemKey rule ∈ map ruleKey hits.
Proof.
  apply (ReadReport_after_write GoJSON.Unmarshal storage0 storage1 1 2 "c" "first" rulesA
           10 4 11).
  - apply Forall_nil_2.
  - reflexivity.
  - apply pair_eta_fst. vm_compute. reflexivity.
  - discriminate.
Defined.

Lemma filter_key_within {A K} `{EqDecision K} (f : A -> K) (P : A -> Prop)
    `{forall x, Decision (P x)} (k : K) (l : list A) :
  (forall x, f x = k -> P x) ->
  filter (fun x => f x = k) l = filter (fun x => f x = k) (filter P l).
Proof.
  intros HP. rewrite list_filter_filter. apply list_filter_iff. intros x.
  split; [|tauto]. intros Hx. split; [done|by apply HP].
Qed.

(** X11: after a write that went through, of rules no two of which share
    module and error key, [ReadSingleRuleTemplateData] returns for every
    rule of the write the template data that the rule carried, decoded as
    [parseTemplateData] decodes it, and for a module and error key that the
    write did not carry it returns the not-found error, together with the
    decoding of no bytes at all. *)
Theorem ReadSingleRuleTemplateData_after_write (U : string -> error + string)
    (storage storage' : DBStorage) (orgID : OrgID) (clusterName : ClusterName)
    (blob : ClusterReport) (rules : list ReportItem) (t : Time) (offset : KafkaOffset)
    (now : Time) :
  healthy (connection storage) ->
  sql.more_recent orgID clusterName t (committed (connection storage)) = [] ->
  WriteReportForCluster storage orgID clusterName blob rules t offset now
    = (None, storage') ->
  NoDup (map itemKey rules) ->
  (forall rule, rule ∈ rules ->
     (ReadSingleRuleTemplateData U storage' orgID clusterName (item_Module rule)
                                 (item_ErrorKey rule)).1
     = (parseTemplateData U (item_TemplateData rule), None))
  /\ (forall ruleID errorKey, (ruleID, errorKey) ∉ map itemKey rules ->
        (ReadSingleRuleTemplateData U storage' orgID clusterName ruleID errorKey).1
        = (parseTemplateData U "",
           Some (ItemNotFoundError [ArgInt orgID; ArgText clusterName; ArgText ruleID;
                                    ArgText errorKey]))).
Proof.
  intros Hh Hrecent Hw Hnd.
  destruct (WriteReportForCluster_applied_inv _ _ _ _ _ _ _ _ _ Hh Hrecent Hw)
    as (Hh' & Hdb & _ & _).
  assert (Hf : forall k : Z * string * string * string,
             k.1.1.1 = orgID -> k.1.1.2 = clusterName ->
             filter (fun h => sql.hit_key h = k) (rule_hit (committed (connection storage')))
             = filter (fun h => sql.hit_key h = k) (map (hitRow orgID clusterName) rules)).
  { intros k Ho Hc.
    rewrite (filter_key_within sql.hit_key
               (fun h => h_org_id h = orgID /\ h_cluster_id h = clusterName)).
    - rewrite Hdb, writtenDB_rule_hit, foldl_hitUpsert_filter, delete_hits_filter.
      by rewrite foldl_hitUpsert_distinct.
    - intros h <-. done. }
  assert (Hkeys : map sql.hit_key (map (hitRow orgID clusterName) rules)
                  = map (fun k : string * string => (orgID, clusterName, k.1, k.2))
                        (map itemKey rules)).
  { rewrite !map_map. by apply map_ext. }
  split.
  - intros rule Hrule. unfold ReadSingleRuleTemplateData, QueryRow, Query.
    rewrite (roundtrip_healthy _ _ Hh'). simpl. unfold stmt_template_of.
    rewrite (Hf (orgID, clusterName, item_Module rule, item_ErrorKey rule)) by done.
    change (orgID, clusterName, item_Module rule, item_ErrorKey rule)
      with (sql.hit_key (hitRow orgID clusterName rule)).
    rewrite (filter_unique_key sql.hit_key (map (hitRow orgID clusterName) rules)
               (hitRow orgID clusterName rule)).
    + done.
    + rewrite Hkeys. apply NoDup_fmap_2; [|done]. intros [a b] [c d] [= -> ->]. done.
    + apply (list_elem_of_fmap (hitRow orgID clusterName)). by exists rule.
  - intros ruleID errorKey Habsent. unfold ReadSingleRuleTemplateData, QueryRow, Query.
    rewrite (roundtrip_healthy _ _ Hh'). simpl. unfold stmt_template_of.
    rewrite (Hf (orgID, clusterName, ruleID, errorKey)) by done.
    rewrite filter_key_absent; [done|].
    rewrite Hkeys. intros ([m e] & [= -> ->] & Hin)%(list_elem_of_fmap _). done.
Qed.

Lemma ReadSingleRuleTemplateData_after_write_witness :
  (forall rule, rule ∈ rulesA ->
     (ReadSingleRuleTemplateData GoJSON.Unmarshal storage1 1 "c" (item_Module rule)
                                 (item_ErrorKey rule)).1
     = (parseTemplateData GoJSON.Unmarshal (item_TemplateData rule), None))
  /\ (forall ruleID errorKey, (ruleID, errorKey) ∉ map itemKey rulesA ->
        (ReadSingleRuleTemplateData GoJSON.Unmarshal storage1 1 "c" ruleID errorKey).1
        = (parseTemplateData GoJSON.Unmarshal "",
           Some (ItemNotFoundError [ArgInt 1; ArgText "c"; ArgText ruleID;
                                    ArgText errorKey]))).
Proof.
  apply (ReadSingleRuleTemplateData_after_write GoJSON.Unmarshal storage0 storage1 1 "c"
           "first" rulesA 10 4 11).
  - apply Forall_nil_2.
  - reflexivity.
  - apply pair_eta_fst. vm_compute. reflexivity.
  - apply (bool_decide_unpack _). vm_compute. reflexivity.
Defined.

(** ** Single values of the report table *)

(** X12: when the driver serves the query and no two stored reports share a
    cluster, [GetOrgIDByClusterID] returns the organization of the stored
    report of the cluster when a [uint32] holds it, and for a cluster
    without a stored report it returns 0 with [sql.ErrNoRows] as it is, not
    the not-found error of the other reads. *)
Theorem GetOrgIDByClusterID_stored (storage : DBStorage) :
  healthy (connection storage) ->
  NoDup (map r_cluster (report (committed (connection storage)))) ->
  (forall r, r ∈ report (committed (connection storage)) -> 0 <= r_org_id r < 2 ^ 32 ->
     (GetOrgIDByClusterID storage (r_cluster r)).1 = (r_org_id r, None))
  /\ (forall c, c ∉ map r_cluster (report (committed (connection storage))) ->
        (GetOrgIDByClusterID storage c).1 = (0, Some ErrNoRows)).
Proof.
  intros Hh Hnd. split.
  - intros r Hr Hrange. unfold GetOrgIDByClusterID, QueryRow, Query.
    rewrite (roundtrip_healthy _ _ Hh). simpl. unfold stmt_orgs_of_cluster.
    rewrite (filter_unique_key r_cluster _ r Hnd Hr). simpl.
    unfold scanUint64. rewrite bool_decide_eq_true_2 by lia.
    simpl. by rewrite Z.mod_small.
  - intros c Hc. unfold GetOrgIDByClusterID, QueryRow, Query.
    rewrite (roundtrip_healthy _ _ Hh). simpl. unfold stmt_orgs_of_cluster.
    by rewrite (filter_key_absent r_cluster _ c Hc).
Qed.

Lemma GetOrgIDByClusterID_stored_witness :
  (forall r, r ∈ report (committed (connection storage1)) -> 0 <= r_org_id r < 2 ^ 32 ->
     (GetOrgIDByClusterID storage1 (r_cluster r)).1 = (r_org_id r, None))
  /\ (forall c, c ∉ map r_cluster (report (committed (connection storage1))) ->
        (GetOrgIDByClusterID storage1 c).1 = (0, Some ErrNoRows)).
Proof.
  apply (GetOrgIDByClusterID_stored storage1).
  - apply Forall_nil_2.
  - apply synced_storage1.
Defined.

(** X13: when the driver serves the query, [DoesClusterExist] returns no
    error, and it answers [true] exactly when a report of the cluster is
    stored: a cluster that is not stored is an answer, not an error. *)
Theorem DoesClusterExist_stored (storage : DBStorage) (clusterID : ClusterName) :
  healthy (connection storage) ->
  let '(exists_, err, _) := DoesClusterExist storage clusterID in
  err = None
  /\ (exists_ = true <->
      exists r, r ∈ report (committed (connection storage)) /\ r_cluster r = clusterID).
Proof.
  intros Hh. unfold DoesClusterExist, QueryRow, Query.
  rewrite (roundtrip_healthy _ _ Hh). simpl. unfold stmt_cluster.
  destruct (filter _ _) as [|r rows] eqn:E; simpl.
  - split; [done|]. split; [done|]. intros (r & Hr & Hc).
    assert (Hin : r ∈ filter (fun r => r_cluster r = clusterID)
                      (report (committed (connection storage))))
      by (by apply list_elem_of_filter).
    rewrite E in Hin. by apply elem_of_nil in Hin.
  - split; [done|]. split; [|done]. intros _.
    assert (Hin : r ∈ filter (fun r => r_cluster r = clusterID)
                      (report (committed (connection storage)))) by (rewrite E; by left).
    apply list_elem_of_filter in Hin as [Hc Hr]. by exists r.
Qed.

Lemma DoesClusterExist_stored_witness :
  let '(exists_, err, _) := DoesClusterExist storage1 "c" in
  err = None
  /\ (exists_ = true <->
      exists r, r ∈ report (committed (connection storage1)) /\ r_cluster r = "c").
Proof. apply (DoesClusterExist_stored storage1 "c"). apply Forall_nil_2. Defined.

Lemma foldl_max_ge (l : list Z) (a : Z) :
  a <= foldl Z.max a l /\ Forall (fun x => x <= foldl Z.max a l) l
  /\ (foldl Z.max a l = a \/ foldl Z.max a l ∈ l).
Proof.
  revert a. induction l as [|x l IH]; intros a; simpl.
  - split; [lia|]. split; [constructor|by left].
  - destruct (IH (Z.max a x)) as (Hge & Hall & Hor). split; [lia|]. split.
    + constructor; [lia|done].
    + destruct Hor as [Heq|Hin]; [|right; by right].
      rewrite Heq. destruct (Z.max_spec a x) as [[_ ->]|[_ ->]]; [right; by left|by left].
Qed.

(** X14: when the driver serves the query, [GetLatestKafkaOffset] returns no
    error and an offset that no stored report exceeds: 0 when no report is
    stored, and the offset of a stored report otherwise. *)
Theorem GetLatestKafkaOffset_max (storage : DBStorage) :
  healthy (connection storage) ->
  let '(offset, err, _) := GetLatestKafkaOffset storage in
  err = None
  /\ (forall r, r ∈ report (committed (connection storage)) -> r_kafka_offset r <= offset)
  /\ match report (committed (connection storage)) with
     | [] => offset = 0
     | _ :: _ => exists r, r ∈ report (committed (connection storage))
                           /\ offset = r_kafka_offset r
     end.
Proof.
  intros Hh. unfold GetLatestKafkaOffset, QueryRow, Query.
  rewrite (roundtrip_healthy _ _ Hh). simpl.
  destruct (report (committed (connection storage))) as [|r rows]; simpl.
  - split; [done|]. split; [|done]. intros r Hr. by apply elem_of_nil in Hr.
  - destruct (foldl_max_ge (map r_kafka_offset rows) (r_kafka_offset r))
      as (Hge & Hall & Hor).
    split; [done|]. split.
    + intros r' [->|Hr']%elem_of_cons; [done|].
      apply (proj1 (Forall_forall _ _) Hall).
      apply (list_elem_of_fmap r_kafka_offset). by exists r'.
    + destruct Hor as [->|(r' & -> & Hr')%(list_elem_of_fmap r_kafka_offset)].
      * exists r. split; [by left|done].
      * exists r'. split; [by right|done].
Qed.

Lemma GetLatestKafkaOffset_max_witness :
  let '(offset, err, _) := GetLatestKafkaOffset storage2 in
  err = None
  /\ (forall r, r ∈ report (committed (connection storage2)) -> r_kafka_offset r <= offset)
  /\ match report (committed (connection storage2)) with
     | [] => offset = 0
     | _ :: _ => exists r, r ∈ report (committed (connection storage2))
                           /\ offset = r_kafka_offset r
     end.
Proof. apply (GetLatestKafkaOffset_max storage2). apply Forall_nil_2. Defined.

Lemma filter_ne_length {A K} `{EqDecision K} (f : A -> K) (l : list A) (k : K) :
  NoDup (map f l) ->
  (length (filter (fun y => f y <> k) l)
   + (if decide (k ∈ map f l) then 1 else 0))%nat = length l.
Proof.
  induction l as [|x l IH]; intros Hnd; [done|].
  simpl in Hnd. apply NoDup_cons in Hnd as [Hfresh Hnd]. specialize (IH Hnd).
  rewrite filter_cons. simpl. destruct (decide (f x <> k)) as [Hne|Heq].
  - simpl. destruct (decide (k ∈ map f l)) as [Hin|Hout].
    + rewrite decide_True by (by right). lia.
    + rewrite decide_False; [lia|]. intros [?|?]%elem_of_cons; [congruence|done].
  - assert (f x = k) as <- by (by destruct (decide (f x = k))).
    rewrite decide_True by (by left). rewrite decide_False in IH by done. lia.
Qed.

Lemma reportUpsert_length d new db :
  NoDup (map r_cluster (report db)) ->
  length (report (reportUpsert d new db))
  = (length (report db)
     + (if decide (r_cluster new ∈ map r_cluster (report db)) then 0 else 1))%nat.
Proof.
  intros Hnd. unfold reportUpsert. simpl. destruct (decide (d = DBDriverSQLite3)) as [_|_].
  - unfold sql.replace_report. rewrite length_app. simpl.
    pose proof (filter_ne_length r_cluster (report db) (r_cluster new) Hnd) as Hl.
    destruct (decide (r_cluster new ∈ map r_cluster (report db))); lia.
  - unfold sql.conflict_update_report. case_bool_decide as Hex.
    + rewrite length_map. rewrite decide_True; [lia|].
      apply Exists_exists in Hex as (r & Hr & <-).
      apply (list_elem_of_fmap r_cluster). by exists r.
    + rewrite length_app. simpl. rewrite decide_False; [done|].
      intros (r & Hc & Hr)%(list_elem_of_fmap r_cluster).
      apply Hex, Exists_exists. by exists r.
Qed.

(** X15: the report table holds one row for each cluster: after a write
    that went through, [ReportsCount] is what it was before when a report
    of the cluster was stored already, and one more when none was. *)
Theorem ReportsCount_after_write (storage storage' : DBStorage) (orgID : OrgID)
    (clusterName : ClusterName) (blob : ClusterReport) (rules : list ReportItem)
    (t : Time) (offset : KafkaOffset) (now : Time) :
  healthy (connection storage) ->
  NoDup (map r_cluster (report (committed (connection storage)))) ->
  sql.more_recent orgID clusterName t (committed (connection storage)) = [] ->
  WriteReportForCluster storage orgID clusterName blob rules t offset now
    = (None, storage') ->
  (ReportsCount storage).1
  = (Z.of_nat (length (report (committed (connection storage)))), None)
  /\ (ReportsCount storage').1
     = (Z.of_nat (length (report (committed (connection storage))))
        + (if decide (clusterName ∈ map r_cluster (report (committed (connection storage))))
           then 0 else 1),
        None).
Proof.
  intros Hh Hnd Hrecent Hw.
  destruct (WriteReportForCluster_applied_inv _ _ _ _ _ _ _ _ _ Hh Hrecent Hw)
    as (Hh' & Hdb & _ & _).
  split.
  - unfold ReportsCount, QueryRow, Query. by rewrite (roundtrip_healthy _ _ Hh).
  - unfold ReportsCount, QueryRow, Query. rewrite (roundtrip_healthy _ _ Hh'). simpl.
    unfold stmt_count. rewrite Hdb, writtenDB_report, reportUpsert_length by done. simpl.
    destruct (decide (clusterName ∈ map r_cluster (report (committed (connection storage)))));
      do 2 f_equal; lia.
Qed.

Lemma ReportsCount_after_write_witness :
  (ReportsCount storage1).1
  = (Z.of_nat (length (report (committed (connection storage1)))), None)
  /\ (ReportsCount storage2).1
     = (Z.of_nat (length (report (committed (connection storage1))))
        + (if decide ("c" ∈ map r_cluster (report (committed (connection storage1))))
           then 0 else 1),
        None).
Proof.
  apply (ReportsCount_after_write storage1 storage2 1 "c" "second" rulesB 20 5 21).
  - apply Forall_nil_2.
  - apply synced_storage1.
  - reflexivity.
  - apply pair_eta_fst. vm_compute. reflexivity.
Defined.

(** ** Deleting reports *)

Lemma Exec_healthy q args upd cn :
  healthy cn ->
  Exec q args upd cn
  = (None, mkConn (upd (committed cn)) (tail (script cn)) (trace cn ++ [CExec q args])).
Proof. intros Hh. unfold Exec. by rewrite (roundtrip_healthy _ _ Hh). Qed.

Lemma healthy_tail db cn tr : healthy cn -> healthy (mkConn db (tail (script cn)) tr).
Proof. intros Hh. apply (served_healthy CBegin) in Hh. exact Hh. Qed.

Lemma DoesClusterExist_absent (storage : DBStorage) (clusterID : ClusterName) :
  healthy (connection storage) ->
  (forall r, r ∈ report (committed (connection storage)) -> r_cluster r <> clusterID) ->
  (DoesClusterExist storage clusterID).1 = (false, None).
Proof.
  intros Hh Habsent. unfold DoesClusterExist, QueryRow, Query.
  rewrite (roundtrip_healthy _ _ Hh). simpl. unfold stmt_cluster.
  destruct (filter _ _) as [|r rows] eqn:E; [done|].
  assert (Hin : r ∈ filter (fun r => r_cluster r = clusterID)
                    (report (committed (connection storage)))) by (rewrite E; by left).
  apply list_elem_of_filter in Hin as [Hc Hr]. by destruct (Habsent r Hr).
Qed.

(** X16: when the driver serves the statement, [DeleteReportsForCluster]
    removes the reports of the cluster and no other report, after which
    [DoesClusterExist] answers [false]; the staleness cache is not touched,
    so that a report of the cluster checked no later than the cache entry
    is still refused as old after the delete. *)
Theorem DeleteReportsForCluster_then (storage : DBStorage) (clusterName : ClusterName) :
  healthy (connection storage) ->
  let '(err, storage') := DeleteReportsForCluster storage clusterName in
  err = None
  /\ (forall r, r ∈ report (committed (connection storage')) <->
        r ∈ report (committed (connection storage)) /\ r_cluster r <> clusterName)
  /\ (DoesClusterExist storage' clusterName).1 = (false, None)
  /\ clustersLastChecked storage' = clustersLastChecked storage
  /\ (forall old orgID blob rules t offset now,
        clustersLastChecked storage !! clusterName = Some old -> t <= old ->
        WriteReportForCluster storage' orgID clusterName blob rules t offset now
        = (Some ErrOldReport, storage')).
Proof.
  intros Hh. unfold DeleteReportsForCluster. rewrite (Exec_healthy _ _ _ _ Hh).
  split; [done|]. split; [|split; [|split; [done|]]].
  - intros r. cbn. rewrite list_elem_of_filter. tauto.
  - apply DoesClusterExist_absent; [exact (healthy_tail _ _ _ Hh)|].
    intros r Hr. cbn in Hr. by apply list_elem_of_filter in Hr as [Hne _].
  - intros old orgID blob rules t offset now Hold Hle.
    unfold WriteReportForCluster. cbn [clustersLastChecked withConn]. rewrite Hold.
    unfold After. destruct (Z.ltb_spec old t) as [?|_]; [lia|]. done.
Qed.

Lemma DeleteReportsForCluster_then_witness :
  let '(err, storage') := DeleteReportsForCluster storage1 "c" in
  err = None
  /\ (forall r, r ∈ report (committed (connection storage')) <->
        r ∈ report (committed (connection storage1)) /\ r_cluster r <> "c")
  /\ (DoesClusterExist storage' "c").1 = (false, None)
  /\ clustersLastChecked storage' = clustersLastChecked storage1
  /\ (forall old orgID blob rules t offset now,
        clustersLastChecked storage1 !! "c" = Some old -> t <= old ->
        WriteReportForCluster storage' orgID "c" blob rules t offset now
        = (Some ErrOldReport, storage')).
Proof. apply (DeleteReportsForCluster_then storage1 "c"). apply Forall_nil_2. Defined.

(** X17: when the driver serves the statement, [DeleteReportsForOrg]
    removes the reports of the organization and no other report, after
    which [ListOfOrgs] does not list the organization; the staleness cache
    is not touched. *)
Theorem DeleteReportsForOrg_then (storage : DBStorage) (orgID : OrgID) :
  healthy (connection storage) ->
  let '(err, storage') := DeleteReportsForOrg storage orgID in
  err = None
  /\ (forall r, r ∈ report (committed (connection storage')) <->
        r ∈ report (committed (connection storage)) /\ r_org_id r <> orgID)
  /\ (let '(orgs, listErr, _) := ListOfOrgs storage' in listErr = None /\ orgID ∉ orgs)
  /\ clustersLastChecked storage' = clustersLastChecked storage.
Proof.
  intros Hh. unfold DeleteReportsForOrg. rewrite (Exec_healthy _ _ _ _ Hh).
  split; [done|]. split; [|split; [|done]].
  - intros r. cbn. rewrite list_elem_of_filter. tauto.
  - pose proof (ListOfOrgs_members
                  (withConn storage
                     (mkConn (stmt_delete_org orgID (committed (connection storage)))
                             (tail (script (connection storage)))
                             (trace (connection storage)
                              ++ [CExec "DELETE FROM report WHERE org_id = $1;"
                                        [ArgInt orgID]])))
                  (healthy_tail _ _ _ Hh)) as Hl.
    destruct (ListOfOrgs _) as [[orgs err] st3]. destruct Hl as (-> & Hmem).
    split; [done|]. intros (_ & r & Hr & Ho)%Hmem. cbn in Hr.
    apply list_elem_of_filter in Hr as [Hne _]. done.
Qed.

Lemma DeleteReportsForOrg_then_witness :
  let '(err, storage') := DeleteReportsForOrg orgsStorage 3 in
  err = None
  /\ (forall r, r ∈ report (committed (connection storage')) <->
        r ∈ report (committed (connection orgsStorage)) /\ r_org_id r <> 3)
  /\ (let '(orgs, listErr, _) := ListOfOrgs storage' in listErr = None /\ 3 ∉ orgs)
  /\ clustersLastChecked storage' = clustersLastChecked orgsStorage.
Proof. apply (DeleteReportsForOrg_then orgsStorage 3). apply Forall_nil_2. Defined.

(** ** Rule toggles: set, get and delete *)

Lemma upsert_toggle_other new db g :
  sql.toggle_key g <> sql.toggle_key new ->
  g ∈ cluster_rule_toggle (sql.upsert_toggle new db) <-> g ∈ cluster_rule_toggle db.
Proof.
  intros Hne. unfold sql.upsert_toggle. simpl. case_bool_decide as Hex.
  - split.
    + intros (g0 & Heq & Hin0)%(list_elem_of_fmap _). case_bool_decide as Hk0.
      * exfalso. apply Hne. rewrite Heq. by rewrite <- Hk0.
      * by subst.
    + intros Hin. apply (list_elem_of_fmap _). exists g. split; [|done].
      by rewrite bool_decide_eq_false_2.
  - rewrite elem_of_app, list_elem_of_singleton. split; [intros [?| ->]; done|]. by left.
Qed.

Lemma upsert_toggle_unique new db :
  NoDup (map sql.toggle_key (cluster_rule_toggle db)) ->
  NoDup (map sql.toggle_key (cluster_rule_toggle (sql.upsert_toggle new db))).
Proof.
  intros Hnd. unfold sql.upsert_toggle. simpl. case_bool_decide as Hex.
  - replace (map sql.toggle_key (map _ (cluster_rule_toggle db)))
      with (map sql.toggle_key (cluster_rule_toggle db)); [done|].
    rewrite map_map. apply map_ext. intros g. by case_bool_decide.
  - rewrite map_app. apply NoDup_app. split; [done|]. split; [|apply NoDup_singleton].
    intros k (g & -> & Hin)%(list_elem_of_fmap sql.toggle_key).
    simpl. intros Heq%list_elem_of_singleton.
    apply Hex, Exists_exists. by exists g.
Qed.

(** X18: whatever its outcome, [ToggleRuleForCluster] leaves the toggles of
    every other key, the reports, the rule hits and the cache as they are,
    and the keys of the toggle table stay pairwise different when they
    were. *)
Theorem ToggleRuleForCluster_frame (storage : DBStorage) (clusterID : ClusterName)
    (ruleID : RuleID) (errorKey : ErrorKey) (ruleToggle : RuleToggle) (now : Time) :
  let '(err, storage') :=
    ToggleRuleForCluster storage clusterID ruleID errorKey ruleToggle now in
  (forall g, sql.toggle_key g <> (clusterID, ruleID, errorKey) ->
     g ∈ cluster_rule_toggle (committed (connection storage'))
     <-> g ∈ cluster_rule_toggle (committed (connection storage)))
  /\ (NoDup (map sql.toggle_key (cluster_rule_toggle (committed (connection storage)))) ->
      NoDup (map sql.toggle_key (cluster_rule_toggle (committed (connection storage')))))
  /\ report (committed (connection storage')) = report (committed (connection storage))
  /\ rule_hit (committed (connection storage')) = rule_hit (committed (connection storage))
  /\ clustersLastChecked storage' = clustersLastChecked storage.
Proof.
  unfold ToggleRuleForCluster.
  destruct (decide (ruleToggle = RuleToggleDisable)) as [Hd|Hd];
    [|destruct (decide (ruleToggle = RuleToggleEnable)) as [He|He]];
    try done.
  - unfold Exec.
    match goal with |- context [roundtrip ?c ?cn] =>
      pose proof (roundtrip_committed c cn) as Hc;
      destruct (roundtrip c cn) as [[e|] cn1] end; simpl in Hc; simpl.
    + by rewrite Hc.
    + rewrite Hc. split; [|split; [|done]].
      * intros g Hg. by apply upsert_toggle_other.
      * apply upsert_toggle_unique.
  - unfold Exec.
    match goal with |- context [roundtrip ?c ?cn] =>
      pose proof (roundtrip_committed c cn) as Hc;
      destruct (roundtrip c cn) as [[e|] cn1] end; simpl in Hc; simpl.
    + by rewrite Hc.
    + rewrite Hc. split; [|split; [|done]].
      * intros g Hg. by apply upsert_toggle_other.
      * apply upsert_toggle_unique.
Qed.

(** X19: a toggle that is set is the toggle that is read back: when the
    driver serves both calls, the toggle value is one of the two defined
    ones and every row of the cluster and the rule under another error key
    was updated before [now], [GetFromClusterRuleToggle] after
    [ToggleRuleForCluster] returns the flag that was set, with [now] as the
    update time and as the one of the disable and enable times that matches
    the flag, and no time for the other. *)
Theorem ToggleRuleForCluster_then_get (storage : DBStorage) (clusterID : ClusterName)
    (ruleID : RuleID) (errorKey : ErrorKey) (ruleToggle : RuleToggle) (now : Time) :
  healthy (connection storage) ->
  ruleToggle = RuleToggleDisable \/ ruleToggle = RuleToggleEnable ->
  (forall g, g ∈ cluster_rule_toggle (committed (connection storage)) ->
     g_cluster_id g = clusterID -> g_rule_id g = ruleID -> g_error_key g <> errorKey ->
     g_updated_at g < now) ->
  let '(err, storage') :=
    ToggleRuleForCluster storage clusterID ruleID errorKey ruleToggle now in
  err = None
  /\ (GetFromClusterRuleToggle storage' clusterID ruleID).1
     = (Some (mkClusterRuleToggle clusterID ruleID ruleToggle
                (if decide (ruleToggle = RuleToggleDisable) then Some now else None)
                (if decide (ruleToggle = RuleToggleEnable) then Some now else None)
                (Some now)),
        None).
Proof.
  intros Hh Hflag Hold.
  set (new := mkToggleRow clusterID ruleID errorKey ruleToggle
                (if decide (ruleToggle = RuleToggleDisable) then Some now else None)
                (if decide (ruleToggle = RuleToggleEnable) then Some now else None) now).
  assert (Hset : ToggleRuleForCluster storage clusterID ruleID errorKey ruleToggle now
                 = (None,
                    withConn storage
                      (mkConn (sql.upsert_toggle new (committed (connection storage)))
                              (tail (script (connection storage)))
                              (trace (connection storage)
                               ++ [CExec toggleRuleQuery
                                     [ArgText clusterID; ArgText ruleID; ArgText errorKey;
                                      ArgInt ruleToggle;
                                      ArgNullTime (g_disabled_at new);
                                      ArgNullTime (g_enabled_at new); ArgTime now]])))).
  { unfold ToggleRuleForCluster, new, RuleToggleDisable, RuleToggleEnable in *.
    destruct Hflag as [-> | ->]; simpl; by rewrite (Exec_healthy _ _ _ _ Hh). }
  rewrite Hset. split; [done|].
  unfold GetFromClusterRuleToggle, QueryRow, Query. cbn [connection withConn].
  rewrite (roundtrip_healthy _ _ (healthy_tail _ _ _ Hh)).
  cbn [fst snd committed served connection withConn].
  unfold sql.latest_toggle.
  set (rows := filter (fun g => g_cluster_id g = clusterID /\ g_rule_id g = ruleID)
                 (cluster_rule_toggle
                    (sql.upsert_toggle new (committed (connection storage))))).
  assert (Hnew : new ∈ rows).
  { apply list_elem_of_filter. split; [done|].
    destruct (upsert_toggle_stored new (committed (connection storage))) as (g & Hg & Hk).
    pose proof (upsert_toggle_key _ _ _ Hg Hk) as Heq. by subst g. }
  destruct (sql.latest rows) as [g|] eqn:E.
  - destruct (latest_spec _ _ E) as [Hg Hmax].
    assert (g = new) as ->.
    { apply list_elem_of_filter in Hg as [[Hc Hr] Hg].
      destruct (decide (g_error_key g = errorKey)) as [Hk|Hk].
      - apply (upsert_toggle_key new (committed (connection storage))); [done|].
        unfold sql.toggle_key. simpl. by rewrite Hc, Hr, Hk.
      - exfalso. specialize (Hmax new Hnew). simpl in Hmax.
        assert (Hlt : g_updated_at g < now); [|lia].
        apply Hold; [|done..].
        apply (upsert_toggle_other new); [|done].
        unfold sql.toggle_key. simpl. congruence. }
    done.
  - apply latest_none in E. rewrite E in Hnew. by apply elem_of_nil in Hnew.
Qed.

Lemma ToggleRuleForCluster_then_get_witness :
  let '(err, storage') := ToggleRuleForCluster toggleStorage "c1" "rule.a" "KEY_1" 0 20 in
  err = None
  /\ (GetFromClusterRuleToggle storage' "c1" "rule.a").1
     = (Some (mkClusterRuleToggle "c1" "rule.a" 0
                (if decide (0 = RuleToggleDisable) then Some 20 else None)
                (if decide (0 = RuleToggleEnable) then Some 20 else None)
                (Some 20)),
        None).
Proof.
  apply (ToggleRuleForCluster_then_get toggleStorage "c1" "rule.a" "KEY_1" 0 20).
  - apply Forall_nil_2.
  - by right.
  - intros g Hg Hc Hr Hk. vm_compute in Hg.
    repeat (apply elem_of_cons in Hg as [->|Hg]); simpl in *;
      try done; try lia. by apply elem_of_nil in Hg.
Defined.

(** X20: when the driver serves both calls, after
    [DeleteFromRuleClusterToggle] the toggle of the cluster and the rule is
    not found, under any error key, and the toggles of every other cluster
    or rule are as before. *)
Theorem DeleteFromRuleClusterToggle_then_get (storage : DBStorage)
    (clusterID : ClusterName) (ruleID : RuleID) :
  healthy (connection storage) ->
  let '(err, storage') := DeleteFromRuleClusterToggle storage clusterID ruleID in
  err = None
  /\ (GetFromClusterRuleToggle storage' clusterID ruleID).1
     = (None, Some (ItemNotFoundError [ArgText ruleID]))
  /\ (forall g, ~ (g_cluster_id g = clusterID /\ g_rule_id g = ruleID) ->
        g ∈ cluster_rule_toggle (committed (connection storage'))
        <-> g ∈ cluster_rule_toggle (committed (connection storage))).
Proof.
  intros Hh. unfold DeleteFromRuleClusterToggle. rewrite (Exec_healthy _ _ _ _ Hh).
  split; [done|]. split.
  - unfold GetFromClusterRuleToggle, QueryRow, Query. cbn [connection withConn].
    rewrite (roundtrip_healthy _ _ (healthy_tail _ _ _ Hh)).
    cbn [fst snd committed served connection withConn]. unfold sql.latest_toggle.
    replace (filter (fun g => g_cluster_id g = clusterID /\ g_rule_id g = ruleID)
               (cluster_rule_toggle
                  (stmt_delete_toggle clusterID ruleID (committed (connection storage)))))
      with (@nil ToggleRow); [done|].
    unfold stmt_delete_toggle. simpl. rewrite list_filter_filter.
    induction (cluster_rule_toggle (committed (connection storage))) as [|g tbl IH]; [done|].
    rewrite filter_cons. by rewrite decide_False by tauto.
  - intros g Hg. cbn. rewrite list_elem_of_filter. tauto.
Qed.

Lemma DeleteFromRuleClusterToggle_then_get_witness :
  let '(err, storage') := DeleteFromRuleClusterToggle toggleStorage "c1" "rule.a" in
  err = None
  /\ (GetFromClusterRuleToggle storage' "c1" "rule.a").1
     = (None, Some (ItemNotFoundError [ArgText "rule.a"]))
  /\ (forall g, ~ (g_cluster_id g = "c1" /\ g_rule_id g = "rule.a") ->
        g ∈ cluster_rule_toggle (committed (connection storage'))
        <-> g ∈ cluster_rule_toggle (committed (connection toggleStorage))).
Proof.
  apply (DeleteFromRuleClusterToggle_then_get toggleStorage "c1" "rule.a").
  apply Forall_nil_2.
Defined.

(** ** A report that names a rule twice *)

Lemma filter_key_excluded {A K : Type} `{EqDecision K} (f : A -> K) (k : K)
    (l : list A) :
  filter (fun x => f x = k) (filter (fun x => f x <> k) l) = [].
Proof.
  induction l as [|x l IH]; [done|].
  rewrite (filter_cons (fun x => f x <> k)).
  destruct (decide (f x <> k)) as [Hne|_]; [|done].
  rewrite filter_cons. by rewrite decide_False.
Qed.

(** X21: when a report names a module and error key a second time, what is
    read back for that rule depends on the driver: with the replace-style
    statement of SQLite it is the template data of the second naming, and
    with the conflict-update statement, whose [SET template_data = $4]
    names the fourth bound value, it is the error key of the rule in the
    place of its template data. *)
Theorem ReadSingleRuleTemplateData_repeated_rule (U : string -> error + string)
    (storage storage' : DBStorage) (orgID : OrgID) (clusterName : ClusterName)
    (blob : ClusterReport) (rules : list ReportItem) (again : ReportItem) (t : Time)
    (offset : KafkaOffset) (now : Time) :
  healthy (connection storage) ->
  sql.more_recent orgID clusterName t (committed (connection storage)) = [] ->
  NoDup (map itemKey rules) ->
  itemKey again ∈ map itemKey rules ->
  WriteReportForCluster storage orgID clusterName blob (rules ++ [again]) t offset now
    = (None, storage') ->
  (ReadSingleRuleTemplateData U storage' orgID clusterName (item_Module again)
                              (item_ErrorKey again)).1
  = (parseTemplateData U
       (if decide (dbDriverType storage = DBDriverSQLite3)
        then item_TemplateData again else item_ErrorKey again),
     None).
Proof.
  intros Hh Hrecent Hnd Hin Hw.
  destruct (WriteReportForCluster_applied_inv _ _ _ _ _ _ _ _ _ Hh Hrecent Hw)
    as (Hh' & Hdb & _ & _).
  set (new := hitRow orgID clusterName again).
  assert (Hkeys : map sql.hit_key (map (hitRow orgID clusterName) rules)
                  = map (fun k : string * string => (orgID, clusterName, k.1, k.2))
                        (map itemKey rules)).
  { rewrite !map_map. by apply map_ext. }
  assert (Hndk : NoDup (map sql.hit_key (map (hitRow orgID clusterName) rules))).
  { rewrite Hkeys. apply NoDup_fmap_2; [|done]. intros [a b] [c d] [= -> ->]. done. }
  apply (list_elem_of_fmap itemKey) in Hin as (first & Hk & Hfirst).
  assert (Hkf : sql.hit_key (hitRow orgID clusterName first) = sql.hit_key new).
  { unfold sql.hit_key, hitRow, new, itemKey in *. simpl. by injection Hk as -> ->. }
  assert (Hf : filter (fun h => sql.hit_key h = sql.hit_key new)
                 (rule_hit (committed (connection storage')))
               = filter (fun h => sql.hit_key h = sql.hit_key new)
                   (hitUpsert (dbDriverType storage) new
                      (map (hitRow orgID clusterName) rules))).
  { rewrite (filter_key_within sql.hit_key
               (fun h => h_org_id h = orgID /\ h_cluster_id h = clusterName)).
    - rewrite Hdb, writtenDB_rule_hit, foldl_hitUpsert_filter, delete_hits_filter.
      rewrite foldl_snoc. by rewrite foldl_hitUpsert_distinct.
    - intros h Hh0. unfold sql.hit_key, new, hitRow in Hh0. simpl in Hh0.
      by injection Hh0 as -> -> _ _. }
  unfold ReadSingleRuleTemplateData, QueryRow, Query.
  rewrite (roundtrip_healthy _ _ Hh'). simpl. unfold stmt_template_of.
  change (orgID, clusterName, item_Module again, item_ErrorKey again)
    with (sql.hit_key new).
  rewrite Hf. unfold hitUpsert, ruleHitUpsert. simpl.
  destruct (decide (dbDriverType storage = DBDriverSQLite3)) as [_|_].
  - unfold sql.replace_hit. rewrite filter_app, filter_key_excluded.
    rewrite filter_cons. by rewrite decide_True.
  - unfold sql.conflict_update_hit. rewrite bool_decide_eq_true_2.
    2:{ apply Exists_exists. exists (hitRow orgID clusterName first). split; [|done].
        apply (list_elem_of_fmap (hitRow orgID clusterName)). by exists first. }
    rewrite filter_map_same by (intros h; by case_bool_decide).
    assert (Hone : filter (fun h => sql.hit_key h = sql.hit_key new)
                     (map (hitRow orgID clusterName) rules)
                   = [hitRow orgID clusterName first]).
    { rewrite <- Hkf. apply filter_unique_key; [done|].
      apply (list_elem_of_fmap (hitRow orgID clusterName)). by exists first. }
    rewrite Hone. simpl. rewrite bool_decide_eq_true_2 by done. done.
Qed.

Lemma ReadSingleRuleTemplateData_repeated_rule_witness :
  (ReadSingleRuleTemplateData GoJSON.Unmarshal
     (WriteReportForCluster replicaB' 1 "c2" "r"
        (rulesA ++ [mkReportItem "rule.a" "KEY_1" "[7]"]) 30 6 31).2
     1 "c2" "rule.a" "KEY_1").1
  = (parseTemplateData GoJSON.Unmarshal
       (if decide (dbDriverType replicaB' = DBDriverSQLite3) then "[7]" else "KEY_1"),
     None).
Proof.
  apply (ReadSingleRuleTemplateData_repeated_rule GoJSON.Unmarshal replicaB'
           (WriteReportForCluster replicaB' 1 "c2" "r"
              (rulesA ++ [mkReportItem "rule.a" "KEY_1" "[7]"]) 30 6 31).2
           1 "c2" "r" rulesA (mkReportItem "rule.a" "KEY_1" "[7]") 30 6 31).
  - apply Forall_nil_2.
  - reflexivity.
  - apply (bool_decide_unpack _). vm_compute. reflexivity.
  - apply (bool_decide_unpack _). vm_compute. reflexivity.
  - apply pair_eta_fst. vm_compute. reflexivity.
Defined.

Example ReadSingleRuleTemplateData_repeated_rule_postgres :
  (ReadSingleRuleTemplateData GoJSON.Unmarshal
     (WriteReportForCluster replicaB' 1 "c2" "r"
        (rulesA ++ [mkReportItem "rule.a" "KEY_1" "[7]"]) 30 6 31).2
     1 "c2" "rule.a" "KEY_1").1
  = (TemplateBytes "KEY_1", None).
Proof. vm_compute. reflexivity. Qed.

(** * Listing on the databases that the package writes *)

Lemma Exec_committed q args upd cn :
  committed (Exec q args upd cn).2 = committed cn
  \/ committed (Exec q args upd cn).2 = upd (committed cn).
Proof.
  unfold Exec, roundtrip. destruct (script cn) as [|[e|] rest]; simpl; auto.
Qed.

Lemma Init_committed storage :
  committed (connection (Init storage).2) = committed (connection storage).
Proof.
  unfold Init, Query, roundtrip.
  by destruct (script (connection storage)) as [|[e|] rest].
Qed.

Lemma ToggleRuleForCluster_report storage clusterID ruleID errorKey ruleToggle now :
  report (committed (connection
            (ToggleRuleForCluster storage clusterID ruleID errorKey ruleToggle now).2))
  = report (committed (connection storage)).
Proof.
  unfold ToggleRuleForCluster.
  destruct (decide (ruleToggle = RuleToggleDisable)) as [_|_];
    [|destruct (decide (ruleToggle = RuleToggleEnable)) as [_|_]; [|done]].
  all: unfold Exec, roundtrip, sql.upsert_toggle;
    by destruct (script (connection storage)) as [|[e|] rest].
Qed.

(** Every [org_id] of a written database is one that a [uint32] holds. *)
Lemma written_org_id storage :
  written storage ->
  forall r, r ∈ report (committed (connection storage)) -> 0 <= r_org_id r < 2 ^ 32.
Proof.
  induction 1 as [outcomes d|storage d _ IH|storage cn _ IH Hc|storage _ IH
                  |storage orgID clusterName blob rules t offset now _ IH Ho
                  |storage orgID _ IH|storage clusterName _ IH
                  |storage clusterID ruleID errorKey ruleToggle now _ IH
                  |storage clusterID ruleID _ IH]; intros r Hr.
  - by apply elem_of_nil in Hr.
  - by apply IH.
  - cbn [withConn connection] in Hr. rewrite Hc in Hr. by apply IH.
  - rewrite Init_committed in Hr. by apply IH.
  - pose proof (WriteReportForCluster_outcome storage orgID clusterName blob rules t
                  offset now) as Hout.
    destruct (WriteReportForCluster _ _ _ _ _ _ _ _) as [err storage'].
    cbn [snd] in Hr. destruct Hout as (_ & _ & [Hc|(_ & _ & Hc)]); rewrite Hc in Hr.
    + by apply IH.
    + destruct (decide (r_cluster r = clusterName)) as [Heq|Hne].
      * rewrite writtenDB_report in Hr.
        by rewrite (reportUpsert_same_cluster _ _ _ _ Hr Heq).
      * apply writtenDB_other_reports in Hr; [|done]. by apply IH.
  - unfold DeleteReportsForOrg in Hr.
    destruct (Exec_committed "DELETE FROM report WHERE org_id = $1;" [ArgInt orgID]
                (stmt_delete_org orgID) (connection storage)) as [Hc|Hc];
      destruct (Exec _ _ _ _) as [err cn]; cbn in Hr, Hc; rewrite Hc in Hr.
    + by apply IH.
    + apply list_elem_of_filter in Hr as [_ Hr]. by apply IH.
  - unfold DeleteReportsForCluster in Hr.
    destruct (Exec_committed "DELETE FROM report WHERE cluster = $1;" [ArgText clusterName]
                (stmt_delete_cluster clusterName) (connection storage)) as [Hc|Hc];
      destruct (Exec _ _ _ _) as [err cn]; cbn in Hr, Hc; rewrite Hc in Hr.
    + by apply IH.
    + apply list_elem_of_filter in Hr as [_ Hr]. by apply IH.
  - rewrite ToggleRuleForCluster_report in Hr. by apply IH.
  - unfold DeleteFromRuleClusterToggle in Hr.
    destruct (Exec_committed deleteToggleQuery [ArgText clusterID; ArgText ruleID]
                (stmt_delete_toggle clusterID ruleID) (connection storage)) as [Hc|Hc];
      destruct (Exec _ _ _ _) as [err cn]; cbn in Hr, Hc; rewrite Hc in Hr.
    + by apply IH.
    + by apply IH.
Qed.






Example ListOfOrgs_written_values :
  (ListOfOrgs twoOrgsStorage).1 = ([1; 7], None)
  /\ (ListOfClustersForOrg twoOrgsStorage 7 0).1 = (["d"], None)
  /\ (ListOfOrgs downStorage).1 = ([], Some (DriverError "connection refused")).
Proof. vm_compute. repeat split; reflexivity. Qed.


(** No write of the package stores an [org_id] of -1: the table of
    [orgsStorage] is not one that the package makes of an empty one. *)
Example orgsStorage_not_written : ~ written orgsStorage.
Proof.
  intros Hw. pose proof (written_org_id _ Hw (mkReportRow (-1) "b" "rb" 0 0 0)) as Hfit.
  cbn in Hfit. assert (0 <= -1) as ?; [|lia].
  apply Hfit. right. by left.
Qed.
